(** * Insider-trading scripts: extraction, momentum analysis, ticker sampling

    A shallow embedding of the four scripts of the repository

      - [Api_test.py]                                  (module [ApiTest])
      - [api_test_expanded_list.py]                    (module [ExpandedList])
      - [deep_dive_into_return_post_insider_trade.py]  (module [DeepDive])
      - [return_post_insider_trading.py]               (module [ReturnPost])

    Python values that come out of [resp.json()] are modelled by [json];
    exceptions by the [result] monad; printing, the network and the module
    globals by the [io] monad over a [world].  The external collaborators
    (the HTTP library, the market-data library, the random generator and the
    date parser) are the fields of an [oracle] record. *)

From Stdlib Require Import ZArith Ascii String List Bool Lia.
From Stdlib Require Import Floats.
From Stdlib Require Import Numbers.Cyclic.Int63.Uint63.
From stdpp Require Import base option list gmap strings pretty.

Set Warnings "-register-all,-inexact-float".
Open Scope string_scope.
Open Scope list_scope.
Open Scope Z_scope.

(* ===================================================================== *)
(** * Python values, exceptions and the little of the language we need    *)
(* ===================================================================== *)

Module Py.

(** What [json.loads] builds.  A [JObj] lists the items of the parsed dict
    in insertion order; lookups take the first item with the key. *)
Inductive json : Type :=
| JNull
| JBool (b : bool)
| JInt (z : Z)
| JFloat (f : float)
| JStr (s : string)
| JArr (xs : list json)
| JObj (items : list (string * json)).

Inductive exn : Type :=
| AttributeError
| TypeError
| IndexError
| KeyError
| OverflowError
| ValueError (msg : string)
| UnboundLocalError (name : string)
| ConnectionError
| HTTPError (msg : string)
| JSONDecodeError
| Exception (msg : string)
| SystemExit (code : Z).

Inductive result (A : Type) : Type :=
| Ok (a : A)
| Raise (e : exn).
Arguments Ok {A} a.
Arguments Raise {A} e.

#[global] Instance result_ret : MRet result := fun A a => Ok a.
#[global] Instance result_bind : MBind result :=
  fun A B f m => match m with Ok a => f a | Raise e => Raise e end.
#[global] Instance result_fmap : FMap result :=
  fun A B f m => match m with Ok a => Ok (f a) | Raise e => Raise e end.

Definition is_ok {A} (r : result A) : bool :=
  match r with Ok _ => true | Raise _ => false end.

(** [bool(v)] *)
Definition truthy (v : json) : bool :=
  match v with
  | JNull => false
  | JBool b => b
  | JInt z => negb (z =? 0)
  | JFloat f => negb (PrimFloat.eqb f 0%float)
  | JStr s => negb (String.eqb s "")
  | JArr xs => match xs with [] => false | _ => true end
  | JObj items => match items with [] => false | _ => true end
  end.

(** [a or b] *)
Definition or_ (a b : json) : json := if truthy a then a else b.

Fixpoint assoc (k : string) (items : list (string * json)) : option json :=
  match items with
  | [] => None
  | (k', v) :: rest => if String.eqb k k' then Some v else assoc k rest
  end.

(** [o.get(k, dflt)]: only a dict has the method. *)
Definition get (o : json) (k : string) (dflt : json) : result json :=
  match o with
  | JObj items => Ok (default dflt (assoc k items))
  | _ => Raise AttributeError
  end.

(** [o.get(k)] *)
Definition get_ (o : json) (k : string) : result json := get o k JNull.

(** [iter(v)]: a list gives its elements, a str its characters, a dict its
    keys; nothing else can be looped over. *)
Definition iter (v : json) : result (list json) :=
  match v with
  | JArr xs => Ok xs
  | JStr s => Ok (map (fun c => JStr (String c EmptyString)) (list_ascii_of_string s))
  | JObj items => Ok (map (fun kv => JStr (fst kv)) items)
  | _ => Raise TypeError
  end.

(** [sep.join(items)]: every item has to be a str. *)
Fixpoint strs (items : list json) : result (list string) :=
  match items with
  | [] => Ok []
  | JStr s :: rest => ss ← strs rest; mret (s :: ss)
  | _ :: _ => Raise TypeError
  end.

Fixpoint concat_sep (sep : string) (ss : list string) : string :=
  match ss with
  | [] => ""
  | [s] => s
  | s :: rest => s +:+ sep +:+ concat_sep sep rest
  end.

Definition join (sep : string) (items : list json) : result string :=
  ss ← strs items; mret (concat_sep sep ss).

(** [s.split(c)] for a one-character separator: never the empty list. *)
Fixpoint split (c : Ascii.ascii) (s : string) : list string :=
  match s with
  | EmptyString => [""]
  | String a s' =>
      if Ascii.eqb a c then "" :: split c s'
      else match split c s' with
           | h :: t => String a h :: t
           | [] => [String a ""]
           end
  end.

(** [l[i]], with Python's negative indices. *)
Definition getitem {A} (l : list A) (i : Z) : result A :=
  let n := Z.of_nat (length l) in
  let j := if i <? 0 then i + n else i in
  if (j <? 0) || (n <=? j) then Raise IndexError
  else match l !! Z.to_nat j with
       | Some x => Ok x
       | None => Raise IndexError
       end.

(** A loop [for x in xs: body] over a state that the body updates. *)
Fixpoint for_ {A S} (xs : list A) (body : A -> S -> result S) (s : S) : result S :=
  match xs with
  | [] => Ok s
  | x :: rest => s' ← body x s; for_ rest body s'
  end.

(** A list comprehension [[f(x) for x in xs]]. *)
Fixpoint comprehension {A B} (f : A -> result B) (xs : list A) : result (list B) :=
  match xs with
  | [] => Ok []
  | x :: rest => y ← f x; ys ← comprehension f rest; mret (y :: ys)
  end.

(** A local variable that may not have been assigned yet. *)
Definition local {A} (name : string) (v : option A) : result A :=
  match v with
  | Some x => Ok x
  | None => Raise (UnboundLocalError name)
  end.

(** [d[k] = v] on the items of a dict: the value is replaced where the key
    stands, a new key goes to the end. *)
Fixpoint setitem (d : list (string * json)) (k : string) (v : json)
  : list (string * json) :=
  match d with
  | [] => [(k, v)]
  | (k', v') :: rest =>
      if String.eqb k k' then (k, v) :: rest else (k', v') :: setitem rest k v
  end.

(** What a dict yields when it is walked: each key once, in order, with the
    value a lookup gives. *)
Fixpoint dict_items (items : list (string * json)) : list (string * json) :=
  match items with
  | [] => []
  | (k, v) :: rest =>
      (k, v) :: List.filter (fun kv => negb (String.eqb (fst kv) k)) (dict_items rest)
  end.

(** [{**a, **b}]: [b] has to be a mapping. *)
Definition merge (a : list (string * json)) (b : json) : result (list (string * json)) :=
  match b with
  | JObj items => Ok (fold_left (fun d kv => setitem d (fst kv) (snd kv)) (dict_items items) a)
  | _ => Raise TypeError
  end.

End Py.
Import Py.


(* ===================================================================== *)
(** * Dates and timestamps                                                *)
(* ===================================================================== *)

Module Time.

(** A [datetime.date], as the number of days since 1970-01-01. *)
Definition date : Type := Z.

(** The date with the given year, month and day of the proleptic Gregorian
    calendar. *)
Definition ymd (y m d : Z) : date :=
  let y' := if m <=? 2 then y - 1 else y in
  let era := y' / 400 in
  let yoe := y' - era * 400 in
  let mp := if 2 <? m then m - 3 else m + 9 in
  let doy := (153 * mp + 2) / 5 + d - 1 in
  let doe := yoe * 365 + yoe / 4 - yoe / 100 + doy in
  era * 146097 + doe - 719468.

(** A [pandas.Timestamp]: [value] counts the nanoseconds since the epoch in
    UTC; [tzinfo] is [None] for a naive timestamp and otherwise the offset
    from UTC, in seconds, of its zone at that instant. *)
Record Timestamp : Type := mkTimestamp { value : Z; tzinfo : option Z }.

Definition ns_per_second : Z := 1000000000.
Definition ns_per_day : Z := 86400 * ns_per_second.

(** The nanoseconds since the epoch that the wall clock of [t] shows. *)
Definition wall (t : Timestamp) : Z :=
  value t + default 0 (tzinfo t) * ns_per_second.

(** [t.date()]: the calendar day of the wall clock, without zone. *)
Definition date_of (t : Timestamp) : date := wall t / ns_per_day.

(** Midnight of a day, as a naive timestamp. *)
Definition midnight (d : date) : Timestamp := mkTimestamp (d * ns_per_day) None.

(** [t.tz_convert(None)]: to UTC, zone dropped; refuses a naive timestamp. *)
Definition tz_convert_None (t : Timestamp) : result Timestamp :=
  match tzinfo t with
  | Some _ => Ok (mkTimestamp (value t) None)
  | None => Raise TypeError
  end.

(** [t.tz_localize(None)]: the wall clock, zone dropped; a naive timestamp
    is returned as it is. *)
Definition tz_localize_None (t : Timestamp) : Timestamp :=
  match tzinfo t with
  | Some _ => mkTimestamp (wall t) None
  | None => t
  end.

(** The first and the last day a [datetime.date] can hold. *)
Definition date_min : date := ymd 1 1 1.
Definition date_max : date := ymd 9999 12 31.

(** The largest [int64].  A [Timestamp] and a [Timedelta] count their
    nanoseconds in an [int64], whose smallest value is kept for [NaT]. *)
Definition int64_max : Z := 9223372036854775807.

Definition in_bounds (ns : Z) : bool := (- int64_max <=? ns) && (ns <=? int64_max).

(** [pd.Timedelta(days=n)] and [pd.Timedelta(hours=n)], given the
    nanoseconds they stand for: a [Timedelta] is that number; beyond the
    bounds the constructor raises its out-of-bounds error, for which
    [OverflowError] stands. *)
Definition Timedelta (ns : Z) : result Z :=
  if in_bounds ns then Ok ns else Raise OverflowError.

(** [d + td] for a [datetime.date] [d]: the whole days of [td] are added,
    and the sum has to be a date again. *)
Definition date_add (d : date) (td : Z) : result date :=
  let sum := d + td / ns_per_day in
  if (date_min <=? sum) && (sum <=? date_max) then Ok sum else Raise OverflowError.

(** [t + td] for a [Timestamp] [t]: the sum has to be within the bounds. *)
Definition add_timedelta (t : Timestamp) (td : Z) : result Timestamp :=
  let sum := value t + td in
  if in_bounds sum then Ok (mkTimestamp sum (tzinfo t)) else Raise OverflowError.

(** [t.to_pydatetime()] keeps microseconds: the wall clock in microseconds. *)
Definition to_pydatetime (t : Timestamp) : Z := wall t / 1000.

(** [td.total_seconds()] of a [timedelta] of [us] microseconds: the integer
    division [us / 10**6] of Python, which rounds the exact quotient once,
    to the nearest binary64, ties to even. *)
Definition total_seconds (us : Z) : float :=
  match us with
  | Z0 => 0%float
  | Zpos p => SF2Prim (SFdiv prec emax (S754_finite false p 0) (S754_finite false 1000000 0))
  | Zneg p => SF2Prim (SFdiv prec emax (S754_finite true p 0) (S754_finite false 1000000 0))
  end.

End Time.
Import Time.


(* ===================================================================== *)
(** * The world outside: environment, console, network, module globals    *)
(* ===================================================================== *)

Module World.

(** The JSON body of a filing-search request. *)
Record payload : Type := mkPayload {
  p_query : string;
  p_from : Z;
  p_size : Z;
  p_sort : string * string        (* [{field: {"order": order}}] *)
}.

(** What [requests.post] hands back. [body] is what [resp.json()] parses,
    [None] when the text is not JSON. *)
Record response : Type := mkResponse {
  status_code : Z;
  reason : string;
  url : string;
  text : string;
  body : option json
}.

(** The start and end of a price-history request: a day in the day-window
    script, a timestamp in the hour-window script, [pd.NaT] in both when
    the record has no transaction date. *)
Inductive instant : Type :=
| OnDay (d : date)
| At (t : Timestamp)
| NaT.

Definition on_day (d : option date) : instant :=
  match d with Some d => OnDay d | None => NaT end.
Definition at_time (t : option Timestamp) : instant :=
  match t with Some t => At t | None => NaT end.

(** A request that leaves the process. *)
Inductive call : Type :=
| POST (to : string) (authorization : option string) (json_body : payload)
| INFO (ticker : json)
| HISTORY (ticker : json) (start stop : instant) (interval : string)
| TO_CSV (path : string) (rows : nat).

(** The collaborators.  [requests_post] answers [None] on a transport
    error; [yf_info] answers [None] when the market-data library throws;
    [yf_history] answers the Close column, oldest first, or, when the
    library throws, the text of its exception; [random_choice] is the
    selection [random.sample] makes once its arguments are accepted.
    [to_datetime] is [pd.to_datetime] on a whole column: the exception
    when it raises (a cell it cannot parse, cells of different formats),
    otherwise the parsed column, as the cell at each position, [None] for
    [pd.NaT].
    [str_value] is what a format string shows for a cell that is not a
    str. *)
Record oracle : Type := mkOracle {
  requests_post : string -> option string -> payload -> option response;
  yf_info : json -> option json;
  yf_history : json -> instant -> instant -> string -> string + list (Timestamp * float);
  random_choice : list string -> nat -> list string;
  to_datetime : list json -> exn + (nat -> option Timestamp);
  str_value : json -> string
}.

(** The names a script binds at module level. *)
Record globals : Type := mkGlobals {
  API_KEY : string;
  TRANSACTION_CODE_MEANINGS : gmap string string
}.

Record world : Type := mkWorld {
  environ : gmap string string;   (* os.environ *)
  stdout : list string;           (* printed lines, oldest first *)
  wire : list call;               (* requests issued, oldest first *)
  module : globals
}.

Definition io (A : Type) : Type := world -> result A * world.

#[global] Instance io_ret : MRet io := fun A a w => (Ok a, w).
#[global] Instance io_bind : MBind io :=
  fun A B f m w =>
    match m w with
    | (Ok a, w') => f a w'
    | (Raise e, w') => (Raise e, w')
    end.

Definition lift {A} (r : result A) : io A := fun w => (r, w).
Definition raise {A} (e : exn) : io A := lift (Raise e).

(** Run [m] and hand its outcome to the handler code as a value. *)
Definition attempt {A} (m : io A) : io (result A) :=
  fun w => let '(r, w') := m w in (Ok r, w').

Definition print (line : string) : io unit :=
  fun w => (Ok tt, mkWorld (environ w) (stdout w ++ [line]) (wire w) (module w)).

Definition emit (c : call) : io unit :=
  fun w => (Ok tt, mkWorld (environ w) (stdout w) (wire w ++ [c]) (module w)).

Definition global {A} (name : globals -> A) : io A :=
  fun w => (Ok (name (module w)), w).

Definition bind_globals (g : globals) : io unit :=
  fun w => (Ok tt, mkWorld (environ w) (stdout w) (wire w) g).

(** [os.getenv(name, dflt)] *)
Definition getenv (name dflt : string) : io string :=
  fun w => (Ok (default dflt (environ w !! name)), w).

(** A loop whose body prints or calls out. *)
Fixpoint for_io {A S} (xs : list A) (body : A -> S -> io S) (s : S) : io S :=
  match xs with
  | [] => mret s
  | x :: rest => s' ← body x s; for_io rest body s'
  end.

Section Collaborators.
Variable o : oracle.

(** [requests.post(url, headers=..., json=payload)] *)
Definition post (to : string) (authorization : option string) (p : payload) : io response :=
  _ ← emit (POST to authorization p);
  match requests_post o to authorization p with
  | Some r => mret r
  | None => raise ConnectionError
  end.

(** [yf.Ticker(t).info] *)
Definition info (t : json) : io json :=
  _ ← emit (INFO t);
  match yf_info o t with
  | Some i => mret i
  | None => raise (Exception "yfinance: no info")
  end.

(** [yf.Ticker(t).history(start=..., end=..., interval=...)["Close"]] *)
Definition history_close (t : json) (start stop : instant) (interval : string)
  : io (list (Timestamp * float)) :=
  _ ← emit (HISTORY t start stop interval);
  match yf_history o t start stop interval with
  | inr closes => mret closes
  | inl msg => raise (Exception msg)
  end.

(** [pd.to_datetime(column)] *)
Definition pd_to_datetime (column : list json) : result (nat -> option Timestamp) :=
  match to_datetime o column with
  | inr cells => Ok cells
  | inl e => Raise e
  end.

(** [f"{v}"] for a cell of the table. *)
Definition str_json (v : json) : string :=
  match v with
  | JStr s => s
  | _ => str_value o v
  end.

(** [random.sample(population, k)] *)
Definition random_sample (population : list string) (k : Z) : io (list string) :=
  if (k <? 0) || (Z.of_nat (length population) <? k)
  then raise (ValueError "Sample larger than population or is negative")
  else mret (random_choice o population (Z.to_nat k)).
End Collaborators.

(** [resp.raise_for_status()] of the HTTP library: 4xx and 5xx raise. *)
Definition raise_for_status (r : response) : result unit :=
  if (400 <=? status_code r) && (status_code r <? 500) then
    Raise (HTTPError (pretty (status_code r) +:+ " Client Error: " +:+ reason r
                        +:+ " for url: " +:+ url r))
  else if (500 <=? status_code r) && (status_code r <? 600) then
    Raise (HTTPError (pretty (status_code r) +:+ " Server Error: " +:+ reason r
                        +:+ " for url: " +:+ url r))
  else Ok tt.

(** [resp.json()] *)
Definition json_of (r : response) : result json :=
  match body r with
  | Some j => Ok j
  | None => Raise JSONDecodeError
  end.

(** [str(e)] *)
Definition str_exn (e : exn) : string :=
  match e with
  | AttributeError => "AttributeError"
  | TypeError => "TypeError"
  | IndexError => "IndexError"
  | KeyError => "KeyError"
  | OverflowError => "OverflowError"
  | ValueError msg => msg
  | UnboundLocalError name => "local variable '" +:+ name +:+ "' referenced before assignment"
  | ConnectionError => "ConnectionError"
  | HTTPError msg => msg
  | JSONDecodeError => "JSONDecodeError"
  | Exception msg => msg
  | SystemExit code => pretty code
  end.

(** The line feed of a format string. *)
Definition nl : string := String (ascii_of_nat 10) EmptyString.

(** [repr] of a list of str. *)
Definition repr_strs (l : list string) : string :=
  "[" +:+ concat_sep ", " (map (fun t => "'" +:+ t +:+ "'") l) +:+ "]".

(** [except Exception] does not stop [sys.exit]. *)
Definition is_Exception (e : exn) : bool :=
  match e with
  | SystemExit _ => false
  | _ => true
  end.

End World.
Import World.

(* ===================================================================== *)
(** * Api_test.py                                                         *)
(* ===================================================================== *)

Module ApiTest.

Definition BASE_URL : string := "https://api.sec-api.io/insider-trading".

(** One row of the flattened table. *)
Record record : Type := mkRecord {
  documentType : json;
  footnotes : string;
  remarks : json;
  officerTitle : json;
  otherText : json;
  transactionCategory : string;
  securityTitle : json;
  transactionDate : json;
  transactionCode : json;
  equitySwapInvolved : json;
  shares : json;
  pricePerShare : json;
  sharesOwnedFollowingTransaction : json
}.

(** The names the loop body binds before it defines [extract]. *)
Record meta : Type := mkMeta {
  doc_type : json;
  footnotes_text : string;
  m_remarks : json;
  officer_title : json;
  other_text : json
}.

(** Lines 43-49: the meta fields of one group. *)
Definition group_meta (grp : json) : result meta :=
  doc_type ← get_ grp "documentType";
  fl ← get grp "footnotes" (JArr []);
  footnotes_list ← iter (or_ fl (JArr []));
  texts ← comprehension (fun fn => get fn "text" (JStr "")) footnotes_list;
  footnotes_text ← join "; " texts;
  remarks ← get_ grp "remarks";
  owner ← get grp "reportingOwner" (JObj []);
  rel0 ← get owner "relationship" (JObj []);
  let rel := or_ rel0 (JObj []) in
  officer_title ← get_ rel "officerTitle";
  other_text ← get_ rel "otherText";
  mret (mkMeta doc_type footnotes_text remarks officer_title other_text).

(** Lines 52-70: the closure [extract(tx, category)]. *)
Definition extract (m : meta) (tx : json) (category : string) : result record :=
  coding0 ← get tx "coding" (JObj []);
  let coding := or_ coding0 (JObj []) in
  amounts0 ← get tx "amounts" (JObj []);
  let amounts := or_ amounts0 (JObj []) in
  post0 ← get tx "postTransactionAmounts" (JObj []);
  let post := or_ post0 (JObj []) in
  security ← get_ tx "securityTitle";
  date ← get_ tx "transactionDate";
  code ← get_ coding "code";
  swap ← get_ coding "equitySwapInvolved";
  shares ← get_ amounts "shares";
  price ← get_ amounts "pricePerShare";
  owned ← get_ post "sharesOwnedFollowingTransaction";
  mret (mkRecord (doc_type m) (footnotes_text m) (m_remarks m) (officer_title m)
          (other_text m) category security date code swap shares price owned).

(** [for tx in grp.get(table, {}).get("transactions", []) or []:
       records.append(extract(tx, category))] *)
Definition table_loop (m : meta) (grp : json) (table category : string)
    (records : list record) : result (list record) :=
  t ← get grp table (JObj []);
  txs0 ← get t "transactions" (JArr []);
  txs ← iter (or_ txs0 (JArr []));
  for_ txs (fun tx records => r ← extract m tx category; mret (records ++ [r])) records.

(** Lines 42-78: the body of [for grp in tx_groups]. *)
Definition group_loop (grp : json) (records : list record) : result (list record) :=
  m ← group_meta grp;
  records ← table_loop m grp "nonDerivativeTable" "nonDerivative" records;
  table_loop m grp "derivativeTable" "derivative" records.

(** Lines 37-78: from the parsed response to the list [records]. *)
Definition flatten (data : json) : result (list record) :=
  tx_groups0 ← get data "transactions" (JArr []);
  tx_groups ← iter tx_groups0;
  for_ tx_groups group_loop [].

Section Script.
Variable o : oracle.

Definition fetch_insider_trades_enhanced (query : string) (size : Z) (use_header : bool)
  : io (list record) :=
  let payload := mkPayload query 0 size ("filedAt", "desc") in
  key ← global API_KEY;
  resp ← (if use_header then post o BASE_URL (Some key) payload
          else post o (BASE_URL +:+ "?token=" +:+ key) None payload);
  match raise_for_status resp with
  | Raise (HTTPError e) =>
      _ ← print ("HTTP " +:+ pretty (status_code resp) +:+ " error: " +:+ e);
      _ ← print ("Response body: " +:+ text resp);
      mret []
  | Raise e => raise e
  | Ok _ =>
      data ← lift (json_of resp);
      records ← lift (flatten data);
      _ ← match records with
          | [] => print "No transactions found or unable to extract nested transaction fields."
          | _ => mret tt
          end;
      mret records
  end.

(** Line 6. *)
Definition import_module : io unit :=
  key ← getenv "API_KEY" "API_KEY";
  bind_globals (mkGlobals key ∅).

Definition out_path : string :=
  "C:\Users\james\OneDrive\Desktop\Insider Buys and Sells\api_test_output.csv".

(** Lines 86-96. *)
Definition main : io unit :=
  _ ← import_module;
  df_enhanced ← fetch_insider_trades_enhanced "issuer.tradingSymbol:TSLA" 5 true;
  match df_enhanced with
  | [] => print "No enhanced records to display."
  | _ =>
      _ ← print "<DataFrame>";
      _ ← emit (TO_CSV out_path (length df_enhanced));
      print ("Enhanced data saved to " +:+ out_path)
  end.
End Script.

End ApiTest.

(* ===================================================================== *)
(** * deep_dive_into_return_post_insider_trade.py                         *)
(* ===================================================================== *)

Module DeepDive.

Definition BASE_URL : string := "https://api.sec-api.io/insider-trading".

(** Lines 18-31. *)
Definition meanings : gmap string string :=
  list_to_map
    [ ("P", "Purchase"); ("S", "Sale"); ("A", "Grant/Award"); ("D", "Disposition");
      ("F", "Payment"); ("M", "Conversion/Exercise"); ("G", "Gift"); ("V", "Voluntary");
      ("J", "Other"); ("K", "Equity Swap"); ("L", "Small Acquisition"); ("U", "Tender") ].

(** One row of the trades table; [D] is what the transactionDate column
    holds: the cell of the response at first and, once converted, a date
    or [pd.NaT] ([None]). *)
Record row (D : Type) : Type := mkRow {
  ticker : json;
  transactionDate : D;
  transactionCode : json;
  transactionDesc : string;
  shares : json;
  pricePerShare : json;
  officerTitle : json
}.
Arguments mkRow {D}.
Arguments ticker {D}.
Arguments transactionDate {D}.
Arguments transactionCode {D}.
Arguments transactionDesc {D}.
Arguments shares {D}.
Arguments pricePerShare {D}.
Arguments officerTitle {D}.

(** The row with another cell in the transactionDate column. *)
Definition set_transactionDate {D E} (f : D -> E) (r : row D) : row E :=
  mkRow (ticker r) (f (transactionDate r)) (transactionCode r) (transactionDesc r)
        (shares r) (pricePerShare r) (officerTitle r).

(** [df["transactionDate"] = column] *)
Definition with_transactionDate {D E} (column : nat -> E) (df : list (row D)) : list (row E) :=
  imap (fun i => set_transactionDate (fun _ => column i)) df.

(** [vocabulary.get(code, "Unknown")]: a list or a dict cannot be a key. *)
Definition describe (vocabulary : gmap string string) (code : json) : result string :=
  match code with
  | JStr c => Ok (default "Unknown" (vocabulary !! c))
  | JArr _ | JObj _ => Raise TypeError
  | _ => Ok "Unknown"
  end.

(** Lines 53-62: the body of [for tx in ...]. *)
Definition tx_loop (vocabulary : gmap string string) (symbol grp tx : json)
    (rows : list (row json)) : result (list (row json)) :=
  coding ← get tx "coding" (JObj []);
  code ← get_ coding "code";
  date ← get_ tx "transactionDate";
  desc ← describe vocabulary code;
  amounts ← get tx "amounts" (JObj []);
  shares ← get_ amounts "shares";
  amounts' ← get tx "amounts" (JObj []);
  price ← get_ amounts' "pricePerShare";
  owner ← get grp "reportingOwner" (JObj []);
  rel ← get owner "relationship" (JObj []);
  title ← get_ rel "officerTitle";
  mret (rows ++ [mkRow symbol date code desc shares price title]).

(** Lines 51-62: the body of [for table_name in (...)]. *)
Definition table_loop (vocabulary : gmap string string) (symbol grp : json)
    (table_name : string) (rows : list (row json)) : result (list (row json)) :=
  t ← get grp table_name (JObj []);
  txs0 ← get t "transactions" (JArr []);
  txs ← iter (or_ txs0 (JArr []));
  for_ txs (tx_loop vocabulary symbol grp) rows.

(** Line 50. *)
Definition resolve_symbol (query : string) (grp : json) : result json :=
  issuer ← get grp "issuer" (JObj []);
  symbol ← get_ issuer "tradingSymbol";
  if truthy symbol then Ok symbol
  else s ← getitem (split ":"%char query) (-1); mret (JStr s).

(** Lines 50-62: the body of [for grp in transactions]. *)
Definition group_loop (vocabulary : gmap string string) (query : string) (grp : json)
    (rows : list (row json)) : result (list (row json)) :=
  symbol ← resolve_symbol query grp;
  for_ ["nonDerivativeTable"; "derivativeTable"] (table_loop vocabulary symbol grp) rows.

(** Lines 47-62: from the parsed response to the list [rows]. *)
Definition flatten (vocabulary : gmap string string) (query : string) (data : json)
  : result (list (row json)) :=
  transactions0 ← get data "transactions" (JArr []);
  transactions ← iter transactions0;
  for_ transactions (group_loop vocabulary query) [].

(** A row of the momentum table: the trade and the three added columns;
    [None] stands for [pd.NA] and [pd.NaT]. *)
Record momentum : Type := mkMomentum {
  trade : row (option date);
  return_ : option float;
  realizedDate : option date;
  daysDiff : option Z
}.

Definition default_universe : list string :=
  [ "AAPL"; "MSFT"; "AMZN"; "GOOGL"; "BRK.B"; "NVDA"; "META"; "TSLA"; "JPM"; "V";
    "UNH"; "HD"; "PG"; "MA"; "DIS"; "NFLX"; "PFE"; "BAC"; "VZ"; "KO";
    "NKE"; "CRM"; "ORCL"; "IBM"; "WMT"; "COST"; "ADBE"; "CSCO"; "XOM"; "CVX";
    "PEP"; "ABT"; "TMO"; "MDT"; "ACN"; "LLY"; "TXN"; "NEE"; "AVGO"; "SAP" ].

(** [list(dict.fromkeys(l))]: first occurrences, in order. *)
Fixpoint fromkeys (l : list string) : list string :=
  match l with
  | [] => []
  | x :: rest => x :: filter (fun y => y ≠ x) (fromkeys rest)
  end.

Definition out_path : string :=
  "C:\Users\james\OneDrive\Desktop\Insider Buys and Sells\insider_momentum.csv".

Section Script.
Variable o : oracle.

(** Lines 9-31. *)
Definition import_module : io unit :=
  key ← getenv "API_KEY" "API_KEY";
  if String.eqb key ""
  then raise (ValueError
         "Please set your SEC_API_KEY environment variable to your real API key.")
  else bind_globals (mkGlobals key meanings).

(** Lines 33-63.  [sent] is the outcome of the first statement of the
    [try] block; the local [resp] is bound only when it returned. *)
Definition fetch_insider_trades (query : string) (size : Z) : io (list (row json)) :=
  let size := Z.min size 50 in
  let payload := mkPayload query 0 size ("filedAt", "desc") in
  key ← global API_KEY;
  sent ← attempt (post o BASE_URL (Some key) payload);
  let resp := match sent with Ok r => Some r | Raise _ => None end in
  let raised :=
    match sent with
    | Ok r => match raise_for_status r with Raise e => Some e | Ok _ => None end
    | Raise e => Some e
    end in
  match raised with
  | Some e =>
      if is_Exception e then
        r ← lift (local "resp" resp);
        _ ← print ("Error fetching insider trades for '" +:+ query +:+ "': "
                     +:+ str_exn e +:+ nl +:+ text r);
        mret []
      else raise e
  | None =>
      r ← lift (local "resp" resp);
      data ← lift (json_of r);
      vocabulary ← global TRANSACTION_CODE_MEANINGS;
      lift (flatten vocabulary query data)
  end.

(** Lines 65-71. *)
Definition is_listed (ticker : string) : io bool :=
  r ← attempt (i ← info o (JStr ticker);
               price ← lift (get_ i "regularMarketPrice");
               mret (match price with JNull => false | _ => true end));
  match r with
  | Ok b => mret b
  | Raise e => if is_Exception e then mret false else raise e
  end.

(** [[t for t in candidates if is_listed(t)]] *)
Definition listed_of (candidates : list string) : io (list string) :=
  for_io candidates
    (fun t acc => b ← is_listed t; mret (if b : bool then acc ++ [t] else acc)) [].

(** Lines 73-89. *)
Definition get_random_mega_caps (sample_size : Z) : io (list string) :=
  let unique_universe := fromkeys default_universe in
  listed ← listed_of unique_universe;
  if Z.of_nat (length listed) <? sample_size then
    _ ← print ("Only " +:+ pretty (Z.of_nat (length listed))
                 +:+ " listed mega-cap tickers available; sampling all.");
    mret listed
  else random_sample o listed sample_size.

(** Lines 102-126: the body of [for _, row in df.iterrows()]. *)
Definition momentum_loop (days_after : Z) (row : row (option date))
    (results : list momentum) : io (list momentum) :=
  let tkr := ticker row in
  let trade_date := transactionDate row in
  let start := trade_date in
  td ← lift (Timedelta (days_after * ns_per_day));
  stop ← lift (match trade_date with
               | Some d => Some <$> date_add d td
               | None => Ok None                    (* NaT + td is NaT *)
               end);
  hist ← attempt (history_close o tkr (on_day start) (on_day stop) "1d");
  closes ← match hist with
           | Ok c => mret c
           | Raise e =>
               if is_Exception e then
                 _ ← print ("Error fetching history for " +:+ str_json o tkr +:+ ": "
                              +:+ str_exn e);
                 mret []
               else raise e
           end;
  record ←
    (if 1 <=? Z.of_nat (length closes) then
       initial ← lift (getitem (map snd closes) 0);
       later ← lift (getitem (map snd closes) (-1));
       let ret := PrimFloat.div (PrimFloat.sub later initial) initial in
       last ← lift (getitem (map fst closes) (-1));
       let realized_date := date_of last in
       days_diff ← lift (match trade_date with
                         | Some d => Ok (date_of last - d)
                         | None => Raise TypeError  (* a date minus NaT *)
                         end);
       mret (mkMomentum row (Some ret) (Some realized_date) (Some days_diff))
     else mret (mkMomentum row None None None));
  mret (results ++ [record]).

(** Lines 91-127. *)
Definition analyze_trade_momentum (df : list (row json)) (days_after : Z)
  : io (list momentum) :=
  match df with
  | [] => _ ← print "No trades to analyze."; mret []
  | _ =>
      column ← lift (pd_to_datetime o (map transactionDate df));
      let df := with_transactionDate (fun i => date_of <$> column i) df in
      for_io df (momentum_loop days_after) []
  end.

(** Lines 129-151. *)
Definition main : io unit :=
  _ ← import_module;
  candidates ← get_random_mega_caps 20;
  _ ← print ("Mega-cap candidates (listed): " +:+ repr_strs candidates);
  trades_frames ←
    for_io candidates
      (fun t frames =>
         df_t ← fetch_insider_trades ("issuer.tradingSymbol:" +:+ t) 50;
         match df_t with
         | [] => _ ← print ("No trades for " +:+ t +:+ ", skipping."); mret frames
         | _ => mret (frames ++ [df_t])
         end) [];
  match trades_frames with
  | [] =>
      _ ← print "No insider trades found; adjust candidates or try again.";
      raise (SystemExit 1)
  | _ =>
      let df_trades := concat trades_frames in
      df_momentum ← analyze_trade_momentum df_trades 30;
      _ ← print "<DataFrame>";
      _ ← emit (TO_CSV out_path (length df_momentum));
      print ("Data saved to " +:+ out_path)
  end.
End Script.

End DeepDive.

(* ===================================================================== *)
(** * return_post_insider_trading.py                                      *)
(* ===================================================================== *)

Module ReturnPost.

(** Lines 67-71. *)
Definition default_universe : list string :=
  [ "AAXN"; "CZR"; "CRMT"; "GLBE"; "HZN"; "IDEX"; "LLEX"; "MNST"; "NWSA"; "OTEX";
    "PNRG"; "QDEL"; "RGEN"; "SAIC"; "TALO"; "UBSI"; "VCRA"; "WOR"; "XYL"; "ZION" ].

(** A row of the momentum table of the hour-window script. *)
Record momentum : Type := mkMomentum {
  trade : DeepDive.row (option Timestamp);
  return_ : option float;
  realizedDate : option Timestamp;
  hoursDiff : option float
}.

(** Lines 92-93 and 106-107:
    [if t.tzinfo is not None: t = t.tz_convert(None).tz_localize(None)] *)
Definition naive (t : Timestamp) : result Timestamp :=
  match tzinfo t with
  | Some _ => u ← tz_convert_None t; mret (tz_localize_None u)
  | None => Ok t
  end.

(** Line 108.  With [pd.NaT] for the trade the difference is [NaT], whose
    [total_seconds()] is not a number. *)
Definition hours_between (realized_ts : Timestamp) (trade_dt : option Timestamp) : float :=
  match trade_dt with
  | Some trade_dt =>
      PrimFloat.div (total_seconds (to_pydatetime realized_ts - to_pydatetime trade_dt))
                    3600%float
  | None => PrimFloat.div nan 3600%float
  end.

Definition out_path : string :=
  "C:\Users\james\OneDrive\Desktop\Insider Buys and Sells\insider_momentum.csv".

Section Script.
Variable o : oracle.

(** Lines 9-31. *)
Definition import_module : io unit :=
  key ← getenv "" "";
  if String.eqb key ""
  then raise (ValueError
         "Please set your SEC_API_KEY environment variable to your real API key.")
  else bind_globals (mkGlobals key DeepDive.meanings).

(** Lines 34-64: the text of the function is that of the day-window
    script, up to the names of two locals. *)
Definition fetch_insider_trades : string -> Z -> io (list (DeepDive.row json)) :=
  DeepDive.fetch_insider_trades o.

(** Lines 67-72. *)
Definition get_random_small_caps (sample_size : Z) : io (list string) :=
  random_sample o default_universe sample_size.

(** Lines 75-80. *)
Definition is_listed : string -> io bool := DeepDive.is_listed o.

(** Lines 90-116: the body of [for _, row in df.iterrows()]. *)
Definition momentum_loop (hours_after : Z) (row : DeepDive.row (option Timestamp))
    (results : list momentum) : io (list momentum) :=
  let tkr := DeepDive.ticker row in
  trade_dt ← lift (match DeepDive.transactionDate row with
                   | Some t => Some <$> naive t
                   | None => Ok None                (* NaT.tzinfo is None *)
                   end);
  td ← lift (Timedelta (hours_after * 3600 * ns_per_second));
  end_dt ← lift (match trade_dt with
                 | Some t => Some <$> add_timedelta t td
                 | None => Ok None                  (* NaT + td is NaT *)
                 end);
  hist ← attempt (history_close o tkr (at_time trade_dt) (at_time end_dt) "1h");
  closes ← match hist with
           | Ok c => mret c
           | Raise e =>
               if is_Exception e then
                 _ ← print ("Error fetching intraday history for " +:+ str_json o tkr
                              +:+ ": " +:+ str_exn e);
                 mret []
               else raise e
           end;
  res ←
    match closes with
    | _ :: _ =>
        initial ← lift (getitem (map snd closes) 0);
        later ← lift (getitem (map snd closes) (-1));
        let ret := PrimFloat.div (PrimFloat.sub later initial) initial in
        last ← lift (getitem (map fst closes) (-1));
        realized_ts ← lift (naive last);
        let hours_diff := hours_between realized_ts trade_dt in
        let realized_date := realized_ts in
        mret (mkMomentum row (Some ret) (Some realized_date) (Some hours_diff))
    | [] => mret (mkMomentum row None None None)
    end;
  mret (results ++ [res]).

(** Lines 83-117. *)
Definition analyze_trade_momentum (df : list (DeepDive.row json)) (hours_after : Z)
  : io (list momentum) :=
  match df with
  | [] => _ ← print "No trades to analyze."; mret []
  | _ =>
      column ← lift (pd_to_datetime o (map DeepDive.transactionDate df));
      let df := DeepDive.with_transactionDate column df in
      for_io df (momentum_loop hours_after) []
  end.

(** Lines 120-143. *)
Definition main : io unit :=
  _ ← import_module;
  selected ← get_random_small_caps 2;
  listed ← DeepDive.listed_of o selected;
  match listed with
  | [] =>
      _ ← print "No listed small-cap candidates found; please adjust universe or sample list.";
      raise (SystemExit 1)
  | _ =>
      _ ← print ("Small-cap candidates (listed): " +:+ repr_strs listed);
      trades_list ←
        for_io listed
          (fun t frames =>
             df_t ← fetch_insider_trades ("issuer.tradingSymbol:" +:+ t) 50;
             match df_t with
             | [] => _ ← print ("No trades for " +:+ t +:+ ", skipping."); mret frames
             | _ => mret (frames ++ [df_t])
             end) [];
      match trades_list with
      | [] =>
          _ ← print "No insider trades found for candidates.";
          raise (SystemExit 1)
      | _ =>
          let df_trades := concat trades_list in
          df_momentum ← analyze_trade_momentum df_trades 48;
          _ ← print "<DataFrame>";
          _ ← emit (TO_CSV out_path (length df_momentum));
          print ("Data saved to " +:+ out_path)
      end
  end.
End Script.

End ReturnPost.

(* ===================================================================== *)
(** * api_test_expanded_list.py                                           *)
(* ===================================================================== *)

Module ExpandedList.

Definition BASE_URL_INSIDER : string := "https://api.sec-api.io/insider-trading".
Definition BASE_URL_13F : string := "https://api.sec-api.io/form-13f".
Definition BASE_URL_13F_HOLDINGS : string := BASE_URL_13F +:+ "/holdings".

Section Script.
Variable o : oracle.

(** Lines 19-73; the loop over the groups is, letter for letter, the one
    of [Api_test.py]. *)
Definition fetch_insider_trades_enhanced (query : string) (size : Z)
  : io (list ApiTest.record) :=
  let payload := mkPayload query 0 size ("filedAt", "desc") in
  key ← global API_KEY;
  resp ← post o BASE_URL_INSIDER (Some key) payload;
  match raise_for_status resp with
  | Raise (HTTPError _) =>
      _ ← print ("Error fetching insider trades: " +:+ pretty (status_code resp)
                   +:+ nl +:+ text resp);
      mret []
  | Raise e => raise e
  | Ok _ =>
      j ← lift (json_of resp);
      records ← lift (ApiTest.flatten j);
      _ ← match records with
          | [] => print "No insider transactions extracted."
          | _ => mret tt
          end;
      mret records
  end.

(** Lines 89-91: the body of [for item in items]; a row is the dict
    [{**meta, **h}]. *)
Definition item_loop (item : json) (records : list (list (string * json)))
  : result (list (list (string * json))) :=
  cik ← get_ item "cik";
  period ← get_ item "periodOfReport";
  let meta := [("cik", cik); ("periodOfReport", period)] in
  holdings0 ← get item "holdings" (JArr []);
  holdings ← iter holdings0;
  for_ holdings (fun h records => row ← merge meta h; mret (records ++ [row])) records.

(** Lines 86-91: from the parsed response to the list [records]. *)
Definition holdings_rows (data : json) : result (list (list (string * json))) :=
  items0 ← get data "data" (JArr []);
  items ← iter items0;
  for_ items item_loop [].

(** Lines 76-92. *)
Definition fetch_form13f_holdings (query : string) (size : Z)
  : io (list (list (string * json))) :=
  let payload := mkPayload query 0 size ("periodOfReport", "desc") in
  key ← global API_KEY;
  resp ← post o BASE_URL_13F_HOLDINGS (Some key) payload;
  match raise_for_status resp with
  | Raise (HTTPError _) =>
      _ ← print ("Error fetching 13F holdings: " +:+ pretty (status_code resp)
                   +:+ nl +:+ text resp);
      mret []
  | Raise e => raise e
  | Ok _ =>
      j ← lift (json_of resp);
      lift (holdings_rows j)
  end.

(** Line 6. *)
Definition import_module : io unit :=
  key ← getenv "API_KEY" "API_KEY";
  bind_globals (mkGlobals key ∅).

(** Lines 121-126: the main block up to its first request. *)
Definition main_until_first_fetch : io (list ApiTest.record) :=
  _ ← import_module;
  key ← global API_KEY;
  if String.eqb key "YOUR_REAL_KEY_HERE"
  then raise (ValueError
         "Please set your SEC_API_KEY environment variable to your real API key.")
  else fetch_insider_trades_enhanced "issuer.tradingSymbol:TSLA" 5.
End Script.

End ExpandedList.

(* ===================================================================== *)
(** * The response as the data model reads it                             *)
(* ===================================================================== *)

(** The definitions of this module do not come from the scripts.  They say
    which responses have the form of the data model (filing groups with two
    optional sub-tables of transactions, each with optional clusters), and
    what the model reads in them; the scripts are compared with them. *)
Module Shape.

Definition is_obj (v : json) : bool := match v with JObj _ => true | _ => false end.
Definition is_str (v : json) : bool := match v with JStr _ => true | _ => false end.
Definition hashable (v : json) : bool :=
  match v with JArr _ | JObj _ => false | _ => true end.
Definition any (v : json) : bool := true.

(** A list whose elements all have the form [p]. *)
Definition arr_of (p : json -> bool) (v : json) : bool :=
  match v with JArr xs => forallb p xs | _ => false end.

(** A falsy value (null, an empty container, ...) or a value of form [p]. *)
Definition falsy_or (p : json -> bool) (v : json) : bool := negb (truthy v) || p v.

(** A dict in which the key [k] is absent or holds a value of form [p]. *)
Definition field (p : json -> bool) (k : string) (o : json) : bool :=
  match o with
  | JObj items => match assoc k items with Some v => p v | None => true end
  | _ => false
  end.

(** The elements of a list; nothing for any other value. *)
Definition elems (v : json) : list json :=
  match v with JArr xs => xs | _ => [] end.

(** The value found by following the keys of [path], if every one is there. *)
Fixpoint at_path (v : json) (path : list string) : option json :=
  match path with
  | [] => Some v
  | k :: rest =>
      match v with
      | JObj items =>
          match assoc k items with
          | Some v' => at_path v' rest
          | None => None
          end
      | _ => None
      end
  end.

(** The scalar at [path], null when it or an object on the way is absent. *)
Definition scalar_at (v : json) (path : list string) : json :=
  default JNull (at_path v path).

(** The filing groups of a response, in response order. *)
Definition filing_groups (data : json) : list json :=
  elems (scalar_at data ["transactions"]).

(** The transactions of one sub-table of a group, in server order. *)
Definition transactions_of (table : string) (grp : json) : list json :=
  elems (scalar_at grp [table; "transactions"]).

Definition nonDerivative_count (grp : json) : nat :=
  length (transactions_of "nonDerivativeTable" grp).
Definition derivative_count (grp : json) : nat :=
  length (transactions_of "derivativeTable" grp).

(** Σ (n_i + m_i) over the groups of the response. *)
Definition transaction_count (data : json) : nat :=
  sum_list (map (fun g => (nonDerivative_count g + derivative_count g)%nat)
                (filing_groups data)).

(** ** Forms accepted by [Api_test.py] and [api_test_expanded_list.py] *)
Module Enhanced.
Definition transaction (tx : json) : bool :=
  field (falsy_or is_obj) "coding" tx
  && field (falsy_or is_obj) "amounts" tx
  && field (falsy_or is_obj) "postTransactionAmounts" tx.
Definition table (t : json) : bool :=
  field (falsy_or (arr_of transaction)) "transactions" t.
Definition footnote (fn : json) : bool := field is_str "text" fn.
Definition owner (ro : json) : bool := field (falsy_or is_obj) "relationship" ro.
Definition group (g : json) : bool :=
  field (falsy_or (arr_of footnote)) "footnotes" g
  && field owner "reportingOwner" g
  && field table "nonDerivativeTable" g
  && field table "derivativeTable" g.
Definition response (data : json) : bool := field (arr_of group) "transactions" data.

(** The text of a footnote, empty when it has none. *)
Definition footnote_text (fn : json) : string :=
  match at_path fn ["text"] with Some (JStr s) => s | _ => "" end.

(** The meta fields of a group. *)
Definition meta_of (g : json) : ApiTest.meta :=
  ApiTest.mkMeta
    (scalar_at g ["documentType"])
    (concat_sep "; " (map footnote_text (elems (scalar_at g ["footnotes"]))))
    (scalar_at g ["remarks"])
    (scalar_at g ["reportingOwner"; "relationship"; "officerTitle"])
    (scalar_at g ["reportingOwner"; "relationship"; "otherText"]).

(** The record of one transaction: every scalar is the one of the
    response, null when absent. *)
Definition record_of (m : ApiTest.meta) (category : string) (tx : json) : ApiTest.record :=
  ApiTest.mkRecord
    (ApiTest.doc_type m) (ApiTest.footnotes_text m) (ApiTest.m_remarks m)
    (ApiTest.officer_title m) (ApiTest.other_text m) category
    (scalar_at tx ["securityTitle"])
    (scalar_at tx ["transactionDate"])
    (scalar_at tx ["coding"; "code"])
    (scalar_at tx ["coding"; "equitySwapInvolved"])
    (scalar_at tx ["amounts"; "shares"])
    (scalar_at tx ["amounts"; "pricePerShare"])
    (scalar_at tx ["postTransactionAmounts"; "sharesOwnedFollowingTransaction"]).

(** The records of one group: non-derivative first, then derivative. *)
Definition records_of_group (g : json) : list ApiTest.record :=
  map (record_of (meta_of g) "nonDerivative") (transactions_of "nonDerivativeTable" g)
  ++ map (record_of (meta_of g) "derivative") (transactions_of "derivativeTable" g).

(** The records of a response: groups in response order. *)
Definition records_in_order (data : json) : list ApiTest.record :=
  concat (map records_of_group (filing_groups data)).
End Enhanced.

(** ** Forms accepted by the two momentum scripts *)
Module Plain.
Definition transaction (tx : json) : bool :=
  field (field hashable "code") "coding" tx && field is_obj "amounts" tx.
Definition table (t : json) : bool :=
  field (falsy_or (arr_of transaction)) "transactions" t.
Definition owner (ro : json) : bool := field is_obj "relationship" ro.
Definition group (g : json) : bool :=
  field is_obj "issuer" g
  && field owner "reportingOwner" g
  && field table "nonDerivativeTable" g
  && field table "derivativeTable" g.
Definition response (data : json) : bool := field (arr_of group) "transactions" data.

(** The entry of the vocabulary for a code, "Unknown" when it has none. *)
Definition entry (vocabulary : gmap string string) (code : json) : string :=
  match code with
  | JStr c => default "Unknown" (vocabulary !! c)
  | _ => "Unknown"
  end.

(** What follows the last colon of the query. *)
Definition last_component (query : string) : string :=
  List.last (split ":"%char query) "".

(** The issuer symbol of the group if it has one, else the end of the query. *)
Definition symbol_of (query : string) (g : json) : json :=
  let s := scalar_at g ["issuer"; "tradingSymbol"] in
  if truthy s then s else JStr (last_component query).

Definition row_of (vocabulary : gmap string string) (query : string) (g tx : json)
  : DeepDive.row json :=
  DeepDive.mkRow
    (symbol_of query g)
    (scalar_at tx ["transactionDate"])
    (scalar_at tx ["coding"; "code"])
    (entry vocabulary (scalar_at tx ["coding"; "code"]))
    (scalar_at tx ["amounts"; "shares"])
    (scalar_at tx ["amounts"; "pricePerShare"])
    (scalar_at g ["reportingOwner"; "relationship"; "officerTitle"]).

Definition rows_of_group (vocabulary : gmap string string) (query : string) (g : json)
  : list (DeepDive.row json) :=
  map (row_of vocabulary query g) (transactions_of "nonDerivativeTable" g)
  ++ map (row_of vocabulary query g) (transactions_of "derivativeTable" g).

Definition rows_in_order (vocabulary : gmap string string) (query : string) (data : json)
  : list (DeepDive.row json) :=
  concat (map (rows_of_group vocabulary query) (filing_groups data)).
End Plain.

End Shape.

(* ===================================================================== *)
(** * Sample responses and collaborators                                  *)
(* ===================================================================== *)

Module Stub.

Definition tx_purchase : json :=
  JObj [ ("securityTitle", JStr "Common Stock");
         ("transactionDate", JStr "2024-01-02");
         ("coding", JObj [("code", JStr "P"); ("equitySwapInvolved", JBool false)]);
         ("amounts", JObj [("shares", JInt 100); ("pricePerShare", JFloat 12.5)]);
         ("postTransactionAmounts", JObj [("sharesOwnedFollowingTransaction", JInt 600)]) ].

(** A transaction with a code the vocabulary does not have and no amounts. *)
Definition tx_unknown : json :=
  JObj [ ("transactionDate", JStr "2024-01-02"); ("coding", JObj [("code", JStr "Z")]) ].

(** A transaction with no field at all. *)
Definition tx_bare : json := JObj [].

Definition group_full : json :=
  JObj [ ("documentType", JStr "4");
         ("footnotes", JArr [JObj [("text", JStr "first")]; JObj []]);
         ("issuer", JObj [("tradingSymbol", JStr "ABC")]);
         ("reportingOwner", JObj [("relationship", JObj [("officerTitle", JStr "CFO")])]);
         ("nonDerivativeTable", JObj [("transactions", JArr [tx_purchase; tx_bare])]);
         ("derivativeTable", JObj [("transactions", JArr [tx_unknown])]) ].

(** A group without sub-tables. *)
Definition group_empty : json := JObj [("documentType", JStr "4")].

Definition data : json := JObj [("transactions", JArr [group_full; group_empty])].

Definition ok_response : response :=
  mkResponse 200 "OK" "https://api.sec-api.io/insider-trading" "{...}" (Some data).

Definition forbidden : response :=
  mkResponse 403 "Forbidden" "https://api.sec-api.io/insider-trading"
    "{'message': 'invalid key'}" None.

Definition noon_utc (d : date) : Timestamp := mkTimestamp (d * ns_per_day + 12 * 3600 * ns_per_second) None.

(** 09:30 in a zone five hours behind UTC. *)
Definition opening_new_york (d : date) : Timestamp :=
  mkTimestamp (d * ns_per_day + (14 * 3600 + 1800) * ns_per_second) (Some (-18000)).

(** The closes of the worked example: 100.0 on 2024-01-02, 110.0 on 2024-01-15. *)
Definition two_closes : list (Timestamp * float) :=
  [ (midnight (ymd 2024 1 2), 100%float); (midnight (ymd 2024 1 15), 110%float) ].

(** The same, as hourly bars stamped in New York time. *)
Definition two_bars : list (Timestamp * float) :=
  [ (opening_new_york (ymd 2024 1 2), 100%float);
    (opening_new_york (ymd 2024 1 3), 110%float) ].

Definition history (t : json) (start stop : instant) (interval : string)
  : string + list (Timestamp * float) :=
  match t with
  | JStr "ABC" => inr (if String.eqb interval "1h" then two_bars else two_closes)
  | JStr "XYZ" => inr []
  | JStr "ONE" => inr [(midnight (ymd 2024 1 3), 50%float)]
  | JStr "NAN" => inr [(midnight (ymd 2024 1 3), nan)]
  | JStr "ZERO" => inr [(midnight (ymd 2024 1 3), 0%float)]
  | _ => inl "No timezone found, symbol may be delisted"
  end.

(** A cell read in one spelling: null is [pd.NaT], anything else than the
    spelling is refused. *)
Definition parse_as (spelling : string) (t : Timestamp) (c : json)
  : option (option Timestamp) :=
  match c with
  | JNull => Some None
  | JStr s => if String.eqb s spelling then Some (Some t) else None
  | _ => None
  end.

(** A date parser that knows one day in two spellings, and refuses a column
    that mixes them. *)
Definition parse_column (column : list json) : exn + (nat -> option Timestamp) :=
  match mapM (parse_as "2024-01-02" (midnight (ymd 2024 1 2))) column,
        mapM (parse_as "2024-01-02T09:30:00-05:00" (opening_new_york (ymd 2024 1 2))) column
  with
  | Some cells, _ | None, Some cells => inr (fun i => default None (cells !! i))
  | None, None => inl (ValueError "time data doesn't match format")
  end.

(** A format string on a cell that is not a str (the samples have no float
    and no container in the ticker column). *)
Definition show (v : json) : string :=
  match v with
  | JInt z => pretty z
  | JBool true => "True"
  | JBool false => "False"
  | _ => "None"
  end.

(** Every request is answered; every ticker but "LLEX" has a price. *)
Definition online : oracle :=
  mkOracle
    (fun _ _ _ => Some ok_response)
    (fun t => match t with
              | JStr "LLEX" => Some (JObj [])
              | _ => Some (JObj [("regularMarketPrice", JFloat 10)])
              end)
    history
    (fun population k => take k population)
    parse_column
    show.

(** The filing API rejects the key. *)
Definition rejected : oracle :=
  mkOracle (fun _ _ _ => Some forbidden) (yf_info online) history
    (fun population k => take k population) parse_column show.

(** No network: every request fails in transport. *)
Definition offline : oracle :=
  mkOracle (fun _ _ _ => None) (fun _ => None) (fun _ _ _ _ => inl "Failed to connect")
    (fun population k => take k population) parse_column show.

(** A process started without any environment variable. *)
Definition fresh : world := mkWorld ∅ [] [] (mkGlobals "" ∅).

(** The process after the import of the day-window script with a key. *)
Definition ready : world := mkWorld {["API_KEY" := "k3y"]} [] [] (mkGlobals "k3y" DeepDive.meanings).

Definition trade (t : string) (d : string) : DeepDive.row json :=
  DeepDive.mkRow (JStr t) (JStr d) (JStr "P") "Purchase" (JInt 100) (JFloat 12.5) JNull.

(** A trade the filing gives no date for. *)
Definition undated (t : string) : DeepDive.row json :=
  DeepDive.mkRow (JStr t) JNull (JStr "P") "Purchase" (JInt 100) (JFloat 12.5) JNull.

End Stub.

(* ===================================================================== *)
(** * Loops and lookups                                                   *)
(* ===================================================================== *)

Import Shape.

Section PyFacts.
Context {A B : Type}.

Lemma for_map (body : A -> list B -> result (list B)) (g : A -> B) (xs : list A) :
  Forall (fun x => forall acc, body x acc = Ok (acc ++ [g x])) xs ->
  forall acc, for_ xs body acc = Ok (acc ++ map g xs).
Proof.
  induction 1 as [|x xs Hx _ IH]; intros acc; simpl.
  - by rewrite app_nil_r.
  - rewrite Hx. simpl. rewrite IH. by rewrite <- app_assoc.
Qed.

Lemma for_concat (body : A -> list B -> result (list B)) (g : A -> list B) (xs : list A) :
  Forall (fun x => forall acc, body x acc = Ok (acc ++ g x)) xs ->
  forall acc, for_ xs body acc = Ok (acc ++ concat (map g xs)).
Proof.
  induction 1 as [|x xs Hx _ IH]; intros acc; simpl.
  - by rewrite app_nil_r.
  - rewrite Hx. simpl. rewrite IH. by rewrite <- app_assoc.
Qed.

Lemma comprehension_map (f : A -> result B) (g : A -> B) (xs : list A) :
  Forall (fun x => f x = Ok (g x)) xs -> comprehension f xs = Ok (map g xs).
Proof.
  induction 1 as [|x xs Hx _ IH]; simpl; [done|].
  by rewrite Hx, IH.
Qed.
End PyFacts.

Lemma forallb_Forall {A} (p : A -> bool) (xs : list A) :
  forallb p xs = true -> Forall (fun x => p x = true) xs.
Proof.
  induction xs as [|x xs IH]; simpl; [constructor|].
  intros [Hx Hxs]%andb_prop. constructor; auto.
Qed.

Lemma getitem_first {A} (x : A) (xs : list A) : getitem (x :: xs) 0 = Ok x.
Proof.
  unfold getitem. simpl length.
  replace (0 <? 0) with false by reflexivity. cbv beta iota zeta.
  replace (0 <? 0) with false by reflexivity.
  replace (Z.of_nat (S (length xs)) <=? 0) with false by (symmetry; apply Z.leb_gt; lia).
  reflexivity.
Qed.

Lemma getitem_last {A} (x d : A) (xs : list A) :
  getitem (x :: xs) (-1) = Ok (List.last (x :: xs) d).
Proof.
  unfold getitem.
  replace (-1 <? 0) with true by reflexivity. cbv beta iota zeta.
  set (n := Z.of_nat (length (x :: xs))).
  assert (Hn : n = Z.of_nat (length xs) + 1) by (subst n; simpl length; lia).
  replace (-1 + n <? 0) with false by (symmetry; apply Z.ltb_ge; lia).
  replace (n <=? -1 + n) with false by (symmetry; apply Z.leb_gt; lia).
  simpl orb. cbv iota.
  replace (Z.to_nat (-1 + n)) with (length xs) by lia.
  assert (H : (x :: xs) !! length xs = Some (List.last (x :: xs) d)).
  { clear. revert x. induction xs as [|y ys IH]; intros x; [done|].
    change ((y :: ys) !! length ys = Some (List.last (y :: ys) d)). apply IH. }
  by rewrite H.
Qed.

Lemma split_cons (c : ascii) (s : string) : exists h t, split c s = h :: t.
Proof.
  induction s as [|a s [h [t IH]]]; simpl; [by eauto|].
  destruct (Ascii.eqb a c); [by eauto|]. rewrite IH. by eauto.
Qed.

Section ShapeFacts.

Lemma field_get (p : json -> bool) (k : string) (o d : json) :
  field p k o = true ->
  exists items, o = JObj items
    /\ get o k d = Ok (default d (assoc k items))
    /\ (forall v, assoc k items = Some v -> p v = true).
Proof.
  destruct o; try discriminate. simpl. intros H.
  exists items. repeat split. intros v Hv. by rewrite Hv in H.
Qed.

Lemma at_path_cons (items : list (string * json)) (k : string) (rest : list string) :
  at_path (JObj items) (k :: rest)
  = match assoc k items with Some v => at_path v rest | None => None end.
Proof. reflexivity. Qed.

(** [(v or {}).get(k)] reads the key in [v] when [v] is falsy or a dict. *)
Lemma get_or_empty (v : json) (k : string) :
  falsy_or is_obj v = true ->
  get_ (or_ v (JObj [])) k = Ok (scalar_at v [k]).
Proof.
  unfold falsy_or, or_, scalar_at. destruct (truthy v) eqn:Ht; simpl.
  - destruct v; try discriminate. intros _. simpl.
    unfold get_; simpl. by destruct (assoc k items).
  - intros _. unfold get_; simpl.
    destruct v; try reflexivity. simpl in Ht. destruct items; [done|discriminate].
Qed.

(** [for x in (v or [])] walks the elements of [v] when [v] is falsy or a list. *)
Lemma iter_or_empty (p : json -> bool) (v : json) :
  falsy_or (arr_of p) v = true ->
  iter (or_ v (JArr [])) = Ok (elems v) /\ Forall (fun x => p x = true) (elems v).
Proof.
  unfold falsy_or, or_. destruct (truthy v) eqn:Ht; simpl.
  - destruct v; try discriminate. simpl. intros H. split; [done|by apply forallb_Forall].
  - intros _. destruct v; simpl; try (split; [done|constructor]).
    simpl in Ht. destruct xs; [|discriminate]. split; [done|constructor].
Qed.
End ShapeFacts.

(* ===================================================================== *)
(** * The flattening of Api_test.py                                       *)
(* ===================================================================== *)

Section EnhancedFacts.
Import ApiTest.

Lemma get_scalar (items : list (string * json)) (k : string) :
  get_ (JObj items) k = Ok (scalar_at (JObj items) [k]).
Proof. unfold get_, scalar_at. simpl. by destruct (assoc k items). Qed.

(** [(tx.get(c, {}) or {}).get(k)] is the scalar at [c.k], or null. *)
Lemma cluster_get (items : list (string * json)) (c k : string) :
  (forall v, assoc c items = Some v -> falsy_or is_obj v = true) ->
  get_ (or_ (default (JObj []) (assoc c items)) (JObj [])) k
  = Ok (scalar_at (JObj items) [c; k]).
Proof.
  intros H. unfold scalar_at at 1. rewrite at_path_cons.
  destruct (assoc c items) as [v|] eqn:E; simpl.
  - by rewrite get_or_empty by auto.
  - reflexivity.
Qed.

(** [for x in o.get(k, []) or []] walks the list at [k]. *)
Lemma list_get (p : json -> bool) (items : list (string * json)) (k : string) :
  (forall v, assoc k items = Some v -> falsy_or (arr_of p) v = true) ->
  iter (or_ (default (JArr []) (assoc k items)) (JArr []))
  = Ok (elems (scalar_at (JObj items) [k]))
  /\ Forall (fun x => p x = true) (elems (scalar_at (JObj items) [k])).
Proof.
  intros H. unfold scalar_at. rewrite at_path_cons.
  destruct (assoc k items) as [v|] eqn:E; simpl.
  - by apply iter_or_empty, H.
  - split; [done|constructor].
Qed.

Lemma extract_shaped (m : meta) (category : string) (tx : json) :
  Enhanced.transaction tx = true ->
  extract m tx category = Ok (Enhanced.record_of m category tx).
Proof.
  unfold Enhanced.transaction.
  intros [[Hc Ha]%andb_prop Hp]%andb_prop.
  destruct (field_get _ _ _ (JObj []) Hc) as (items & -> & Gc & Pc).
  destruct (field_get _ _ _ (JObj []) Ha) as (items' & [= <-] & Ga & Pa).
  destruct (field_get _ _ _ (JObj []) Hp) as (items' & [= <-] & Gp & Pp).
  unfold extract. rewrite Gc, Ga, Gp, !get_scalar. cbn [mbind result_bind].
  rewrite !cluster_get by assumption. reflexivity.
Qed.

Lemma strs_JStr (ss : list string) : strs (map JStr ss) = Ok ss.
Proof. induction ss as [|s ss IH]; simpl; [done|]. by rewrite IH. Qed.

Lemma footnote_get (fn : json) :
  Enhanced.footnote fn = true ->
  get fn "text" (JStr "") = Ok (JStr (Enhanced.footnote_text fn)).
Proof.
  unfold Enhanced.footnote, Enhanced.footnote_text.
  destruct fn; try discriminate. simpl.
  destruct (assoc "text" items) as [v|]; simpl; [|done].
  destruct v; try discriminate. done.
Qed.

Lemma group_meta_shaped (g : json) :
  Enhanced.group g = true -> group_meta g = Ok (Enhanced.meta_of g).
Proof.
  unfold Enhanced.group.
  intros [[[Hf Ho]%andb_prop _]%andb_prop _]%andb_prop.
  destruct (field_get _ _ _ (JArr []) Hf) as (items & -> & Gf & Pf).
  destruct (field_get _ _ _ (JObj []) Ho) as (items' & [= <-] & Go & Po).
  unfold group_meta. rewrite !get_scalar, Gf, Go. simpl.
  destruct (list_get _ _ _ Pf) as [-> Hfn]. simpl.
  rewrite (comprehension_map _ (fun fn => JStr (Enhanced.footnote_text fn))).
  2:{ eapply Forall_impl; [exact Hfn|]. intros fn. apply footnote_get. }
  simpl. unfold join. rewrite <- map_map, strs_JStr. simpl.
  unfold Enhanced.meta_of.
  assert (R : forall k,
    (x ← get (default (JObj []) (assoc "reportingOwner" items)) "relationship" (JObj []);
     get_ (or_ x (JObj [])) k)
    = Ok (scalar_at (JObj items) ["reportingOwner"; "relationship"; k])).
  { intros k. unfold scalar_at at 1. rewrite at_path_cons.
    destruct (assoc "reportingOwner" items) as [ro|] eqn:E; simpl; [|done].
    specialize (Po ro eq_refl). unfold Enhanced.owner in Po.
    destruct (field_get _ _ _ (JObj []) Po) as (ritems & -> & -> & Pr).
    simpl. rewrite cluster_get by assumption. reflexivity. }
  pose proof (R "officerTitle") as R1. pose proof (R "otherText") as R2.
  destruct (get (default (JObj []) (assoc "reportingOwner" items)) "relationship" (JObj []))
    as [rel|e]; simpl in *; [|discriminate].
  rewrite R1, R2. reflexivity.
Qed.

Lemma table_loop_shaped (m : meta) (g : json) (table category : string)
    (records : list record) :
  field Enhanced.table table g = true ->
  table_loop m g table category records
  = Ok (records ++ map (Enhanced.record_of m category) (transactions_of table g)).
Proof.
  intros Ht.
  destruct (field_get _ _ _ (JObj []) Ht) as (items & -> & Gt & Pt).
  unfold table_loop. rewrite Gt. simpl.
  unfold transactions_of, scalar_at. rewrite at_path_cons.
  destruct (assoc table items) as [t|] eqn:E; simpl.
  - specialize (Pt t eq_refl). unfold Enhanced.table in Pt.
    destruct (field_get _ _ _ (JArr []) Pt) as (titems & -> & -> & Px).
    simpl. destruct (list_get _ _ _ Px) as [-> Htx]. simpl.
    apply for_map. eapply Forall_impl; [exact Htx|].
    intros tx Hs acc. simpl. by rewrite extract_shaped.
  - by rewrite app_nil_r.
Qed.

Lemma group_loop_shaped (g : json) (records : list record) :
  Enhanced.group g = true ->
  group_loop g records = Ok (records ++ Enhanced.records_of_group g).
Proof.
  intros Hg. unfold group_loop. rewrite group_meta_shaped by done. simpl.
  unfold Enhanced.group in Hg.
  apply andb_prop in Hg as [[_ Hn]%andb_prop Hd].
  rewrite table_loop_shaped by done. simpl.
  rewrite table_loop_shaped by done.
  unfold Enhanced.records_of_group. by rewrite app_assoc.
Qed.

Lemma flatten_shaped (data : json) :
  Enhanced.response data = true ->
  flatten data = Ok (Enhanced.records_in_order data).
Proof.
  intros Hr. unfold Enhanced.response in Hr.
  destruct (field_get _ _ _ (JArr []) Hr) as (items & -> & G & P).
  unfold flatten. rewrite G. simpl.
  unfold Enhanced.records_in_order, filing_groups, scalar_at. rewrite at_path_cons.
  destruct (assoc "transactions" items) as [v|] eqn:E; simpl; [|done].
  specialize (P v eq_refl). destruct v; try discriminate. simpl in *.
  change (for_ xs group_loop [] = Ok ([] ++ concat (map Enhanced.records_of_group xs))).
  apply for_concat. eapply Forall_impl; [apply forallb_Forall, P|].
  intros g Hg acc. by apply group_loop_shaped.
Qed.

Lemma records_in_order_length (data : json) :
  length (Enhanced.records_in_order data) = transaction_count data.
Proof.
  unfold Enhanced.records_in_order, transaction_count.
  induction (filing_groups data) as [|g gs IH]; simpl; [done|].
  rewrite length_app, IH. f_equal.
  unfold Enhanced.records_of_group, nonDerivative_count, derivative_count.
  by rewrite length_app, !length_map.
Qed.
End EnhancedFacts.

(* ===================================================================== *)
(** * The flattening of the two momentum scripts                          *)
(* ===================================================================== *)

Section PlainFacts.
Import DeepDive.
Variable vocabulary : gmap string string.
Variable query : string.

(** [o.get(c, {}).get(k)] is the scalar at [c.k] when [c] is absent or a dict. *)
Lemma nested_get (items : list (string * json)) (c k : string) :
  (forall v, assoc c items = Some v -> is_obj v = true) ->
  (x ← get (JObj items) c (JObj []); get_ x k) = Ok (scalar_at (JObj items) [c; k]).
Proof.
  intros H. unfold scalar_at. rewrite at_path_cons. simpl.
  destruct (assoc c items) as [v|] eqn:E; simpl; [|done].
  specialize (H v eq_refl). destruct v; try discriminate.
  apply get_scalar.
Qed.

Lemma field_is_obj (p : json -> bool) (k : string) (v : json) :
  field p k v = true -> is_obj v = true.
Proof. by destruct v. Qed.

Lemma describe_hashable (code : json) :
  hashable code = true -> describe vocabulary code = Ok (Plain.entry vocabulary code).
Proof. by destruct code. Qed.

Lemma code_hashable (items : list (string * json)) :
  (forall v, assoc "coding" items = Some v -> field hashable "code" v = true) ->
  hashable (scalar_at (JObj items) ["coding"; "code"]) = true.
Proof.
  intros H. unfold scalar_at. rewrite at_path_cons.
  destruct (assoc "coding" items) as [v|]; simpl; [|done].
  specialize (H v eq_refl). destruct v; try discriminate. simpl in *.
  by destruct (assoc "code" items0).
Qed.

Lemma officer_get (items : list (string * json)) :
  (forall ro, assoc "reportingOwner" items = Some ro -> Plain.owner ro = true) ->
  (owner ← get (JObj items) "reportingOwner" (JObj []);
   rel ← get owner "relationship" (JObj []);
   get_ rel "officerTitle")
  = Ok (scalar_at (JObj items) ["reportingOwner"; "relationship"; "officerTitle"]).
Proof.
  intros H. unfold scalar_at. rewrite at_path_cons. simpl.
  destruct (assoc "reportingOwner" items) as [ro|] eqn:E; simpl; [|done].
  specialize (H ro eq_refl). unfold Plain.owner in H.
  destruct (field_get _ _ _ (JObj []) H) as (ritems & -> & _ & Pr).
  apply nested_get. exact Pr.
Qed.

Lemma tx_loop_shaped (symbol g tx : json) (rows : list (row json)) :
  Plain.group g = true ->
  Plain.transaction tx = true ->
  tx_loop vocabulary symbol g tx rows
  = Ok (rows ++ [mkRow symbol
                   (scalar_at tx ["transactionDate"])
                   (scalar_at tx ["coding"; "code"])
                   (Plain.entry vocabulary (scalar_at tx ["coding"; "code"]))
                   (scalar_at tx ["amounts"; "shares"])
                   (scalar_at tx ["amounts"; "pricePerShare"])
                   (scalar_at g ["reportingOwner"; "relationship"; "officerTitle"])]).
Proof.
  unfold Plain.group, Plain.transaction.
  intros [[[_ Ho]%andb_prop _]%andb_prop _]%andb_prop [Hc Ha]%andb_prop.
  destruct (field_get _ _ _ (JObj []) Ho) as (gitems & -> & _ & Po).
  destruct (field_get _ _ _ (JObj []) Hc) as (items & -> & _ & Pc).
  destruct (field_get _ _ _ (JObj []) Ha) as (items' & [= <-] & _ & Pa).
  pose proof (nested_get items "coding" "code"
                (fun v E => field_is_obj _ _ _ (Pc v E))) as Rc.
  pose proof (nested_get items "amounts" "shares" Pa) as Rs.
  pose proof (nested_get items "amounts" "pricePerShare" Pa) as Rp.
  pose proof (officer_get gitems Po) as Rt.
  pose proof (describe_hashable _ (code_hashable items Pc)) as Rd.
  unfold tx_loop.
  destruct (get (JObj items) "coding" (JObj [])) as [coding|]; [|discriminate].
  cbn [mbind result_bind] in Rc |- *. rewrite Rc, get_scalar. cbn [mbind result_bind].
  rewrite Rd. cbn [mbind result_bind].
  destruct (get (JObj items) "amounts" (JObj [])) as [amounts|]; [|discriminate].
  cbn [mbind result_bind] in Rs, Rp |- *. rewrite Rs, Rp. cbn [mbind result_bind].
  destruct (get (JObj gitems) "reportingOwner" (JObj [])) as [owner|]; [|discriminate].
  cbn [mbind result_bind] in Rt |- *.
  destruct (get owner "relationship" (JObj [])) as [rel|]; [|discriminate].
  cbn [mbind result_bind] in Rt |- *. rewrite Rt. reflexivity.
Qed.

Lemma plain_table_loop_shaped (g : json) (table_name : string) (rows : list (row json)) :
  Plain.group g = true ->
  field Plain.table table_name g = true ->
  table_loop vocabulary (Plain.symbol_of query g) g table_name rows
  = Ok (rows ++ map (Plain.row_of vocabulary query g) (transactions_of table_name g)).
Proof.
  intros Hg Ht.
  destruct (field_get _ _ _ (JObj []) Ht) as (items & E & Gt & Pt).
  unfold table_loop. rewrite Gt. cbn [mbind result_bind].
  unfold transactions_of, scalar_at. rewrite E, at_path_cons. rewrite <- E.
  destruct (assoc table_name items) as [t|] eqn:Et; simpl.
  - specialize (Pt t eq_refl). unfold Plain.table in Pt.
    destruct (field_get _ _ _ (JArr []) Pt) as (titems & -> & -> & Px).
    simpl. destruct (list_get _ _ _ Px) as [-> Htx]. simpl.
    apply for_map. eapply Forall_impl; [exact Htx|].
    intros tx Hs acc. by apply tx_loop_shaped.
  - by rewrite app_nil_r.
Qed.

Lemma resolve_symbol_shaped (g : json) :
  Plain.group g = true -> resolve_symbol query g = Ok (Plain.symbol_of query g).
Proof.
  unfold Plain.group.
  intros [[[Hi _]%andb_prop _]%andb_prop _]%andb_prop.
  destruct (field_get _ _ _ (JObj []) Hi) as (items & -> & _ & Pi).
  pose proof (nested_get items "issuer" "tradingSymbol" Pi) as R.
  unfold resolve_symbol, Plain.symbol_of.
  destruct (get (JObj items) "issuer" (JObj [])) as [issuer|]; [|discriminate].
  cbn [mbind result_bind] in R |- *. rewrite R. cbn [mbind result_bind].
  destruct (truthy _); [done|].
  unfold Plain.last_component.
  destruct (split_cons ":"%char query) as (h & t & ->).
  by rewrite (getitem_last h "").
Qed.

Lemma plain_group_loop_shaped (g : json) (rows : list (row json)) :
  Plain.group g = true ->
  group_loop vocabulary query g rows = Ok (rows ++ Plain.rows_of_group vocabulary query g).
Proof.
  intros Hg. unfold group_loop. rewrite resolve_symbol_shaped by done.
  cbn [mbind result_bind for_].
  pose proof Hg as Hg'. unfold Plain.group in Hg'.
  apply andb_prop in Hg' as [[_ Hn]%andb_prop Hd].
  rewrite plain_table_loop_shaped by done. cbn [mbind result_bind].
  rewrite plain_table_loop_shaped by done. cbn [mbind result_bind].
  unfold Plain.rows_of_group. by rewrite app_assoc.
Qed.

Lemma plain_flatten_shaped (data : json) :
  Plain.response data = true ->
  flatten vocabulary query data = Ok (Plain.rows_in_order vocabulary query data).
Proof.
  intros Hr. unfold Plain.response in Hr.
  destruct (field_get _ _ _ (JArr []) Hr) as (items & -> & G & P).
  unfold flatten. rewrite G. simpl.
  unfold Plain.rows_in_order, filing_groups, scalar_at. rewrite at_path_cons.
  destruct (assoc "transactions" items) as [v|] eqn:E; simpl; [|done].
  specialize (P v eq_refl). destruct v; try discriminate. simpl in *.
  change (for_ xs (group_loop vocabulary query) []
          = Ok ([] ++ concat (map (Plain.rows_of_group vocabulary query) xs))).
  apply for_concat. eapply Forall_impl; [apply forallb_Forall, P|].
  intros g Hg acc. by apply plain_group_loop_shaped.
Qed.

Lemma rows_in_order_length (data : json) :
  length (Plain.rows_in_order vocabulary query data) = transaction_count data.
Proof.
  unfold Plain.rows_in_order, transaction_count.
  induction (filing_groups data) as [|g gs IH]; simpl; [done|].
  rewrite length_app, IH. f_equal.
  unfold Plain.rows_of_group, nonDerivative_count, derivative_count.
  by rewrite length_app, !length_map.
Qed.
End PlainFacts.

(* ===================================================================== *)
(** * What a run leaves in the world                                      *)
(* ===================================================================== *)

(** The world after one more request, and after one more printed line. *)
Definition sent (w : world) (c : call) : world :=
  mkWorld (environ w) (stdout w) (wire w ++ [c]) (module w).
Definition printed (w : world) (line : string) : world :=
  mkWorld (environ w) (stdout w ++ [line]) (wire w) (module w).

(** [m] never rebinds a module global. *)
Definition keeps_module {A} (m : io A) : Prop := forall w, module (m w).2 = module w.

Create HintDb keeps.

Section KeepsModule.
Context {A B : Type}.

Lemma keeps_ret (a : A) : keeps_module (mret a).
Proof. by intros w. Qed.

Lemma keeps_lift (r : result A) : keeps_module (lift r).
Proof. by intros w. Qed.

Lemma keeps_raise (e : exn) : keeps_module (@raise A e).
Proof. by intros w. Qed.

Lemma keeps_bind (m : io A) (f : A -> io B) :
  keeps_module m -> (forall a, keeps_module (f a)) -> keeps_module (m ≫= f).
Proof.
  intros Hm Hf w. unfold mbind, io_bind. specialize (Hm w).
  destruct (m w) as [[a|e] w1]; simpl in *; [|done].
  by rewrite (Hf a).
Qed.

Lemma keeps_attempt (m : io A) : keeps_module m -> keeps_module (attempt m).
Proof.
  intros Hm w. unfold attempt. specialize (Hm w). by destruct (m w).
Qed.

End KeepsModule.

Lemma keeps_for_io {A B} (xs : list A) (body : A -> B -> io B) (s : B) :
  (forall x s, keeps_module (body x s)) -> keeps_module (for_io xs body s).
Proof.
  intros Hb. revert s. induction xs as [|x xs IH]; intros s; simpl.
  - apply keeps_ret.
  - apply keeps_bind; auto.
Qed.

Lemma keeps_print (line : string) : keeps_module (print line).
Proof. by intros w. Qed.

Lemma keeps_emit (c : call) : keeps_module (emit c).
Proof. by intros w. Qed.

Lemma keeps_global {A} (name : globals -> A) : keeps_module (global name).
Proof. by intros w. Qed.

Lemma keeps_getenv (name dflt : string) : keeps_module (getenv name dflt).
Proof. by intros w. Qed.

#[local] Hint Resolve keeps_ret keeps_lift keeps_raise keeps_attempt keeps_print
  keeps_emit keeps_global keeps_getenv : keeps.

Ltac keeps :=
  repeat first
    [ match goal with |- forall _, _ => intro end
    | apply keeps_bind
    | apply keeps_for_io
    | apply keeps_attempt
    | solve [auto with keeps]
    | match goal with
      | |- keeps_module (match ?x with _ => _ end) => destruct x
      | |- keeps_module (if ?x then _ else _) => destruct x
      | |- keeps_module (let _ := _ in _) => cbv zeta
      end ].

(** Unfold the plumbing of the [io] monad. *)
Ltac io_run :=
  cbv beta iota zeta delta
    [mbind io_bind mret io_ret result_bind result_ret global attempt post info
     history_close emit lift raise print getenv bind_globals local].

Section Runs.
Variable o : oracle.

Lemma keeps_post (to : string) (a : option string) (p : payload) : keeps_module (post o to a p).
Proof. unfold post. keeps. Qed.

Lemma keeps_info (t : json) : keeps_module (info o t).
Proof. unfold info. keeps. Qed.

Lemma keeps_history_close (t : json) (a b : instant) (i : string) :
  keeps_module (history_close o t a b i).
Proof. unfold history_close. keeps. Qed.

Lemma keeps_random_sample (l : list string) (k : Z) : keeps_module (random_sample o l k).
Proof. unfold random_sample. keeps. Qed.

Hint Resolve keeps_post keeps_info keeps_history_close keeps_random_sample : keeps.

Lemma keeps_fetch_insider_trades (query : string) (size : Z) :
  keeps_module (DeepDive.fetch_insider_trades o query size).
Proof. unfold DeepDive.fetch_insider_trades. keeps. Qed.

Lemma keeps_is_listed (t : string) : keeps_module (DeepDive.is_listed o t).
Proof. unfold DeepDive.is_listed. keeps. Qed.

Hint Resolve keeps_fetch_insider_trades keeps_is_listed : keeps.

Lemma keeps_listed_of (l : list string) : keeps_module (DeepDive.listed_of o l).
Proof. unfold DeepDive.listed_of. keeps. Qed.

Lemma keeps_momentum_loop (days_after : Z) (row : DeepDive.row (option date))
    (results : list DeepDive.momentum) :
  keeps_module (DeepDive.momentum_loop o days_after row results).
Proof. unfold DeepDive.momentum_loop. keeps. Qed.

Lemma keeps_analyze_days (df : list (DeepDive.row json)) (days_after : Z) :
  keeps_module (DeepDive.analyze_trade_momentum o df days_after).
Proof.
  unfold DeepDive.analyze_trade_momentum. destruct df; keeps.
Qed.

Lemma keeps_momentum_loop_hours (hours_after : Z) (row : DeepDive.row (option Timestamp))
    (results : list ReturnPost.momentum) :
  keeps_module (ReturnPost.momentum_loop o hours_after row results).
Proof. unfold ReturnPost.momentum_loop. keeps. Qed.

Lemma keeps_analyze_hours (df : list (DeepDive.row json)) (hours_after : Z) :
  keeps_module (ReturnPost.analyze_trade_momentum o df hours_after).
Proof.
  unfold ReturnPost.analyze_trade_momentum. destruct df; keeps.
Qed.

(** The three ways [fetch_insider_trades] can go. *)
Lemma fetch_insider_trades_run (query : string) (size : Z) (w : world) :
  let key := API_KEY (module w) in
  let p := mkPayload query 0 (Z.min size 50) ("filedAt", "desc") in
  let w1 := sent w (POST DeepDive.BASE_URL (Some key) p) in
  DeepDive.fetch_insider_trades o query size w =
    match requests_post o DeepDive.BASE_URL (Some key) p with
    | None => (Raise (UnboundLocalError "resp"), w1)
    | Some r =>
        match raise_for_status r with
        | Raise e =>
            (Ok [], printed w1 ("Error fetching insider trades for '" +:+ query +:+ "': "
                                  +:+ str_exn e +:+ nl +:+ text r))
        | Ok _ =>
            (data ← json_of r;
             DeepDive.flatten (TRANSACTION_CODE_MEANINGS (module w)) query data, w1)
        end
    end.
Proof.
  intros key p w1.
  unfold DeepDive.fetch_insider_trades. io_run. fold key p.
  destruct (requests_post o DeepDive.BASE_URL (Some key) p) as [r|]; io_run; [|done].
  destruct (raise_for_status r) as [[]|e] eqn:E; io_run.
  - destruct (json_of r); io_run; [|done]. by destruct (DeepDive.flatten _ _ _).
  - assert (is_Exception e = true) as ->; [|done].
    unfold raise_for_status in E.
    repeat (destruct (_ && _) in E; [by inversion E|]). discriminate.
Qed.
End Runs.

(** Take apart a chain of binds that is known to have returned. *)
Ltac bind_ok H :=
  repeat match type of H with
         | mbind _ ?m = Ok _ =>
             let E := fresh "E" in
             destruct m eqn:E; cbn [mbind result_bind] in H; [|discriminate H]
         end.

Lemma for_invariant {A S} (I : S -> Prop) (body : A -> S -> result S) (xs : list A) :
  (forall x s s', I s -> body x s = Ok s' -> I s') ->
  forall s s', I s -> for_ xs body s = Ok s' -> I s'.
Proof.
  intros Hb. induction xs as [|x xs IH]; intros s s' Hs H; simpl in H.
  - by injection H as <-.
  - bind_ok H. eauto.
Qed.

Section Described.
Variable vocabulary : gmap string string.

(** The description of a row is the entry of the vocabulary for its code. *)
Definition described (r : DeepDive.row json) : Prop :=
  DeepDive.transactionDesc r = Plain.entry vocabulary (DeepDive.transactionCode r).

Lemma describe_entry (code : json) (d : string) :
  DeepDive.describe vocabulary code = Ok d -> d = Plain.entry vocabulary code.
Proof. destruct code; simpl; congruence. Qed.

Lemma tx_loop_described (symbol g tx : json) (rows rows' : list (DeepDive.row json)) :
  Forall described rows ->
  DeepDive.tx_loop vocabulary symbol g tx rows = Ok rows' ->
  Forall described rows'.
Proof.
  intros Hr H. unfold DeepDive.tx_loop in H. bind_ok H.
  injection H as <-. apply Forall_app. split; [done|].
  constructor; [|constructor]. unfold described. simpl. by apply describe_entry.
Qed.

Lemma flatten_described (query : string) (data : json) (rows : list (DeepDive.row json)) :
  DeepDive.flatten vocabulary query data = Ok rows -> Forall described rows.
Proof.
  intros H. unfold DeepDive.flatten in H. bind_ok H.
  revert H. apply for_invariant; [|constructor].
  intros g s s' Hs H. unfold DeepDive.group_loop in H. bind_ok H.
  revert H. apply for_invariant; [|done].
  clear s s' Hs. intros table s s' Hs H. unfold DeepDive.table_loop in H. bind_ok H.
  revert H. apply for_invariant; [|done].
  intros tx r r'. apply tx_loop_described.
Qed.
End Described.

(* ===================================================================== *)
(** * The Extractor                                                       *)
(* ===================================================================== *)

(** C1. For a response of the form of the data model, the Extractor returns
    the records of the response in order: filing groups in response order
    and, within each group, the non-derivative transactions (in server
    order) before the derivative ones (in server order); the number of
    records is the sum over the groups of the two transaction counts.  This
    holds for the flattening of [Api_test.py] / [api_test_expanded_list.py]
    and for the one of the two momentum scripts, whatever the vocabulary
    and the query. *)
Theorem extractor_count_and_order
    (vocabulary : gmap string string) (query : string) (data : json) :
  (Enhanced.response data = true ->
     ApiTest.flatten data = Ok (Enhanced.records_in_order data)
     /\ length (Enhanced.records_in_order data) = transaction_count data
     /\ map ApiTest.transactionCategory (Enhanced.records_in_order data)
        = concat (map (fun g => replicate (nonDerivative_count g) "nonDerivative"
                                ++ replicate (derivative_count g) "derivative")
                      (filing_groups data)))
  /\ (Plain.response data = true ->
        DeepDive.flatten vocabulary query data
        = Ok (Plain.rows_in_order vocabulary query data)
        /\ length (Plain.rows_in_order vocabulary query data) = transaction_count data).
Proof.
  split; intros H.
  - split; [by apply flatten_shaped|]. split; [apply records_in_order_length|].
    unfold Enhanced.records_in_order.
    induction (filing_groups data) as [|g gs IH]; [done|].
    cbn [map concat]. rewrite map_app, IH. f_equal.
    unfold Enhanced.records_of_group, nonDerivative_count, derivative_count.
    rewrite map_app, !map_map. cbn [ApiTest.transactionCategory Enhanced.record_of].
    f_equal.
    + induction (transactions_of _ g); simpl; congruence.
    + induction (transactions_of _ g); simpl; congruence.
  - split; [by apply plain_flatten_shaped|apply rows_in_order_length].
Qed.

Lemma extractor_count_and_order_witness :
  (Enhanced.response Stub.data = true /\ Plain.response Stub.data = true)
  /\ ApiTest.flatten Stub.data = Ok (Enhanced.records_in_order Stub.data)
  /\ DeepDive.flatten DeepDive.meanings "issuer.tradingSymbol:ABC" Stub.data
     = Ok (Plain.rows_in_order DeepDive.meanings "issuer.tradingSymbol:ABC" Stub.data)
  /\ length (Plain.rows_in_order DeepDive.meanings "issuer.tradingSymbol:ABC" Stub.data)
     = 3%nat.
Proof.
  pose proof (extractor_count_and_order DeepDive.meanings "issuer.tradingSymbol:ABC" Stub.data)
    as [He Hp].
  split; [split; reflexivity|].
  split; [apply He; reflexivity|].
  destruct (Hp eq_refl) as [Hf Hl].
  split; [exact Hf|]. rewrite Hl. reflexivity.
Defined.

Example flatten_sample_codes :
  DeepDive.flatten DeepDive.meanings "issuer.tradingSymbol:TSLA" Stub.data
  = Ok [ DeepDive.mkRow (JStr "ABC") (JStr "2024-01-02") (JStr "P") "Purchase"
           (JInt 100) (JFloat 12.5) (JStr "CFO");
         DeepDive.mkRow (JStr "ABC") JNull JNull "Unknown" JNull JNull (JStr "CFO");
         DeepDive.mkRow (JStr "ABC") (JStr "2024-01-02") (JStr "Z") "Unknown"
           JNull JNull (JStr "CFO") ].
Proof. vm_compute. reflexivity. Qed.

Example flatten_sample_enhanced :
  ApiTest.flatten Stub.data
  = Ok [ ApiTest.mkRecord (JStr "4") "first; " JNull (JStr "CFO") JNull "nonDerivative"
           (JStr "Common Stock") (JStr "2024-01-02") (JStr "P") (JBool false)
           (JInt 100) (JFloat 12.5) (JInt 600);
         ApiTest.mkRecord (JStr "4") "first; " JNull (JStr "CFO") JNull "nonDerivative"
           JNull JNull JNull JNull JNull JNull JNull;
         ApiTest.mkRecord (JStr "4") "first; " JNull (JStr "CFO") JNull "derivative"
           JNull (JStr "2024-01-02") (JStr "Z") JNull JNull JNull JNull ].
Proof. vm_compute. reflexivity. Qed.

(** The fallback of the ticker: what follows the last colon of the query. *)
Example symbol_falls_back_to_query :
  DeepDive.resolve_symbol "issuer.tradingSymbol:TSLA" Stub.group_empty = Ok (JStr "TSLA").
Proof. reflexivity. Qed.

Lemma absent_is_null (v : json) (path : list string) :
  at_path v path = None -> scalar_at v path = JNull.
Proof. unfold scalar_at. by intros ->. Qed.

Lemma absent_is_accepted (p : json -> bool) (k : string) (items : list (string * json)) :
  assoc k items = None -> field p k (JObj items) = true.
Proof. simpl. by intros ->. Qed.

(** C5. Missing nested fields do not fail the extraction.  In a group and a
    transaction of the form of the data model every sub-table and every
    cluster (coding, amounts, post-transaction holdings, issuer, reporting
    owner, relationship) may be absent ([absent_is_accepted]); [extract] and
    the loop body then return, each scalar of the emitted record is the
    scalar found at its path in the response, and it is null as soon as the
    scalar or an object on its path is absent; a group whose two sub-tables
    are missing or empty leaves the list of records as it was.  Both
    flattenings are covered.  (The ticker of the momentum scripts is not a
    copied scalar: it is resolved from the issuer symbol or the query.) *)
Theorem missing_fields_resolve_to_null :
  (forall (p : json -> bool) k items, assoc k items = None -> field p k (JObj items) = true)
  /\ (forall v path, at_path v path = None -> scalar_at v path = JNull)
  /\ (forall m category tx,
        Enhanced.transaction tx = true ->
        ApiTest.extract m tx category = Ok (Enhanced.record_of m category tx))
  /\ (forall g, Enhanced.group g = true -> ApiTest.group_meta g = Ok (Enhanced.meta_of g))
  /\ (forall g records,
        Enhanced.group g = true ->
        transactions_of "nonDerivativeTable" g = [] ->
        transactions_of "derivativeTable" g = [] ->
        ApiTest.group_loop g records = Ok records)
  /\ (forall vocabulary query g tx rows,
        Plain.group g = true ->
        Plain.transaction tx = true ->
        DeepDive.tx_loop vocabulary (Plain.symbol_of query g) g tx rows
        = Ok (rows ++ [Plain.row_of vocabulary query g tx]))
  /\ (forall vocabulary query g rows,
        Plain.group g = true ->
        transactions_of "nonDerivativeTable" g = [] ->
        transactions_of "derivativeTable" g = [] ->
        DeepDive.group_loop vocabulary query g rows = Ok rows).
Proof.
  split; [exact absent_is_accepted|].
  split; [exact absent_is_null|].
  split; [intros; by apply extract_shaped|].
  split; [exact group_meta_shaped|].
  split.
  { intros g records Hg Hn Hd. rewrite group_loop_shaped by done.
    unfold Enhanced.records_of_group. rewrite Hn, Hd. simpl. by rewrite app_nil_r. }
  split; [intros; by apply tx_loop_shaped|].
  intros vocabulary query g rows Hg Hn Hd. rewrite plain_group_loop_shaped by done.
  unfold Plain.rows_of_group. rewrite Hn, Hd. simpl. by rewrite app_nil_r.
Qed.

Lemma missing_fields_resolve_to_null_witness :
  Enhanced.transaction Stub.tx_bare = true
  /\ ApiTest.extract (Enhanced.meta_of Stub.group_empty) Stub.tx_bare "derivative"
     = Ok (ApiTest.mkRecord (JStr "4") "" JNull JNull JNull "derivative"
             JNull JNull JNull JNull JNull JNull JNull)
  /\ ApiTest.group_loop Stub.group_empty [] = Ok []
  /\ DeepDive.group_loop DeepDive.meanings "issuer.tradingSymbol:TSLA" Stub.group_empty []
     = Ok [].
Proof.
  destruct missing_fields_resolve_to_null as (_ & _ & Hx & _ & Hg & _ & Hp).
  split; [reflexivity|].
  split; [exact (Hx (Enhanced.meta_of Stub.group_empty) "derivative" Stub.tx_bare eq_refl)|].
  split; [exact (Hg Stub.group_empty [] eq_refl eq_refl eq_refl)|].
  exact (Hp DeepDive.meanings "issuer.tradingSymbol:TSLA" Stub.group_empty []
           eq_refl eq_refl eq_refl).
Defined.

(** C7. Every row that [fetch_insider_trades] emits has, as transactionDesc,
    the entry of the vocabulary for its transaction code, and "Unknown"
    when the vocabulary has no entry for it; "P" reads "Purchase" and "Z"
    reads "Unknown".  The vocabulary is bound once, at import, and neither
    the fetch nor the analysis of either momentum script rebinds it. *)
Theorem transactionDesc_is_vocabulary_entry
    (o : oracle) (query : string) (size : Z) (w w' : world)
    (rows : list (DeepDive.row json)) :
  TRANSACTION_CODE_MEANINGS (module w) = DeepDive.meanings ->
  DeepDive.fetch_insider_trades o query size w = (Ok rows, w') ->
  Forall (fun r => DeepDive.transactionDesc r
                   = Plain.entry DeepDive.meanings (DeepDive.transactionCode r)) rows
  /\ (forall r c, r ∈ rows -> DeepDive.transactionCode r = JStr c ->
                  DeepDive.meanings !! c = None -> DeepDive.transactionDesc r = "Unknown")
  /\ Plain.entry DeepDive.meanings (JStr "P") = "Purchase"
  /\ Plain.entry DeepDive.meanings (JStr "Z") = "Unknown"
  /\ TRANSACTION_CODE_MEANINGS (module w') = DeepDive.meanings
  /\ (forall df n w0, module (DeepDive.analyze_trade_momentum o df n w0).2 = module w0)
  /\ (forall df n w0, module (ReturnPost.analyze_trade_momentum o df n w0).2 = module w0)
  /\ (forall q n w0, module (DeepDive.fetch_insider_trades o q n w0).2 = module w0).
Proof.
  intros Hv Hrun.
  assert (Hd : Forall (described DeepDive.meanings) rows).
  { rewrite fetch_insider_trades_run in Hrun. cbv zeta in Hrun.
    destruct (requests_post _ _ _ _) as [r|]; [|discriminate].
    destruct (raise_for_status r).
    - injection Hrun as Hf _. rewrite Hv in Hf.
      destruct (json_of r); [|discriminate]. by apply flatten_described in Hf.
    - injection Hrun as <- _. constructor. }
  split; [exact Hd|].
  split.
  { intros r c Hr Hc Hn. rewrite Forall_forall in Hd. specialize (Hd r Hr).
    unfold described in Hd. rewrite Hd, Hc. simpl. by rewrite Hn. }
  split; [reflexivity|]. split; [reflexivity|].
  split.
  { pose proof (keeps_fetch_insider_trades o query size w) as K.
    rewrite Hrun in K. simpl in K. by rewrite K. }
  split; [intros; apply keeps_analyze_days|].
  split; [intros; apply keeps_analyze_hours|].
  intros; apply keeps_fetch_insider_trades.
Qed.

Lemma transactionDesc_is_vocabulary_entry_witness :
  Forall (fun r => DeepDive.transactionDesc r
                   = Plain.entry DeepDive.meanings (DeepDive.transactionCode r))
         (Plain.rows_in_order DeepDive.meanings "issuer.tradingSymbol:ABC" Stub.data).
Proof.
  refine (proj1 (transactionDesc_is_vocabulary_entry Stub.online
            "issuer.tradingSymbol:ABC" 50 Stub.ready
            (sent Stub.ready
               (POST DeepDive.BASE_URL (Some "k3y")
                  (mkPayload "issuer.tradingSymbol:ABC" 0 50 ("filedAt", "desc"))))
            _ _ _)).
  - reflexivity.
  - vm_compute. reflexivity.
Defined.

(* ===================================================================== *)
(** * The Momentum Analyzer                                               *)
(* ===================================================================== *)

(** What the specification expects for one record; the loops of the two
    scripts are compared with these definitions. *)
Module Expected.

(** The timestamp with its zone dropped (the instant stays the same). *)
Definition drop_zone (t : Timestamp) : Timestamp := mkTimestamp (value t) None.

(** The price history the analyzer works with, given the answer of the
    collaborator: empty when it throws. *)
Definition closes_of (answer : string + list (Timestamp * float)) : list (Timestamp * float) :=
  match answer with
  | inr closes => closes
  | inl _ => []
  end.

(** The line the analyzer prints when the collaborator throws. *)
Definition report (opening ticker : string) (answer : string + list (Timestamp * float))
  : list string :=
  match answer with
  | inr _ => []
  | inl msg => [opening +:+ ticker +:+ ": " +:+ msg]
  end.

Section Days.
Variable o : oracle.
Variable days_after : Z.

(** The request of the day-window analyzer for a record, and its answer. *)
Definition request_days (row : DeepDive.row (option date)) : call :=
  let d := DeepDive.transactionDate row in
  HISTORY (DeepDive.ticker row) (on_day d) (on_day ((fun d => d + days_after) <$> d)) "1d".

Definition answer_days (row : DeepDive.row (option date)) : string + list (Timestamp * float) :=
  let d := DeepDive.transactionDate row in
  yf_history o (DeepDive.ticker row) (on_day d) (on_day ((fun d => d + days_after) <$> d)) "1d".

Definition closes_days (row : DeepDive.row (option date)) : list (Timestamp * float) :=
  closes_of (answer_days row).

Definition momentum_days (row : DeepDive.row (option date)) : DeepDive.momentum :=
  match closes_days row with
  | [] => DeepDive.mkMomentum row None None None
  | first :: rest =>
      let last := List.last (first :: rest) first in
      DeepDive.mkMomentum row
        (Some ((snd last - snd first) / snd first)%float)
        (Some (date_of (fst last)))
        ((fun d => date_of (fst last) - d) <$> DeepDive.transactionDate row)
  end.

(** The records the day-window loop gets through: the end of the window is
    a day of the calendar; a record without a date has no price data. *)
Definition ready_days (row : DeepDive.row (option date)) : Prop :=
  match DeepDive.transactionDate row with
  | Some d => date_min <= d + days_after <= date_max
  | None => closes_days row = []
  end.
End Days.

Section Hours.
Variable o : oracle.
Variable hours_after : Z.

Definition stop_hours (t : Timestamp) : Timestamp :=
  mkTimestamp (value t + hours_after * 3600 * ns_per_second) None.

(** The request of the hour-window analyzer for a record, and its answer. *)
Definition request_hours (row : DeepDive.row (option Timestamp)) : call :=
  let t := drop_zone <$> DeepDive.transactionDate row in
  HISTORY (DeepDive.ticker row) (at_time t) (at_time (stop_hours <$> t)) "1h".

Definition answer_hours (row : DeepDive.row (option Timestamp))
  : string + list (Timestamp * float) :=
  let t := drop_zone <$> DeepDive.transactionDate row in
  yf_history o (DeepDive.ticker row) (at_time t) (at_time (stop_hours <$> t)) "1h".

Definition closes_hours (row : DeepDive.row (option Timestamp)) : list (Timestamp * float) :=
  closes_of (answer_hours row).

Definition momentum_hours (row : DeepDive.row (option Timestamp)) : ReturnPost.momentum :=
  match closes_hours row with
  | [] => ReturnPost.mkMomentum row None None None
  | first :: rest =>
      let last := List.last (first :: rest) first in
      ReturnPost.mkMomentum row
        (Some ((snd last - snd first) / snd first)%float)
        (Some (drop_zone (fst last)))
        (Some (ReturnPost.hours_between (drop_zone (fst last))
                 (drop_zone <$> DeepDive.transactionDate row)))
  end.

(** The records the hour-window loop gets through: the end of the window
    is a timestamp. *)
Definition ready_hours (row : DeepDive.row (option Timestamp)) : Prop :=
  match DeepDive.transactionDate row with
  | Some t => in_bounds (value t + hours_after * 3600 * ns_per_second) = true
  | None => True
  end.
End Hours.

End Expected.

(** The world after one turn of an analysis loop: a request has gone out
    and the lines of a failed look-up have been printed. *)
Definition turn (request : call) (lines : list string) (w : world) : world :=
  mkWorld (environ w) (stdout w ++ lines) (wire w ++ [request]) (module w).

(** An instant without a zone, and a price-history request made of them. *)
Definition zone_free (i : instant) : Prop :=
  match i with
  | At t => tzinfo t = None
  | _ => True
  end.

Definition naive_request (c : call) : Prop :=
  match c with
  | HISTORY _ start stop _ => zone_free start /\ zone_free stop
  | _ => False
  end.

Lemma for_io_Forall {A B} (P : A -> Prop) (body : A -> list B -> io (list B)) (g : A -> B)
    (effect : A -> world -> world) (xs : list A) :
  (forall x acc w, P x -> body x acc w = (Ok (acc ++ [g x]), effect x w)) ->
  Forall P xs ->
  forall acc w,
    for_io xs body acc w
    = (Ok (acc ++ map g xs), fold_left (fun w x => effect x w) xs w).
Proof.
  intros Hb HP. induction HP as [|x xs Hx _ IH]; intros acc w; simpl.
  - by rewrite app_nil_r.
  - unfold mbind, io_bind. rewrite (Hb _ _ _ Hx), IH. by rewrite <- app_assoc.
Qed.

Lemma fold_turn {A} (request : A -> call) (lines : A -> list string) (xs : list A)
    (w : world) :
  let w' := fold_left (fun w x => turn (request x) (lines x) w) xs w in
  wire w' = wire w ++ map request xs
  /\ stdout w' = stdout w ++ concat (map lines xs).
Proof.
  revert w. induction xs as [|x xs IH]; intros w; simpl.
  - by rewrite !app_nil_r.
  - destruct (IH (turn (request x) (lines x) w)) as [-> ->]. simpl.
    by rewrite <- !app_assoc.
Qed.

(** A loop whose turns send naive requests only and, when they return,
    have appended one result. *)
Lemma for_io_requests {A B} (P : call -> Prop) (body : A -> list B -> io (list B))
    (xs : list A) :
  (forall x acc w, exists cs,
     wire (body x acc w).2 = wire w ++ cs /\ Forall P cs
     /\ forall acc', (body x acc w).1 = Ok acc' -> length acc' = S (length acc)) ->
  forall acc w, exists cs,
    wire (for_io xs body acc w).2 = wire w ++ cs /\ Forall P cs
    /\ forall acc', (for_io xs body acc w).1 = Ok acc'
                    -> length acc' = (length acc + length xs)%nat.
Proof.
  intros Hb. induction xs as [|x xs IH]; intros acc w; simpl.
  - exists []. rewrite app_nil_r. split; [done|]. split; [constructor|].
    intros acc' [= <-]. lia.
  - destruct (Hb x acc w) as (c1 & W1 & F1 & L1). unfold mbind, io_bind.
    destruct (body x acc w) as [[acc1|e] w1]; cbn [fst snd] in *.
    + destruct (IH acc1 w1) as (c2 & W2 & F2 & L2). exists (c1 ++ c2).
      split; [by rewrite W2, W1, app_assoc|]. split; [by apply Forall_app|].
      intros acc' E. rewrite (L2 _ E), (L1 _ eq_refl). lia.
    + exists c1. split; [done|]. split; [done|]. discriminate.
Qed.

Lemma last_map {A B} (f : A -> B) (l : list A) (d : A) :
  List.last (map f l) (f d) = f (List.last l d).
Proof. induction l as [|x [|y l] IH]; simpl in *; congruence. Qed.

Lemma naive_drops_zone (t : Timestamp) : ReturnPost.naive t = Ok (Expected.drop_zone t).
Proof.
  unfold ReturnPost.naive, tz_convert_None, Expected.drop_zone.
  destruct t as [v [off|]]; reflexivity.
Qed.

Lemma to_pydatetime_naive (t : Timestamp) :
  to_pydatetime (Expected.drop_zone t) = value t / 1000.
Proof. unfold to_pydatetime, wall, Expected.drop_zone. simpl. by rewrite Z.add_0_r. Qed.

(** The available branch, once the closes are known not to be empty. *)
Lemma closes_ends (first : Timestamp * float) (rest : list (Timestamp * float)) :
  let last := List.last (first :: rest) first in
  getitem (map snd (first :: rest)) 0 = Ok (snd first)
  /\ getitem (map snd (first :: rest)) (-1) = Ok (snd last)
  /\ getitem (map fst (first :: rest)) (-1) = Ok (fst last).
Proof.
  cbn [map]. rewrite getitem_first, (getitem_last _ (fst first)), (getitem_last _ (snd first)).
  change (snd first :: map snd rest) with (map snd (first :: rest)).
  change (fst first :: map fst rest) with (map fst (first :: rest)).
  by rewrite !last_map.
Qed.

Section Analysis.
Variable o : oracle.

Lemma momentum_loop_days (n : Z) (row : DeepDive.row (option date))
    (results : list DeepDive.momentum) (w : world) :
  in_bounds (n * ns_per_day) = true ->
  Expected.ready_days o n row ->
  DeepDive.momentum_loop o n row results w
  = (Ok (results ++ [Expected.momentum_days o n row]),
     turn (Expected.request_days n row)
       (Expected.report "Error fetching history for " (str_json o (DeepDive.ticker row))
          (Expected.answer_days o n row)) w).
Proof.
  intros Hb Hr.
  unfold DeepDive.momentum_loop, Expected.ready_days, Expected.momentum_days,
    Expected.closes_days, Expected.answer_days, Expected.request_days, Timedelta in *.
  rewrite Hb. destruct row as [tkr [d|] code desc sh price title];
    cbn [DeepDive.transactionDate DeepDive.ticker fmap option_fmap option_map on_day] in *.
  - io_run. unfold date_add. rewrite Z.div_mul by done.
    replace ((date_min <=? d + n) && (d + n <=? date_max)) with true
      by (symmetry; apply andb_true_iff; split; apply Z.leb_le; lia).
    cbn [fmap result_fmap on_day].
    destruct (yf_history o _ _ _ _) as [msg|[|first rest]]; cbn [Expected.closes_of Expected.report].
    + reflexivity.
    + unfold turn. by rewrite app_nil_r.
    + replace (1 <=? Z.of_nat (length (first :: rest))) with true
        by (symmetry; apply Z.leb_le; simpl length; lia).
      destruct (closes_ends first rest) as (-> & -> & ->).
      unfold turn. by rewrite app_nil_r.
  - io_run.
    destruct (yf_history o _ _ _ _) as [msg|closes]; cbn [Expected.closes_of Expected.report] in *.
    + reflexivity.
    + subst closes. unfold turn. by rewrite app_nil_r.
Qed.

Lemma momentum_loop_hours (n : Z) (row : DeepDive.row (option Timestamp))
    (results : list ReturnPost.momentum) (w : world) :
  in_bounds (n * 3600 * ns_per_second) = true ->
  Expected.ready_hours n row ->
  ReturnPost.momentum_loop o n row results w
  = (Ok (results ++ [Expected.momentum_hours o n row]),
     turn (Expected.request_hours n row)
       (Expected.report "Error fetching intraday history for "
          (str_json o (DeepDive.ticker row)) (Expected.answer_hours o n row)) w).
Proof.
  intros Hb Hr.
  unfold ReturnPost.momentum_loop, Expected.ready_hours, Expected.momentum_hours,
    Expected.closes_hours, Expected.answer_hours, Expected.request_hours, Timedelta in *.
  rewrite Hb. destruct row as [tkr [t|] code desc sh price title];
    cbn [DeepDive.transactionDate DeepDive.ticker fmap option_fmap option_map at_time] in *.
  - rewrite naive_drops_zone. io_run. cbn [fmap result_fmap]. unfold add_timedelta.
    cbn [value tzinfo Expected.drop_zone]. rewrite Hr. cbn [at_time fmap result_fmap].
    fold (Expected.stop_hours n (Expected.drop_zone t)).
    destruct (yf_history o _ _ _ _) as [msg|[|first rest]]; cbn [Expected.closes_of Expected.report].
    + reflexivity.
    + unfold turn. by rewrite app_nil_r.
    + destruct (closes_ends first rest) as (-> & -> & ->). rewrite naive_drops_zone.
      unfold turn. by rewrite app_nil_r.
  - io_run. cbn [at_time].
    destruct (yf_history o _ _ _ _) as [msg|[|first rest]]; cbn [Expected.closes_of Expected.report].
    + reflexivity.
    + unfold turn. by rewrite app_nil_r.
    + destruct (closes_ends first rest) as (-> & -> & ->). rewrite naive_drops_zone.
      unfold turn. by rewrite app_nil_r.
Qed.

(** Whatever the record and the answers: a turn sends at most one request,
    a naive one, and when it returns, it has appended one result. *)
Lemma momentum_loop_days_requests (n : Z) (row : DeepDive.row (option date))
    (results : list DeepDive.momentum) (w : world) :
  exists cs,
    wire (DeepDive.momentum_loop o n row results w).2 = wire w ++ cs
    /\ Forall naive_request cs
    /\ forall results', (DeepDive.momentum_loop o n row results w).1 = Ok results'
                        -> length results' = S (length results).
Proof.
  unfold DeepDive.momentum_loop, Timedelta.
  destruct (in_bounds _); io_run; [|by exists []; rewrite app_nil_r].
  assert (Hs : forall stop : option date,
            Forall naive_request
              [HISTORY (DeepDive.ticker row) (on_day (DeepDive.transactionDate row))
                 (on_day stop) "1d"]).
  { intros stop. repeat constructor; [by destruct (DeepDive.transactionDate row)|by destruct stop]. }
  destruct (DeepDive.transactionDate row) as [d|] eqn:Ed.
  - destruct (date_add d _) as [stop|e]; cbn [fmap result_fmap];
      [|by exists []; rewrite app_nil_r].
    eexists. split; [|split; [exact (Hs (Some stop))|]].
    + destruct (yf_history o _ _ _ _) as [msg|[|first rest]]; cbn [fst snd wire]; try reflexivity.
      destruct (1 <=? _); [|reflexivity].
      by repeat (destruct (getitem _ _); cbn [fst snd wire]).
    + intros results'.
      destruct (yf_history o _ _ _ _) as [msg|[|first rest]]; cbn [fst snd];
        try (intros [= <-]; rewrite length_app; simpl; lia).
      destruct (1 <=? _); [|intros [= <-]; rewrite length_app; simpl; lia].
      repeat (destruct (getitem _ _); cbn [fst snd]; [|discriminate]).
      intros [= <-]. rewrite length_app. simpl. lia.
  - eexists. split; [|split; [exact (Hs None)|]].
    + destruct (yf_history o _ _ _ _) as [msg|[|first rest]]; cbn [fst snd wire]; try reflexivity.
      destruct (1 <=? _); [|reflexivity].
      by repeat (destruct (getitem _ _); cbn [fst snd wire]).
    + intros results'.
      destruct (yf_history o _ _ _ _) as [msg|[|first rest]]; cbn [fst snd];
        try (intros [= <-]; rewrite length_app; simpl; lia).
      destruct (1 <=? _); [|intros [= <-]; rewrite length_app; simpl; lia].
      repeat (destruct (getitem _ _); cbn [fst snd]; [|discriminate]).
      discriminate.
Qed.


(** The day-window analysis of a batch it gets through. *)
Lemma analyze_days (df : list (DeepDive.row json)) (n : Z) (w : world)
    (cells : nat -> option Timestamp) :
  to_datetime o (map DeepDive.transactionDate df) = inr cells ->
  in_bounds (n * ns_per_day) = true ->
  let rows := DeepDive.with_transactionDate (fun i => date_of <$> cells i) df in
  Forall (Expected.ready_days o n) rows ->
  exists w',
    DeepDive.analyze_trade_momentum o df n w
    = (Ok (map (Expected.momentum_days o n) rows), w')
    /\ wire w' = wire w ++ map (Expected.request_days n) rows
    /\ stdout w'
       = stdout w
         ++ match df with
            | [] => ["No trades to analyze."]
            | _ => concat (map (fun row =>
                                  Expected.report "Error fetching history for "
                                    (str_json o (DeepDive.ticker row))
                                    (Expected.answer_days o n row)) rows)
            end.
Proof.
  intros Hp Hb rows Hr. unfold DeepDive.analyze_trade_momentum, pd_to_datetime.
  destruct df as [|r df].
  { eexists. split; [reflexivity|]. split; [|reflexivity]. simpl. by rewrite app_nil_r. }
  rewrite Hp. io_run. fold rows.
  rewrite (for_io_Forall _ _ _ _ _ (fun x acc w0 Hx => momentum_loop_days n x acc w0 Hb Hx) Hr).
  eexists. split; [reflexivity|]. apply fold_turn.
Qed.

(** The hour-window analysis of a batch it gets through. *)
Lemma analyze_hours (df : list (DeepDive.row json)) (n : Z) (w : world)
    (cells : nat -> option Timestamp) :
  to_datetime o (map DeepDive.transactionDate df) = inr cells ->
  in_bounds (n * 3600 * ns_per_second) = true ->
  let rows := DeepDive.with_transactionDate cells df in
  Forall (Expected.ready_hours n) rows ->
  exists w',
    ReturnPost.analyze_trade_momentum o df n w
    = (Ok (map (Expected.momentum_hours o n) rows), w')
    /\ wire w' = wire w ++ map (Expected.request_hours n) rows
    /\ stdout w'
       = stdout w
         ++ match df with
            | [] => ["No trades to analyze."]
            | _ => concat (map (fun row =>
                                  Expected.report "Error fetching intraday history for "
                                    (str_json o (DeepDive.ticker row))
                                    (Expected.answer_hours o n row)) rows)
            end.
Proof.
  intros Hp Hb rows Hr. unfold ReturnPost.analyze_trade_momentum, pd_to_datetime.
  destruct df as [|r df].
  { eexists. split; [reflexivity|]. split; [|reflexivity]. simpl. by rewrite app_nil_r. }
  rewrite Hp. io_run. fold rows.
  rewrite (for_io_Forall _ _ _ _ _ (fun x acc w0 Hx => momentum_loop_hours n x acc w0 Hb Hx) Hr).
  eexists. split; [reflexivity|]. apply fold_turn.
Qed.

(** Whatever the batch and the answers, the analyses send naive requests
    only, and a table they return has one row per record. *)
Lemma analyze_days_requests (df : list (DeepDive.row json)) (n : Z) (w : world) :
  exists cs,
    wire (DeepDive.analyze_trade_momentum o df n w).2 = wire w ++ cs
    /\ Forall naive_request cs
    /\ forall results, (DeepDive.analyze_trade_momentum o df n w).1 = Ok results
                       -> length results = length df.
Proof.
  unfold DeepDive.analyze_trade_momentum, pd_to_datetime. destruct df as [|r df].
  { exists []. rewrite app_nil_r. split; [done|]. split; [constructor|]. by intros ? [= <-]. }
  destruct (to_datetime o _) as [msg|cells]; io_run.
  { exists []. rewrite app_nil_r. split; [done|]. split; [constructor|]. discriminate. }
  destruct (for_io_requests naive_request (DeepDive.momentum_loop o n)
              (DeepDive.with_transactionDate (fun i => date_of <$> cells i) (r :: df))
              (fun x acc w0 => momentum_loop_days_requests n x acc w0) [] w)
    as (cs & W & F & L).
  exists cs. split; [exact W|]. split; [exact F|].
  intros results E. rewrite (L _ E). unfold DeepDive.with_transactionDate.
  by rewrite length_imap.
Qed.

End Analysis.

Lemma for_io_Ok_Forall {A S} (P : A -> Prop) (body : A -> S -> io S) (xs : list A) :
  (forall x s w s' w', body x s w = (Ok s', w') -> P x) ->
  forall s w s' w', for_io xs body s w = (Ok s', w') -> Forall P xs.
Proof.
  intros Hb. induction xs as [|x xs IH]; intros s w s' w' E; [constructor|].
  cbn [for_io] in E. unfold mbind, io_bind in E.
  destruct (body x s w) as [[s1|e] w1] eqn:E1; [|discriminate].
  constructor; eauto.
Qed.

Section Completion.
Variable o : oracle.

(** A turn of the day-window loop returns for the records of
    [Expected.ready_days] only, and only with a window a [Timedelta] holds. *)
Lemma momentum_loop_days_returns (n : Z) (row : DeepDive.row (option date))
    (results results' : list DeepDive.momentum) (w w' : world) :
  DeepDive.momentum_loop o n row results w = (Ok results', w') ->
  in_bounds (n * ns_per_day) = true /\ Expected.ready_days o n row.
Proof.
  unfold DeepDive.momentum_loop, Timedelta, Expected.ready_days, Expected.closes_days,
    Expected.answer_days.
  destruct (in_bounds _); io_run; [|discriminate]. intros E. split; [done|].
  destruct (DeepDive.transactionDate row) as [d|]; cbn [fmap option_fmap option_map on_day] in *.
  - revert E. unfold date_add. rewrite Z.div_mul by done.
    destruct (_ && _) eqn:C; cbn [fmap result_fmap]; [|discriminate]. intros _.
    apply andb_true_iff in C as [C1 C2]. apply Z.leb_le in C1, C2. lia.
  - revert E.
    destruct (yf_history o _ _ _ _) as [msg|[|first rest]]; cbn [Expected.closes_of]; try done.
    replace (1 <=? Z.of_nat (length (first :: rest))) with true
      by (symmetry; apply Z.leb_le; simpl length; lia).
    destruct (closes_ends first rest) as (-> & -> & ->). discriminate.
Qed.

Lemma momentum_loop_hours_returns (n : Z) (row : DeepDive.row (option Timestamp))
    (results results' : list ReturnPost.momentum) (w w' : world) :
  ReturnPost.momentum_loop o n row results w = (Ok results', w') ->
  in_bounds (n * 3600 * ns_per_second) = true /\ Expected.ready_hours n row.
Proof.
  unfold ReturnPost.momentum_loop, Timedelta, Expected.ready_hours.
  destruct (DeepDive.transactionDate row) as [t|].
  - rewrite naive_drops_zone. io_run. cbn [fmap result_fmap].
    destruct (in_bounds (n * _ * _)); io_run; [|discriminate].
    unfold add_timedelta. cbn [value Expected.drop_zone].
    destruct (in_bounds (value t + _)); cbn [fmap result_fmap]; [done|discriminate].
  - io_run. destruct (in_bounds _); io_run; [done|discriminate].
Qed.

(** The batches the analyses get through: those whose column of dates
    parses, with a window a [Timedelta] holds and records that are all
    ready, and no others. *)
Lemma day_analysis_returns_iff (r : DeepDive.row json) (df : list (DeepDive.row json))
    (n : Z) (w : world) :
  (exists results w', DeepDive.analyze_trade_momentum o (r :: df) n w = (Ok results, w'))
  <-> exists cells,
        to_datetime o (map DeepDive.transactionDate (r :: df)) = inr cells
        /\ in_bounds (n * ns_per_day) = true
        /\ Forall (Expected.ready_days o n)
             (DeepDive.with_transactionDate (fun i => date_of <$> cells i) (r :: df)).
Proof.
  split.
  - intros (results & w' & E). revert E.
    unfold DeepDive.analyze_trade_momentum, pd_to_datetime.
    destruct (to_datetime o _) as [e|cells]; io_run; [discriminate|]. intros E.
    exists cells. split; [done|].
    pose proof (for_io_Ok_Forall
                  (fun row => in_bounds (n * ns_per_day) = true /\ Expected.ready_days o n row)
                  _ _ (fun x s w0 s' w1 => momentum_loop_days_returns n x s s' w0 w1)
                  _ _ _ _ E) as F.
    split.
    + apply Forall_cons in F as [[Hb _] _]. exact Hb.
    + eapply Forall_impl; [exact F|]. by intros ? [_ ?].
  - intros (cells & Hp & Hb & Hr).
    destruct (analyze_days o (r :: df) n w cells Hp Hb Hr) as (w' & E & _). eauto.
Qed.

Lemma hour_analysis_returns_iff (r : DeepDive.row json) (df : list (DeepDive.row json))
    (n : Z) (w : world) :
  (exists results w', ReturnPost.analyze_trade_momentum o (r :: df) n w = (Ok results, w'))
  <-> exists cells,
        to_datetime o (map DeepDive.transactionDate (r :: df)) = inr cells
        /\ in_bounds (n * 3600 * ns_per_second) = true
        /\ Forall (Expected.ready_hours n) (DeepDive.with_transactionDate cells (r :: df)).
Proof.
  split.
  - intros (results & w' & E). revert E.
    unfold ReturnPost.analyze_trade_momentum, pd_to_datetime.
    destruct (to_datetime o _) as [e|cells]; io_run; [discriminate|]. intros E.
    exists cells. split; [done|].
    pose proof (for_io_Ok_Forall
                  (fun row => in_bounds (n * 3600 * ns_per_second) = true
                              /\ Expected.ready_hours n row)
                  _ _ (fun x s w0 s' w1 => momentum_loop_hours_returns n x s s' w0 w1)
                  _ _ _ _ E) as F.
    split.
    + apply Forall_cons in F as [[Hb _] _]. exact Hb.
    + eapply Forall_impl; [exact F|]. by intros ? [_ ?].
  - intros (cells & Hp & Hb & Hr).
    destruct (analyze_hours o (r :: df) n w cells Hp Hb Hr) as (w' & E & _). eauto.
Qed.
End Completion.

Lemma finite_nonzero_spec (c : float) :
  PrimFloat.is_finite c = true -> PrimFloat.is_zero c = false ->
  exists s m e, Prim2SF c = S754_finite s m e.
Proof.
  unfold PrimFloat.is_finite, PrimFloat.is_nan, PrimFloat.is_infinity, PrimFloat.is_zero.
  rewrite !FloatAxioms.eqb_spec, FloatAxioms.abs_spec.
  destruct (Prim2SF c) as [s|s| |s m e] eqn:E; simpl.
  - intros _ H. discriminate H.
  - intros H. exfalso. revert H. destruct s; simpl; discriminate.
  - discriminate.
  - eauto.
Qed.

(** In binary64, (c - c) / c compares equal to zero for a finite non-zero c. *)
Lemma self_difference_ratio (c : float) :
  PrimFloat.is_finite c = true -> PrimFloat.is_zero c = false ->
  PrimFloat.eqb (PrimFloat.div (PrimFloat.sub c c) c) 0%float = true.
Proof.
  intros Hf Hz. destruct (finite_nonzero_spec c Hf Hz) as (s & m & e & E).
  rewrite FloatAxioms.eqb_spec, FloatAxioms.div_spec, FloatAxioms.sub_spec, E.
  unfold SF64sub, SFsub. rewrite Z.sub_diag. simpl.
  reflexivity.
Qed.

Lemma trade_momentum_days (o : oracle) (n : Z) (rows : list (DeepDive.row (option date))) :
  map DeepDive.trade (map (Expected.momentum_days o n) rows) = rows.
Proof.
  induction rows as [|r rows IH]; [done|]. cbn [map]. rewrite IH. f_equal.
  unfold Expected.momentum_days. by destruct (Expected.closes_days o n r).
Qed.

Lemma trade_momentum_hours (o : oracle) (n : Z) (rows : list (DeepDive.row (option Timestamp))) :
  map ReturnPost.trade (map (Expected.momentum_hours o n) rows) = rows.
Proof.
  induction rows as [|r rows IH]; [done|]. cbn [map]. rewrite IH. f_equal.
  unfold Expected.momentum_hours. by destruct (Expected.closes_hours o n r).
Qed.

(** A record that is ready and has price data has a transaction date. *)
Lemma ready_days_dated (o : oracle) (n : Z) (row : DeepDive.row (option date))
    (first : Timestamp * float) (rest : list (Timestamp * float)) :
  Expected.ready_days o n row -> Expected.closes_days o n row = first :: rest ->
  exists d, DeepDive.transactionDate row = Some d.
Proof.
  unfold Expected.ready_days. destruct (DeepDive.transactionDate row) as [d|]; [eauto|].
  intros -> H. discriminate H.
Qed.

(** The day-window table on the worked example of the specification. *)
Example worked_example_days :
  (DeepDive.analyze_trade_momentum Stub.online [Stub.trade "ABC" "2024-01-02"] 30 Stub.ready).1
  = Ok [ DeepDive.mkMomentum
           (DeepDive.set_transactionDate (fun _ => Some (ymd 2024 1 2))
              (Stub.trade "ABC" "2024-01-02"))
           (Some 0.1%float) (Some (ymd 2024 1 15)) (Some 13) ].
Proof. vm_compute. reflexivity. Qed.

(** The hour-window table on two hourly bars a day apart, stamped in a zone
    five hours behind UTC, for a trade stamped in the same zone. *)
Example worked_example_hours :
  (ReturnPost.analyze_trade_momentum Stub.online
     [Stub.trade "ABC" "2024-01-02T09:30:00-05:00"] 48 Stub.ready).1
  = Ok [ ReturnPost.mkMomentum
           (DeepDive.set_transactionDate (fun _ => Some (Stub.opening_new_york (ymd 2024 1 2)))
              (Stub.trade "ABC" "2024-01-02T09:30:00-05:00"))
           (Some 0.1%float)
           (Some (mkTimestamp ((ymd 2024 1 3) * ns_per_day + 52200 * ns_per_second) None))
           (Some 24%float) ].
Proof. vm_compute. reflexivity. Qed.

(** A trade without a date in the hour-window script: the request carries
    [pd.NaT], and with price data the elapsed hours are not a number. *)
Example undated_trade_hours :
  ReturnPost.analyze_trade_momentum Stub.online [Stub.undated "ABC"] 48 Stub.ready
  = (Ok [ ReturnPost.mkMomentum
            (DeepDive.set_transactionDate (fun _ => None) (Stub.undated "ABC"))
            (Some 0.1%float)
            (Some (mkTimestamp ((ymd 2024 1 3) * ns_per_day + 52200 * ns_per_second) None))
            (Some nan) ],
     sent Stub.ready (HISTORY (JStr "ABC") NaT NaT "1h")).
Proof. vm_compute. reflexivity. Qed.

(** [timedelta.total_seconds()] is exact where the conversion of the
    microseconds to a float, followed by a division, is not. *)
Example total_seconds_rounds_once :
  total_seconds 10228995155596853 = 0x1.30d90a29cc65bp+33%float
  /\ (PrimFloat.of_uint63 10228995155596853 / 1000000)%float <> 0x1.30d90a29cc65bp+33%float.
Proof.
  split; [vm_compute; reflexivity|].
  intros H. apply (f_equal (fun x => PrimFloat.eqb x 0x1.30d90a29cc65bp+33%float)) in H.
  vm_compute in H. discriminate H.
Qed.

(** A column of dates in two formats makes the analyses raise at the
    conversion, before the loop; a window that no [Timedelta] holds makes
    them raise at the first record, before its request. *)
Example mixed_formats_abort_the_analysis :
  DeepDive.analyze_trade_momentum Stub.online
    [Stub.trade "ABC" "2024-01-02"; Stub.trade "ABC" "2024-01-02T09:30:00-05:00"] 30
    Stub.ready
  = (Raise (ValueError "time data doesn't match format"), Stub.ready)
  /\ ReturnPost.analyze_trade_momentum Stub.online
       [Stub.trade "ABC" "2024-01-02"; Stub.trade "ABC" "2024-01-02T09:30:00-05:00"] 48
       Stub.ready
     = (Raise (ValueError "time data doesn't match format"), Stub.ready).
Proof. split; vm_compute; reflexivity. Qed.

Example window_out_of_bounds_aborts_the_analysis :
  DeepDive.analyze_trade_momentum Stub.online [Stub.trade "ABC" "2024-01-02"] 1000000
    Stub.ready
  = (Raise OverflowError, Stub.ready)
  /\ ReturnPost.analyze_trade_momentum Stub.online [Stub.trade "ABC" "2024-01-02"] 10000000
       Stub.ready
     = (Raise OverflowError, Stub.ready).
Proof. split; vm_compute; reflexivity. Qed.

(** A record without a transaction date for which the collaborator has
    prices makes the day-window analysis raise at the subtraction of line
    118, after the request for that record: no record of the batch gets a
    return, with a date or without.  The price history of both records is
    not empty. *)
Lemma undated_record_with_prices_aborts :
  yf_history Stub.online (JStr "ABC") NaT NaT "1d" = inr Stub.two_closes
  /\ yf_history Stub.online (JStr "ABC") (OnDay (ymd 2024 1 2)) (OnDay (ymd 2024 1 2 + 30)) "1d"
     = inr Stub.two_closes
  /\ DeepDive.analyze_trade_momentum Stub.online
       [Stub.undated "ABC"; Stub.trade "ABC" "2024-01-02"] 30 Stub.ready
     = (Raise TypeError, sent Stub.ready (HISTORY (JStr "ABC") NaT NaT "1d")).
Proof. repeat split; vm_compute; reflexivity. Qed.

(** C2, amended. The analysis of a batch returns when the column of
    transaction dates parses, the window is one a [Timedelta] holds and
    leads from each transaction date to a day of the calendar (day-window
    script) or to a timestamp (hour-window script) and, in the day-window
    script, every record without a transaction date has no price data.
    Then, for every record of the batch with a transaction date whose
    price history is not empty, the Momentum Analyzer sets return = (last
    close - first close) / first close in binary64 arithmetic, the realized
    timestamp to the timestamp of the last observation (its date in the
    day-window script; the instant, zone dropped, in the hour-window
    script), and the elapsed time to realized minus transaction timestamp:
    whole days in the day-window script, microseconds / 10^6 / 3600 as a
    float in the hour-window script.  On the closes 100.0 (2024-01-02) and
    110.0 (2024-01-15), a trade of 2024-01-02 and a 30-day window: return
    0.1, realized 2024-01-15, elapsed 13 days. *)
Theorem momentum_of_available_prices :
  (forall (o : oracle) (df : list (DeepDive.row json)) (n : Z) (w : world)
          (cells : nat -> option Timestamp),
     to_datetime o (map DeepDive.transactionDate df) = inr cells ->
     in_bounds (n * ns_per_day) = true ->
     let rows := DeepDive.with_transactionDate (fun i => date_of <$> cells i) df in
     Forall (Expected.ready_days o n) rows ->
     exists results w',
       DeepDive.analyze_trade_momentum o df n w = (Ok results, w')
       /\ forall i row first rest,
            rows !! i = Some row ->
            Expected.closes_days o n row = first :: rest ->
            let last := List.last (first :: rest) first in
            exists d,
              DeepDive.transactionDate row = Some d
              /\ results !! i
                 = Some (DeepDive.mkMomentum row
                           (Some ((snd last - snd first) / snd first)%float)
                           (Some (date_of (fst last)))
                           (Some (date_of (fst last) - d))))
  /\ (forall (o : oracle) (df : list (DeepDive.row json)) (n : Z) (w : world)
             (cells : nat -> option Timestamp),
        to_datetime o (map DeepDive.transactionDate df) = inr cells ->
        in_bounds (n * 3600 * ns_per_second) = true ->
        let rows := DeepDive.with_transactionDate cells df in
        Forall (Expected.ready_hours n) rows ->
        exists results w',
          ReturnPost.analyze_trade_momentum o df n w = (Ok results, w')
          /\ forall i row t first rest,
               rows !! i = Some row ->
               DeepDive.transactionDate row = Some t ->
               Expected.closes_hours o n row = first :: rest ->
               let last := List.last (first :: rest) first in
               results !! i
               = Some (ReturnPost.mkMomentum row
                         (Some ((snd last - snd first) / snd first)%float)
                         (Some (mkTimestamp (value (fst last)) None))
                         (Some (total_seconds (value (fst last) / 1000 - value t / 1000)
                                / 3600)%float)))
  /\ (DeepDive.analyze_trade_momentum Stub.online [Stub.trade "ABC" "2024-01-02"] 30
        Stub.ready).1
     = Ok [ DeepDive.mkMomentum
              (DeepDive.set_transactionDate (fun _ => Some (ymd 2024 1 2))
                 (Stub.trade "ABC" "2024-01-02"))
              (Some 0.1%float) (Some (ymd 2024 1 15)) (Some 13) ].
Proof.
  split; [|split; [|exact worked_example_days]].
  - intros o df n w cells Hp Hb rows Hr.
    destruct (analyze_days o df n w cells Hp Hb Hr) as (w' & E & _).
    eexists _, w'. split; [exact E|].
    intros i row first rest Hi Hc last.
    destruct (ready_days_dated o n row first rest) as [d Ed]; [|exact Hc|].
    { eapply Forall_lookup_1; [exact Hr|exact Hi]. }
    exists d. split; [exact Ed|].
    fold rows. rewrite list_lookup_fmap, Hi. simpl.
    unfold Expected.momentum_days. rewrite Hc, Ed. reflexivity.
  - intros o df n w cells Hp Hb rows Hr.
    destruct (analyze_hours o df n w cells Hp Hb Hr) as (w' & E & _).
    eexists _, w'. split; [exact E|].
    intros i row t first rest Hi Et Hc last.
    fold rows. rewrite list_lookup_fmap, Hi. simpl.
    unfold Expected.momentum_hours. rewrite Hc, Et. cbv zeta.
    unfold ReturnPost.hours_between. cbn [fmap option_fmap option_map].
    by rewrite !to_pydatetime_naive.
Qed.

Lemma momentum_of_available_prices_witness :
  exists results w',
    DeepDive.analyze_trade_momentum Stub.online [Stub.trade "ABC" "2024-01-02"] 30 Stub.ready
    = (Ok results, w')
    /\ exists d,
         Some (ymd 2024 1 2) = Some d
         /\ results !! 0%nat
            = Some (DeepDive.mkMomentum
                      (DeepDive.set_transactionDate (fun _ => Some (ymd 2024 1 2))
                         (Stub.trade "ABC" "2024-01-02"))
                      (Some 0.1%float) (Some (ymd 2024 1 15)) (Some (ymd 2024 1 15 - d))).
Proof.
  destruct (proj1 momentum_of_available_prices Stub.online [Stub.trade "ABC" "2024-01-02"] 30
              Stub.ready (fun i => default None ([Some (midnight (ymd 2024 1 2))] !! i)))
    as (results & w' & Hrun & H).
  - vm_compute. reflexivity.
  - vm_compute. reflexivity.
  - repeat constructor; vm_compute; discriminate.
  - exists results, w'. split; [exact Hrun|].
    exact (H 0%nat
             (DeepDive.set_transactionDate (fun _ => Some (ymd 2024 1 2))
                (Stub.trade "ABC" "2024-01-02"))
             (midnight (ymd 2024 1 2), 100%float) [(midnight (ymd 2024 1 15), 110%float)]
             eq_refl eq_refl).
Defined.

(** A batch with a record whose price history is empty that the day-window
    analysis does not get through: the record is followed by one without a
    transaction date for which the collaborator has prices, and the
    subtraction of line 118 raises.  Both requests have been sent; no table
    is returned. *)
Lemma undated_record_aborts_the_batch :
  yf_history Stub.online (JStr "XYZ") (OnDay (ymd 2024 1 2)) (OnDay (ymd 2024 1 2 + 30)) "1d"
  = inr []
  /\ DeepDive.analyze_trade_momentum Stub.online
       [Stub.trade "XYZ" "2024-01-02"; Stub.undated "ABC"] 30 Stub.ready
     = (Raise TypeError,
        sent (sent Stub.ready
                (HISTORY (JStr "XYZ") (OnDay (ymd 2024 1 2)) (OnDay (ymd 2024 1 2 + 30)) "1d"))
          (HISTORY (JStr "ABC") NaT NaT "1d")).
Proof. repeat split; vm_compute; reflexivity. Qed.

(** C4, amended. When the column of transaction dates parses, the window
    is one a [Timedelta] holds and leads from each transaction date to a
    day of the calendar (day-window script) or to a timestamp (hour-window
    script) and, in the day-window script, every record without a
    transaction date has no price data, the analysis of the batch returns:
    it produces one result per input record, in the order of the input,
    each carrying its record; a record whose price history is empty (the
    collaborator returned no observation, or threw) has return, realized
    timestamp and elapsed time all set to the missing-value sentinel.  Both
    scripts. *)
Theorem unavailable_prices_do_not_abort :
  (forall (o : oracle) (df : list (DeepDive.row json)) (n : Z) (w : world)
          (cells : nat -> option Timestamp),
     to_datetime o (map DeepDive.transactionDate df) = inr cells ->
     in_bounds (n * ns_per_day) = true ->
     let rows := DeepDive.with_transactionDate (fun i => date_of <$> cells i) df in
     Forall (Expected.ready_days o n) rows ->
     exists results w',
       DeepDive.analyze_trade_momentum o df n w = (Ok results, w')
       /\ map DeepDive.trade results = rows
       /\ length results = length df
       /\ forall i row,
            rows !! i = Some row ->
            (Expected.answer_days o n row = inr []
             \/ exists msg, Expected.answer_days o n row = inl msg) ->
            results !! i = Some (DeepDive.mkMomentum row None None None))
  /\ (forall (o : oracle) (df : list (DeepDive.row json)) (n : Z) (w : world)
             (cells : nat -> option Timestamp),
        to_datetime o (map DeepDive.transactionDate df) = inr cells ->
        in_bounds (n * 3600 * ns_per_second) = true ->
        let rows := DeepDive.with_transactionDate cells df in
        Forall (Expected.ready_hours n) rows ->
        exists results w',
          ReturnPost.analyze_trade_momentum o df n w = (Ok results, w')
          /\ map ReturnPost.trade results = rows
          /\ length results = length df
          /\ forall i row,
               rows !! i = Some row ->
               (Expected.answer_hours o n row = inr []
                \/ exists msg, Expected.answer_hours o n row = inl msg) ->
               results !! i = Some (ReturnPost.mkMomentum row None None None)).
Proof.
  split.
  - intros o df n w cells Hp Hb rows Hr.
    destruct (analyze_days o df n w cells Hp Hb Hr) as (w' & E & _).
    eexists _, w'. split; [exact E|]. fold rows. split; [|split].
    + apply trade_momentum_days.
    + rewrite length_map. unfold rows, DeepDive.with_transactionDate. by rewrite length_imap.
    + intros i row Hi Hc. rewrite list_lookup_fmap, Hi. simpl.
      unfold Expected.momentum_days, Expected.closes_days.
      by destruct Hc as [->|[msg ->]].
  - intros o df n w cells Hp Hb rows Hr.
    destruct (analyze_hours o df n w cells Hp Hb Hr) as (w' & E & _).
    eexists _, w'. split; [exact E|]. fold rows. split; [|split].
    + apply trade_momentum_hours.
    + rewrite length_map. unfold rows, DeepDive.with_transactionDate. by rewrite length_imap.
    + intros i row Hi Hc. rewrite list_lookup_fmap, Hi. simpl.
      unfold Expected.momentum_hours, Expected.closes_hours.
      by destruct Hc as [->|[msg ->]].
Qed.

(** A batch of four: the second ticker has no observation, the third makes
    the collaborator throw, the fourth has neither a date nor prices; the
    first is analysed all the same. *)
Example batch_with_unavailable_prices :
  map (fun r => (DeepDive.ticker (DeepDive.trade r), DeepDive.return_ r,
                 DeepDive.realizedDate r, DeepDive.daysDiff r))
    <$> (DeepDive.analyze_trade_momentum Stub.online
           [ Stub.trade "ABC" "2024-01-02"; Stub.trade "XYZ" "2024-01-02";
             Stub.trade "GONE" "2024-01-02"; Stub.undated "XYZ" ] 30 Stub.ready).1
  = Ok [ (JStr "ABC", Some 0.1%float, Some (ymd 2024 1 15), Some 13);
         (JStr "XYZ", None, None, None);
         (JStr "GONE", None, None, None);
         (JStr "XYZ", None, None, None) ].
Proof. vm_compute. reflexivity. Qed.

Lemma unavailable_prices_do_not_abort_witness :
  exists results w',
    DeepDive.analyze_trade_momentum Stub.online
      [Stub.trade "ABC" "2024-01-02"; Stub.trade "XYZ" "2024-01-02"; Stub.undated "GONE"] 30
      Stub.ready
    = (Ok results, w')
    /\ length results = 3%nat
    /\ results !! 1%nat
       = Some (DeepDive.mkMomentum
                 (DeepDive.set_transactionDate (fun _ => Some (ymd 2024 1 2))
                    (Stub.trade "XYZ" "2024-01-02"))
                 None None None)
    /\ results !! 2%nat
       = Some (DeepDive.mkMomentum
                 (DeepDive.set_transactionDate (fun _ => None) (Stub.undated "GONE"))
                 None None None).
Proof.
  destruct (proj1 unavailable_prices_do_not_abort Stub.online
              [Stub.trade "ABC" "2024-01-02"; Stub.trade "XYZ" "2024-01-02";
               Stub.undated "GONE"] 30 Stub.ready
              (fun i => default None ([Some (midnight (ymd 2024 1 2));
                                       Some (midnight (ymd 2024 1 2)); None] !! i)))
    as (results & w' & Hrun & _ & Hlen & H).
  - vm_compute. reflexivity.
  - vm_compute. reflexivity.
  - repeat constructor; vm_compute; (discriminate || reflexivity).
  - exists results, w'. split; [exact Hrun|]. split; [exact Hlen|]. split.
    + exact (H 1%nat
               (DeepDive.set_transactionDate (fun _ => Some (ymd 2024 1 2))
                  (Stub.trade "XYZ" "2024-01-02"))
               eq_refl (or_introl eq_refl)).
    + exact (H 2%nat
               (DeepDive.set_transactionDate (fun _ => None) (Stub.undated "GONE"))
               eq_refl
               (or_intror (ex_intro _ "No timezone found, symbol may be delisted" eq_refl))).
Defined.

(** A trade stamped 09:30 at UTC-5 is analysed as the naive 14:30: the zone
    is dropped and the instant is kept. *)
Example naive_of_new_york_opening :
  ReturnPost.naive (Stub.opening_new_york (ymd 2024 1 2))
  = Ok (mkTimestamp (ymd 2024 1 2 * ns_per_day + (14 * 3600 + 1800) * ns_per_second) None).
Proof. reflexivity. Qed.



(** One observation with a close of zero: the available branch is taken and
    the return is not a number (0/0), which does not compare equal to 0.
    One observation for a record without a transaction date: the branch is
    taken and raises at the subtraction of the dates. *)
Lemma single_zero_close_return_is_nan :
  Expected.closes_days Stub.online 30
    (DeepDive.set_transactionDate (fun _ => Some (ymd 2024 1 2))
       (Stub.trade "ZERO" "2024-01-02"))
  = [(midnight (ymd 2024 1 3), 0%float)]
  /\ (DeepDive.analyze_trade_momentum Stub.online [Stub.trade "ZERO" "2024-01-02"] 30
        Stub.ready).1
     = Ok [ DeepDive.mkMomentum
              (DeepDive.set_transactionDate (fun _ => Some (ymd 2024 1 2))
                 (Stub.trade "ZERO" "2024-01-02"))
              (Some nan) (Some (ymd 2024 1 3)) (Some 1) ]
  /\ PrimFloat.eqb nan 0%float = false
  /\ nan <> 0%float
  /\ Expected.closes_days Stub.online 30
       (DeepDive.set_transactionDate (fun _ => None) (Stub.undated "ONE"))
     = [(midnight (ymd 2024 1 3), 50%float)]
  /\ (DeepDive.analyze_trade_momentum Stub.online [Stub.undated "ONE"] 30 Stub.ready).1
     = Raise TypeError.
Proof.
  split; [reflexivity|]. split; [vm_compute; reflexivity|]. split; [reflexivity|].
  split; [|split; [reflexivity|vm_compute; reflexivity]].
  intros H. apply (f_equal (fun x => PrimFloat.eqb x x)) in H. discriminate H.
Qed.

(** The same with a close that is itself not a number. *)
Example single_nan_close_return_is_nan :
  map DeepDive.return_
    <$> (DeepDive.analyze_trade_momentum Stub.online [Stub.trade "NAN" "2024-01-02"] 30
           Stub.ready).1
  = Ok [Some nan].
Proof. vm_compute. reflexivity. Qed.

(** C10, amended. In a batch the day-window analysis gets through (the
    column of transaction dates parses, the window is one a [Timedelta]
    holds and leads from each transaction date to a day of the calendar,
    every record without a transaction date has no price data), a record
    whose price history has exactly one observation goes through the
    available branch: the return is (c - c) / c for the close c of that
    observation, the realized date is the date of the observation and the
    elapsed days are that date minus the transaction date.  The return
    compares equal to 0 whenever c is a finite, non-zero number. *)
Theorem single_close_takes_available_branch
    (o : oracle) (df : list (DeepDive.row json)) (n : Z) (w : world)
    (cells : nat -> option Timestamp) :
  to_datetime o (map DeepDive.transactionDate df) = inr cells ->
  in_bounds (n * ns_per_day) = true ->
  Forall (Expected.ready_days o n)
    (DeepDive.with_transactionDate (fun i => date_of <$> cells i) df) ->
  exists results w',
    DeepDive.analyze_trade_momentum o df n w = (Ok results, w')
    /\ forall i row t c,
         DeepDive.with_transactionDate (fun i => date_of <$> cells i) df !! i = Some row ->
         Expected.closes_days o n row = [(t, c)] ->
         exists d,
           DeepDive.transactionDate row = Some d
           /\ results !! i
              = Some (DeepDive.mkMomentum row (Some ((c - c) / c)%float) (Some (date_of t))
                        (Some (date_of t - d)))
           /\ (PrimFloat.is_finite c = true -> PrimFloat.is_zero c = false ->
               PrimFloat.eqb ((c - c) / c)%float 0%float = true).
Proof.
  intros Hp Hb Hr.
  destruct (analyze_days o df n w cells Hp Hb Hr) as (w' & E & _).
  eexists _, w'. split; [exact E|].
  intros i row t c Hi Hc.
  destruct (ready_days_dated o n row (t, c) []) as [d Ed]; [|exact Hc|].
  { eapply Forall_lookup_1; [exact Hr|exact Hi]. }
  exists d. split; [exact Ed|]. split.
  - rewrite list_lookup_fmap, Hi. simpl. unfold Expected.momentum_days. by rewrite Hc, Ed.
  - apply self_difference_ratio.
Qed.

Lemma single_close_takes_available_branch_witness :
  exists results w',
    DeepDive.analyze_trade_momentum Stub.online [Stub.trade "ONE" "2024-01-02"] 30 Stub.ready
    = (Ok results, w')
    /\ results !! 0%nat
       = Some (DeepDive.mkMomentum
                 (DeepDive.set_transactionDate (fun _ => Some (ymd 2024 1 2))
                    (Stub.trade "ONE" "2024-01-02"))
                 (Some ((50 - 50) / 50)%float) (Some (date_of (midnight (ymd 2024 1 3))))
                 (Some (date_of (midnight (ymd 2024 1 3)) - ymd 2024 1 2)))
    /\ PrimFloat.eqb ((50 - 50) / 50)%float 0%float = true.
Proof.
  destruct (single_close_takes_available_branch Stub.online [Stub.trade "ONE" "2024-01-02"]
              30 Stub.ready (fun i => default None ([Some (midnight (ymd 2024 1 2))] !! i)))
    as (results & w' & Hrun & H).
  - vm_compute. reflexivity.
  - vm_compute. reflexivity.
  - repeat constructor; vm_compute; discriminate.
  - exists results, w'. split; [exact Hrun|].
    destruct (H 0%nat
                (DeepDive.set_transactionDate (fun _ => Some (ymd 2024 1 2))
                   (Stub.trade "ONE" "2024-01-02"))
                (midnight (ymd 2024 1 3)) 50%float eq_refl eq_refl) as (d & Ed & Hres & Hz).
    injection Ed as <-. split; [exact Hres|]. apply Hz; reflexivity.
Defined.

(** * Failures of the network call and of the configuration               *)
(* ===================================================================== *)

Section HttpErrors.
Variable o : oracle.

(** A 4xx or 5xx answer: [fetch_insider_trades] prints the status line of
    the error and the body, and returns the empty table. *)
Lemma http_error_gives_empty_table (query : string) (size : Z) (w : world) (r : response) :
  requests_post o DeepDive.BASE_URL (Some (API_KEY (module w)))
    (mkPayload query 0 (Z.min size 50) ("filedAt", "desc")) = Some r ->
  400 <= status_code r < 600 ->
  exists kind,
    DeepDive.fetch_insider_trades o query size w
    = (Ok [],
       printed (sent w (POST DeepDive.BASE_URL (Some (API_KEY (module w)))
                          (mkPayload query 0 (Z.min size 50) ("filedAt", "desc"))))
         ("Error fetching insider trades for '" +:+ query +:+ "': "
            +:+ (pretty (status_code r) +:+ kind +:+ reason r +:+ " for url: " +:+ url r)
            +:+ nl +:+ text r)).
Proof.
  intros Hp [Hlo Hhi]. rewrite fetch_insider_trades_run. cbv zeta. rewrite Hp.
  unfold raise_for_status.
  destruct (status_code r <? 500) eqn:E.
  - replace (400 <=? status_code r) with true by (symmetry; apply Z.leb_le; lia).
    simpl. by exists " Client Error: ".
  - rewrite andb_false_r.
    replace (500 <=? status_code r) with true
      by (symmetry; apply Z.leb_le; apply Z.ltb_ge in E; lia).
    replace (status_code r <? 600) with true by (symmetry; apply Z.ltb_lt; lia).
    simpl. by exists " Server Error: ".
Qed.

(** The same for the flattening scripts, which print the status code itself. *)
Lemma http_error_gives_empty_frame (query : string) (size : Z) (w : world) (r : response) :
  requests_post o ExpandedList.BASE_URL_INSIDER (Some (API_KEY (module w)))
    (mkPayload query 0 size ("filedAt", "desc")) = Some r ->
  400 <= status_code r < 600 ->
  ExpandedList.fetch_insider_trades_enhanced o query size w
  = (Ok [],
     printed (sent w (POST ExpandedList.BASE_URL_INSIDER (Some (API_KEY (module w)))
                        (mkPayload query 0 size ("filedAt", "desc"))))
       ("Error fetching insider trades: " +:+ pretty (status_code r) +:+ nl +:+ text r)).
Proof.
  intros Hp [Hlo Hhi]. unfold ExpandedList.fetch_insider_trades_enhanced. io_run.
  rewrite Hp. io_run. unfold raise_for_status.
  destruct (status_code r <? 500) eqn:E.
  - replace (400 <=? status_code r) with true by (symmetry; apply Z.leb_le; lia).
    reflexivity.
  - rewrite andb_false_r.
    replace (500 <=? status_code r) with true
      by (symmetry; apply Z.leb_le; apply Z.ltb_ge in E; lia).
    replace (status_code r <? 600) with true by (symmetry; apply Z.ltb_lt; lia).
    reflexivity.
Qed.
End HttpErrors.

Example rejected_key_is_logged :
  DeepDive.fetch_insider_trades Stub.rejected "issuer.tradingSymbol:TSLA" 50 Stub.ready
  = (Ok [],
     printed (sent Stub.ready
                (POST DeepDive.BASE_URL (Some "k3y")
                   (mkPayload "issuer.tradingSymbol:TSLA" 0 50 ("filedAt", "desc"))))
       ("Error fetching insider trades for 'issuer.tradingSymbol:TSLA': "
          +:+ "403 Client Error: Forbidden for url: https://api.sec-api.io/insider-trading"
          +:+ nl +:+ "{'message': 'invalid key'}")).
Proof. vm_compute. reflexivity. Qed.

(** C3. When the transport fails, [requests.post] raises before the local
    [resp] is bound.  The handler of [fetch_insider_trades] (both momentum
    scripts) then reads [resp] to print its text, so the call ends with an
    UnboundLocalError instead of the empty table; the two flattening scripts
    post outside their [try], so the ConnectionError itself leaves
    [fetch_insider_trades_enhanced].  Nothing is printed in either case. *)
Theorem transport_error_escapes
    (o : oracle) (query : string) (size : Z) (use_header : bool) (w : world) :
  (forall to authorization p, requests_post o to authorization p = None) ->
  ((DeepDive.fetch_insider_trades o query size w).1 = Raise (UnboundLocalError "resp")
   /\ stdout (DeepDive.fetch_insider_trades o query size w).2 = stdout w)
  /\ (ReturnPost.fetch_insider_trades o query size w).1 = Raise (UnboundLocalError "resp")
  /\ ((ApiTest.fetch_insider_trades_enhanced o query size use_header w).1
      = Raise ConnectionError
      /\ stdout (ApiTest.fetch_insider_trades_enhanced o query size use_header w).2
         = stdout w)
  /\ (ExpandedList.fetch_insider_trades_enhanced o query size w).1 = Raise ConnectionError.
Proof.
  intros H.
  assert (D : DeepDive.fetch_insider_trades o query size w
              = (Raise (UnboundLocalError "resp"),
                 sent w (POST DeepDive.BASE_URL (Some (API_KEY (module w)))
                           (mkPayload query 0 (Z.min size 50) ("filedAt", "desc"))))).
  { rewrite fetch_insider_trades_run. cbv zeta. by rewrite H. }
  split; [by rewrite D|]. split; [unfold ReturnPost.fetch_insider_trades; by rewrite D|].
  split.
  - unfold ApiTest.fetch_insider_trades_enhanced. io_run.
    destruct use_header; io_run; rewrite H; io_run; by split.
  - unfold ExpandedList.fetch_insider_trades_enhanced. io_run. by rewrite H.
Qed.

Lemma transport_error_escapes_witness :
  (DeepDive.fetch_insider_trades Stub.offline "issuer.tradingSymbol:TSLA" 50 Stub.ready).1
  = Raise (UnboundLocalError "resp")
  /\ (ApiTest.fetch_insider_trades_enhanced Stub.offline "issuer.tradingSymbol:TSLA" 5 true
        Stub.ready).1
     = Raise ConnectionError.
Proof.
  pose proof (transport_error_escapes Stub.offline "issuer.tradingSymbol:TSLA" 50 true
                Stub.ready (fun _ _ _ => eq_refl)) as [[Hd _] _].
  pose proof (transport_error_escapes Stub.offline "issuer.tradingSymbol:TSLA" 5 true
                Stub.ready (fun _ _ _ => eq_refl)) as (_ & _ & [Ha _] & _).
  split; [exact Hd|exact Ha].
Defined.

(** C6. With no API_KEY in the environment, [os.getenv("API_KEY", "API_KEY")]
    yields the placeholder "API_KEY"; it is not empty, and it is not
    "YOUR_REAL_KEY_HERE", so neither guard raises: the import of the
    day-window script succeeds and the main block of
    [api_test_expanded_list.py] sends its first request with the placeholder
    as credential.  ([Api_test.py] has no guard at all.) *)
Theorem absent_credential_is_not_fatal (o : oracle) (w : world) :
  environ w !! "API_KEY" = None ->
  DeepDive.import_module w
  = (Ok tt, mkWorld (environ w) (stdout w) (wire w) (mkGlobals "API_KEY" DeepDive.meanings))
  /\ wire (ExpandedList.main_until_first_fetch o w).2
     = wire w ++ [POST ExpandedList.BASE_URL_INSIDER (Some "API_KEY")
                    (mkPayload "issuer.tradingSymbol:TSLA" 0 5 ("filedAt", "desc"))]
  /\ (exists rest,
        wire (ApiTest.main o w).2
        = wire w ++ POST ApiTest.BASE_URL (Some "API_KEY")
                      (mkPayload "issuer.tradingSymbol:TSLA" 0 5 ("filedAt", "desc")) :: rest).
Proof.
  intros H. split; [|split].
  - unfold DeepDive.import_module. io_run. by rewrite H.
  - unfold ExpandedList.main_until_first_fetch, ExpandedList.import_module,
      ExpandedList.fetch_insider_trades_enhanced.
    io_run. rewrite H. cbn [default module API_KEY String.eqb Ascii.eqb Bool.eqb].
    io_run. cbn [wire].
    destruct (requests_post o _ _ _) as [r|]; io_run; [|done].
    destruct (raise_for_status r) as [[]|[]]; io_run; try done.
    destruct (json_of r); io_run; [|done].
    by destruct (ApiTest.flatten a) as [[|x l]|]; io_run.
  - unfold ApiTest.main, ApiTest.import_module, ApiTest.fetch_insider_trades_enhanced.
    io_run. rewrite H. cbn [default module API_KEY]. io_run. cbn [wire].
    destruct (requests_post o _ _ _) as [r|]; io_run; [|by exists []].
    destruct (raise_for_status r) as [[]|[]]; io_run; try by exists [].
    destruct (json_of r); io_run; [|by exists []].
    destruct (ApiTest.flatten a) as [[|x l]|]; io_run; try by exists [].
    eexists. cbn [wire]. by rewrite <- app_assoc.
Qed.

Lemma absent_credential_is_not_fatal_witness :
  (DeepDive.import_module Stub.fresh).1 = Ok tt
  /\ wire (ExpandedList.main_until_first_fetch Stub.online Stub.fresh).2
     = [POST ExpandedList.BASE_URL_INSIDER (Some "API_KEY")
          (mkPayload "issuer.tradingSymbol:TSLA" 0 5 ("filedAt", "desc"))].
Proof.
  destruct (absent_credential_is_not_fatal Stub.online Stub.fresh eq_refl) as (Hi & Hw & _).
  split; [by rewrite Hi|exact Hw].
Defined.

(** The whole day-window script, started without API_KEY: forty price
    look-ups, then twenty filing requests, sent with the placeholder.  The
    sample filing has a transaction without a date, for which the sample
    collaborator has prices: the analysis, and the script with it, stops at
    the second price history. *)
Example day_window_script_runs_with_placeholder :
  let w := (DeepDive.main Stub.online Stub.fresh).2 in
  (DeepDive.main Stub.online Stub.fresh).1 = Raise TypeError
  /\ wire w !! 0%nat = Some (INFO (JStr "AAPL"))
  /\ wire w !! 40%nat
     = Some (POST DeepDive.BASE_URL (Some "API_KEY")
               (mkPayload "issuer.tradingSymbol:AAPL" 0 50 ("filedAt", "desc")))
  /\ wire w !! 59%nat
     = Some (POST DeepDive.BASE_URL (Some "API_KEY")
               (mkPayload "issuer.tradingSymbol:KO" 0 50 ("filedAt", "desc")))
  /\ wire w !! 61%nat = Some (HISTORY (JStr "ABC") NaT NaT "1d")
  /\ length (wire w) = 62%nat.
Proof. vm_compute. repeat split; reflexivity. Qed.

(** The hour-window script reads the variable with the empty name: it halts
    at import whatever the environment holds, before any request. *)
Example hour_window_script_always_halts (o : oracle) (w : world) :
  environ w !! "" = None ->
  ReturnPost.main o w
  = (Raise (ValueError
              "Please set your SEC_API_KEY environment variable to your real API key."), w).
Proof.
  intros H. unfold ReturnPost.main, ReturnPost.import_module. io_run. by rewrite H.
Qed.

(* ===================================================================== *)
(** * Ticker sampling                                                     *)
(* ===================================================================== *)

(** [chosen] is made of the elements of [population] at [k] different
    positions: a sample without replacement. *)
Definition is_selection (population : list string) (k : nat) (chosen : list string) : Prop :=
  exists positions : list nat,
    NoDup positions
    /\ length positions = k
    /\ Forall2 (fun i x => population !! i = Some x) positions chosen.

(** The market-data collaborator reports a price for the ticker. *)
Definition has_price (o : oracle) (t : string) : bool :=
  match yf_info o (JStr t) with
  | Some (JObj items) =>
      match assoc "regularMarketPrice" items with
      | Some JNull | None => false
      | Some _ => true
      end
  | _ => false
  end.

Lemma for_io_run {A S} (body : A -> S -> io S) (step : A -> S -> S)
    (effect : A -> world -> world) (xs : list A) :
  (forall x s w, body x s w = (Ok (step x s), effect x w)) ->
  forall s w,
    for_io xs body s w
    = (Ok (fold_left (fun s x => step x s) xs s), fold_left (fun w x => effect x w) xs w).
Proof.
  intros Hb. induction xs as [|x xs IH]; intros s w; simpl; [done|].
  unfold mbind, io_bind. rewrite Hb. apply IH.
Qed.

Lemma fold_left_filter (p : string -> bool) (l acc : list string) :
  fold_left (fun s x => if p x then s ++ [x] else s) l acc = acc ++ List.filter p l.
Proof.
  revert acc. induction l as [|t l IH]; intros acc; simpl.
  - by rewrite app_nil_r.
  - rewrite IH. destruct (p t); [|done]. by rewrite <- app_assoc.
Qed.

Section Sampling.
Variable o : oracle.

Lemma selection_length (population chosen : list string) (k : nat) :
  is_selection population k chosen -> length chosen = k.
Proof. intros (ps & _ & <- & H). symmetry. by eapply Forall2_length. Qed.

Lemma selection_subset (population chosen : list string) (k : nat) :
  is_selection population k chosen -> forall x, x ∈ chosen -> x ∈ population.
Proof.
  intros (ps & _ & _ & H) x Hx.
  induction H as [|i y ps chosen Hi _ IH]; [by apply elem_of_nil in Hx|].
  apply elem_of_cons in Hx as [->|Hx]; [|by apply IH].
  by eapply list_elem_of_lookup_2.
Qed.

Lemma selection_NoDup (population chosen : list string) (k : nat) :
  NoDup population -> is_selection population k chosen -> NoDup chosen.
Proof.
  intros Hp (ps & Hps & _ & H). clear k.
  induction H as [|i y ps chosen Hi H IH]; [constructor|].
  apply NoDup_cons in Hps as [Hi' Hps]. constructor; [|by apply IH].
  intros Hy. apply Hi'. clear IH Hps Hi'.
  induction H as [|j z ps chosen Hj _ IH]; [by apply elem_of_nil in Hy|].
  apply elem_of_cons in Hy as [->|Hy].
  - rewrite (NoDup_lookup population i j z Hp Hi Hj). by left.
  - right. by apply IH.
Qed.

Lemma take_is_selection (population : list string) (k : nat) :
  (k <= length population)%nat -> is_selection population k (take k population).
Proof.
  intros Hk. exists (seq 0 k). split; [apply NoDup_seq|]. split; [apply length_seq|].
  apply Forall2_same_length_lookup_2.
  - rewrite length_seq, length_take. lia.
  - intros i j x Hj Hx. apply lookup_seq in Hj as [-> Hlt]. simpl.
    by rewrite lookup_take_lt in Hx.
Qed.

Lemma fromkeys_NoDup (l : list string) : NoDup (DeepDive.fromkeys l).
Proof.
  induction l as [|x l IH]; simpl; [constructor|].
  constructor.
  - rewrite list_elem_of_filter. by intros [? _].
  - by apply NoDup_filter.
Qed.

Lemma is_listed_run (t : string) (w : world) :
  DeepDive.is_listed o t w = (Ok (has_price o t), sent w (INFO (JStr t))).
Proof.
  unfold DeepDive.is_listed, has_price. io_run.
  destruct (yf_info o (JStr t)) as [i|]; io_run; [|done].
  destruct i; try done. unfold get_, get. simpl.
  destruct (assoc "regularMarketPrice" items) as [[]|]; done.
Qed.

Lemma listed_of_run (candidates : list string) (w : world) :
  exists w',
    DeepDive.listed_of o candidates w = (Ok (List.filter (has_price o) candidates), w').
Proof.
  unfold DeepDive.listed_of.
  rewrite (for_io_run _
             (fun t acc => if has_price o t then acc ++ [t] else acc)
             (fun t w => sent w (INFO (JStr t)))).
  - rewrite fold_left_filter. by eexists.
  - intros t acc w0. unfold mbind, io_bind. by rewrite is_listed_run.
Qed.

Lemma NoDup_List_filter (p : string -> bool) (l : list string) :
  NoDup l -> NoDup (List.filter p l).
Proof.
  induction 1 as [|x l Hx _ IH]; simpl; [constructor|].
  destruct (p x); [|done]. constructor; [|done].
  rewrite list_elem_of_In, filter_In, <- list_elem_of_In. by intros [? _].
Qed.
End Sampling.

(** The claim fails for the small-cap pool.  With no ticker listed, a
    request for 2 returns two unlisted tickers instead of the (empty)
    listed subset; with 19 of the 20 tickers listed, a request for 21
    raises instead of returning the 19. *)
Lemma small_caps_are_not_filtered :
  ((DeepDive.listed_of Stub.offline ReturnPost.default_universe Stub.ready).1 = Ok []
   /\ (ReturnPost.get_random_small_caps Stub.offline 2 Stub.ready).1 = Ok ["AAXN"; "CZR"])
  /\ (length <$> (DeepDive.listed_of Stub.online ReturnPost.default_universe Stub.ready).1
      = Ok 19%nat
      /\ (ReturnPost.get_random_small_caps Stub.online 21 Stub.ready).1
         = Raise (ValueError "Sample larger than population or is negative")).
Proof. vm_compute. repeat split; reflexivity. Qed.

(** C8, amended. Let the random generator return a sample without
    replacement.  For a non-negative sample size, the large-cap utility
    returns tickers of the listed subset of its pool, without duplicates:
    the whole listed subset when the size exceeds the number of listed
    tickers, and as many as asked otherwise.  The small-cap utility samples
    the whole fixed pool of 20, listed or not (its caller filters the sample
    afterwards): for a size from 0 to 20 it returns that many different
    tickers of the pool, and for a larger size it raises ValueError. *)
Theorem ticker_sampling (o : oracle) (sample_size : Z) (w : world) :
  (forall population k,
     (k <= length population)%nat -> is_selection population k (random_choice o population k)) ->
  (0 <= sample_size ->
   exists l w',
     DeepDive.get_random_mega_caps o sample_size w = (Ok l, w')
     /\ NoDup l
     /\ (forall t, t ∈ l -> t ∈ List.filter (has_price o) DeepDive.default_universe)
     /\ (Z.of_nat (length (List.filter (has_price o) DeepDive.default_universe)) < sample_size ->
         l = List.filter (has_price o) DeepDive.default_universe)
     /\ (sample_size <= Z.of_nat (length (List.filter (has_price o) DeepDive.default_universe)) ->
         Z.of_nat (length l) = sample_size))
  /\ (0 <= sample_size <= 20 ->
      exists l w',
        ReturnPost.get_random_small_caps o sample_size w = (Ok l, w')
        /\ NoDup l
        /\ Z.of_nat (length l) = sample_size
        /\ (forall t, t ∈ l -> t ∈ ReturnPost.default_universe))
  /\ (20 < sample_size ->
      (ReturnPost.get_random_small_caps o sample_size w).1
      = Raise (ValueError "Sample larger than population or is negative")).
Proof.
  intros Hsel. split; [|split].
  - intros Hk. unfold DeepDive.get_random_mega_caps.
    assert (Hu : DeepDive.fromkeys DeepDive.default_universe = DeepDive.default_universe)
      by (vm_compute; reflexivity).
    assert (Hnd : NoDup (List.filter (has_price o) DeepDive.default_universe)).
    { apply NoDup_List_filter. rewrite <- Hu. apply fromkeys_NoDup. }
    rewrite Hu. cbv zeta.
    destruct (listed_of_run o DeepDive.default_universe w) as [w1 E].
    unfold mbind at 1, io_bind. rewrite E.
    set (listed := List.filter (has_price o) DeepDive.default_universe) in *.
    destruct (Z.of_nat (length listed) <? sample_size) eqn:C.
    + apply Z.ltb_lt in C. io_run. eexists _, _. split; [reflexivity|].
      split; [done|]. split; [done|]. split; [done|]. lia.
    + apply Z.ltb_ge in C. unfold random_sample.
      replace (sample_size <? 0) with false by (symmetry; apply Z.ltb_ge; lia).
      replace (Z.of_nat (length listed) <? sample_size) with false
        by (symmetry; apply Z.ltb_ge; lia).
      io_run. cbn [orb].
      assert (S : is_selection listed (Z.to_nat sample_size)
                    (random_choice o listed (Z.to_nat sample_size))) by (apply Hsel; lia).
      eexists _, _. split; [reflexivity|].
      split; [by eapply selection_NoDup|].
      split; [by eapply selection_subset|].
      split; [lia|]. intros _. rewrite (selection_length _ _ _ S). lia.
  - intros [Hlo Hhi]. unfold ReturnPost.get_random_small_caps, random_sample.
    replace (sample_size <? 0) with false by (symmetry; apply Z.ltb_ge; lia).
    replace (Z.of_nat (length ReturnPost.default_universe) <? sample_size) with false
      by (symmetry; apply Z.ltb_ge; simpl; lia).
    io_run. cbn [orb].
    assert (S : is_selection ReturnPost.default_universe (Z.to_nat sample_size)
                  (random_choice o ReturnPost.default_universe (Z.to_nat sample_size)))
      by (apply Hsel; simpl; lia).
    eexists _, _. split; [reflexivity|].
    split; [eapply selection_NoDup; [|exact S]; by apply NoDup_ListNoDup; vm_compute;
            repeat constructor; simpl; intuition discriminate|].
    split; [rewrite (selection_length _ _ _ S); lia|].
    by eapply selection_subset.
  - intros Hk. unfold ReturnPost.get_random_small_caps, random_sample.
    replace (Z.of_nat (length ReturnPost.default_universe) <? sample_size) with true
      by (symmetry; apply Z.ltb_lt; simpl; lia).
    by rewrite orb_true_r.
Qed.

Lemma ticker_sampling_witness :
  (exists l w',
     DeepDive.get_random_mega_caps Stub.online 50 Stub.ready = (Ok l, w')
     /\ NoDup l
     /\ l = List.filter (has_price Stub.online) DeepDive.default_universe)
  /\ (exists l w',
        ReturnPost.get_random_small_caps Stub.online 2 Stub.ready = (Ok l, w')
        /\ NoDup l
        /\ Z.of_nat (length l) = 2).
Proof.
  destruct (ticker_sampling Stub.online 50 Stub.ready take_is_selection) as [Hm _].
  destruct (ticker_sampling Stub.online 2 Stub.ready take_is_selection) as (_ & Hs & _).
  split.
  - destruct Hm as (l & w' & Hrun & Hnd & _ & Hall & _); [lia|].
    exists l, w'. split; [exact Hrun|]. split; [exact Hnd|].
    apply Hall. vm_compute. reflexivity.
  - destruct Hs as (l & w' & Hrun & Hnd & Hlen & _); [lia|].
    exists l, w'. split; [exact Hrun|]. split; [exact Hnd|exact Hlen].
Defined.

Example mega_caps_sample_of_three :
  (DeepDive.get_random_mega_caps Stub.online 3 Stub.ready).1 = Ok ["AAPL"; "MSFT"; "AMZN"].
Proof. vm_compute. reflexivity. Qed.

Example mega_caps_negative_size :
  (DeepDive.get_random_mega_caps Stub.online (-1) Stub.ready).1
  = Raise (ValueError "Sample larger than population or is negative").
Proof. vm_compute. reflexivity. Qed.

(* ===================================================================== *)
(** * Small checks of the Python and calendar helpers                     *)
(* ===================================================================== *)

Example split_query :
  split ":"%char "issuer.tradingSymbol:TSLA" = ["issuer.tradingSymbol"; "TSLA"].
Proof. reflexivity. Qed.

Example last_of_split : getitem (split ":"%char "a:b:c") (-1) = Ok "c".
Proof. reflexivity. Qed.

Example join_two : join "; " [JStr "x"; JStr "y"] = Ok "x; y".
Proof. reflexivity. Qed.

Example join_refuses_null : join "; " [JStr "x"; JNull] = Raise TypeError.
Proof. reflexivity. Qed.

Example null_has_no_get : get JNull "transactions" (JArr []) = Raise AttributeError.
Proof. reflexivity. Qed.

Example days_of_2024_01_02 : ymd 2024 1 2 = 19724.
Proof. reflexivity. Qed.

Example epoch : ymd 1970 1 1 = 0.
Proof. reflexivity. Qed.

Example thirteen_days : ymd 2024 1 15 - ymd 2024 1 2 = 13.
Proof. reflexivity. Qed.

Example two_days_of_seconds : total_seconds (172800 * 1000000) = 172800%float.
Proof. reflexivity. Qed.

(** A null cluster is tolerated by the flattening scripts ([or {}]) and not
    by the momentum scripts, which call [.get] on it. *)
Example null_coding_cluster :
  ApiTest.extract (Enhanced.meta_of Stub.group_empty) (JObj [("coding", JNull)]) "derivative"
  = Ok (ApiTest.mkRecord (JStr "4") "" JNull JNull JNull "derivative"
          JNull JNull JNull JNull JNull JNull JNull)
  /\ DeepDive.tx_loop DeepDive.meanings (JStr "TSLA") Stub.group_empty
       (JObj [("coding", JNull)]) []
     = Raise AttributeError.
Proof. split; reflexivity. Qed.

(** A status outside 2xx that is not 4xx or 5xx does not raise in
    [raise_for_status]; the body is then parsed as if the call had worked. *)
Example not_modified_is_parsed :
  (DeepDive.fetch_insider_trades
     (mkOracle (fun _ _ _ => Some (mkResponse 304 "Not Modified" "" "" None))
        (fun _ => None) (yf_history Stub.offline) (fun l k => take k l)
        Stub.parse_column Stub.show)
     "issuer.tradingSymbol:TSLA" 50 Stub.ready).1
  = Raise JSONDecodeError.
Proof. vm_compute. reflexivity. Qed.

(* ===================================================================== *)
(** * Further properties of the scripts                                   *)
(* ===================================================================== *)

(** ** The requests that leave the process *)

Lemma wire_fold_sent {A} (c : A -> call) (xs : list A) (w : world) :
  wire (fold_left (fun w x => sent w (c x)) xs w) = wire w ++ map c xs
  /\ stdout (fold_left (fun w x => sent w (c x)) xs w) = stdout w
  /\ module (fold_left (fun w x => sent w (c x)) xs w) = module w.
Proof.
  revert w. induction xs as [|x xs IH]; intros w; simpl.
  - by rewrite app_nil_r.
  - destruct (IH (sent w (c x))) as (-> & -> & ->). simpl.
    by rewrite <- app_assoc.
Qed.

Lemma listed_of_world (o : oracle) (candidates : list string) (w : world) :
  DeepDive.listed_of o candidates w
  = (Ok (List.filter (has_price o) candidates),
     fold_left (fun w t => sent w (INFO (JStr t))) candidates w).
Proof.
  unfold DeepDive.listed_of.
  rewrite (for_io_run _
             (fun t acc => if has_price o t then acc ++ [t] else acc)
             (fun t w => sent w (INFO (JStr t)))).
  - by rewrite fold_left_filter.
  - intros t acc w0. unfold mbind, io_bind. by rewrite is_listed_run.
Qed.

(** X1. Whatever the answer, [fetch_insider_trades] puts exactly one request
    on the wire: a POST to the insider-trading endpoint that carries the
    module's API key as Authorization header, the query as given, offset 0,
    the newest filings first, and a size that is the requested one capped
    at 50. *)
Theorem fetch_sends_one_capped_request (o : oracle) (query : string) (size : Z) (w : world) :
  exists p,
    wire (DeepDive.fetch_insider_trades o query size w).2
    = wire w ++ [POST DeepDive.BASE_URL (Some (API_KEY (module w))) p]
    /\ p_query p = query
    /\ p_from p = 0
    /\ p_size p = Z.min size 50
    /\ p_size p <= 50
    /\ (size <= 50 -> p_size p = size)
    /\ p_sort p = ("filedAt", "desc").
Proof.
  exists (mkPayload query 0 (Z.min size 50) ("filedAt", "desc")).
  split; [|cbn; repeat split; lia].
  rewrite fetch_insider_trades_run. cbv zeta.
  destruct (requests_post o _ _ _) as [r|]; [|done].
  by destruct (raise_for_status r).
Qed.

(** X2. [fetch_insider_trades_enhanced] of [Api_test.py] supports two ways
    of authenticating and sends exactly one request in either: with
    [use_header] the key travels in the Authorization header and the URL is
    the bare endpoint; without it there is no Authorization header and the
    key is appended to the URL as [?token=].  The requested size is passed
    on as it is, without a cap. *)
Theorem enhanced_fetch_auth_modes
    (o : oracle) (query : string) (size : Z) (use_header : bool) (w : world) :
  wire (ApiTest.fetch_insider_trades_enhanced o query size use_header w).2
  = wire w ++
    [ if use_header
      then POST ApiTest.BASE_URL (Some (API_KEY (module w)))
             (mkPayload query 0 size ("filedAt", "desc"))
      else POST (ApiTest.BASE_URL +:+ "?token=" +:+ API_KEY (module w)) None
             (mkPayload query 0 size ("filedAt", "desc")) ].
Proof.
  unfold ApiTest.fetch_insider_trades_enhanced. io_run.
  destruct use_header; io_run;
    (destruct (requests_post o _ _ _) as [r|]; io_run; [|done];
     destruct (raise_for_status r) as [[]|[]]; io_run; try done;
     destruct (json_of r) as [j|]; io_run; [|done];
     by destruct (ApiTest.flatten j) as [[|x l]|]; io_run).
Qed.

(** X3. [is_listed] never raises: it asks the market-data collaborator once
    and answers True exactly when the collaborator returned a dict whose
    regularMarketPrice is present and not null; a collaborator that throws,
    or an answer that is not a dict, gives False. *)
Theorem is_listed_absorbs_failures (o : oracle) (t : string) (w : world) :
  exists b,
    DeepDive.is_listed o t w = (Ok b, sent w (INFO (JStr t)))
    /\ (b = true <->
        exists items v,
          yf_info o (JStr t) = Some (JObj items)
          /\ assoc "regularMarketPrice" items = Some v
          /\ v <> JNull).
Proof.
  exists (has_price o t). split; [apply is_listed_run|].
  unfold has_price. split.
  - destruct (yf_info o (JStr t)) as [[]|]; try discriminate.
    destruct (assoc "regularMarketPrice" items) as [v|] eqn:E; [|discriminate].
    intros H. exists items, v. split; [done|]. split; [done|]. intros ->. discriminate.
  - intros (items & v & -> & -> & Hv). by destruct v.
Qed.

(** X4. [get_random_mega_caps] asks for the price of every ticker of its
    pool, once each and in pool order, whatever the requested size, and
    sends nothing else.  When fewer tickers are listed than requested it
    prints how many there are; otherwise it prints nothing. *)
Theorem mega_caps_probe_the_whole_pool (o : oracle) (sample_size : Z) (w : world) :
  wire (DeepDive.get_random_mega_caps o sample_size w).2
  = wire w ++ map (fun t => INFO (JStr t)) DeepDive.default_universe
  /\ stdout (DeepDive.get_random_mega_caps o sample_size w).2
     = stdout w ++
       (if Z.of_nat (length (List.filter (has_price o) DeepDive.default_universe))
           <? sample_size
        then ["Only "
                +:+ pretty (Z.of_nat (length (List.filter (has_price o)
                                                DeepDive.default_universe)))
                +:+ " listed mega-cap tickers available; sampling all."]
        else []).
Proof.
  set (listed := List.filter (has_price o) DeepDive.default_universe).
  set (w1 := fold_left (fun w t => sent w (INFO (JStr t))) DeepDive.default_universe w).
  assert (R : DeepDive.get_random_mega_caps o sample_size w
              = if Z.of_nat (length listed) <? sample_size
                then (Ok listed,
                      printed w1 ("Only " +:+ pretty (Z.of_nat (length listed))
                                    +:+ " listed mega-cap tickers available; sampling all."))
                else random_sample o listed sample_size w1).
  { unfold DeepDive.get_random_mega_caps.
    assert (Hu : DeepDive.fromkeys DeepDive.default_universe = DeepDive.default_universe)
      by (vm_compute; reflexivity).
    rewrite Hu. cbv zeta. unfold mbind at 1, io_bind. rewrite listed_of_world.
    fold listed w1. by destruct (_ <? sample_size). }
  rewrite R.
  destruct (wire_fold_sent (fun t => INFO (JStr t)) DeepDive.default_universe w)
    as (Hw & Hs & _). fold w1 in Hw, Hs.
  destruct (_ <? sample_size); cbn [snd printed wire stdout].
  - by rewrite Hw, Hs.
  - unfold random_sample. destruct (_ || _); io_run; cbn [snd]; rewrite Hw, Hs;
      by rewrite app_nil_r.
Qed.

(** X5. On a batch it gets through (the column of transaction dates
    parses, the window is one a [Timedelta] holds and leads from each
    transaction date to a day of the calendar, every record without a
    transaction date has no price data), the day-window analysis sends one
    price-history request per record, in the order of the records and
    nothing else: for the ticker of the record, from its transaction date
    to that date plus [days_after], at the daily interval; for a record
    without a date, with NaT at both ends.  An empty table sends nothing,
    prints "No trades to analyze." and is returned empty. *)
Theorem day_analysis_requests
    (o : oracle) (df : list (DeepDive.row json)) (n : Z) (w : world)
    (cells : nat -> option Timestamp) :
  to_datetime o (map DeepDive.transactionDate df) = inr cells ->
  in_bounds (n * ns_per_day) = true ->
  Forall (Expected.ready_days o n)
    (DeepDive.with_transactionDate (fun i => date_of <$> cells i) df) ->
  wire (DeepDive.analyze_trade_momentum o df n w).2
  = wire w ++
    imap (fun i row =>
            match cells i with
            | Some t => HISTORY (DeepDive.ticker row)
                          (OnDay (date_of t)) (OnDay (date_of t + n)) "1d"
            | None => HISTORY (DeepDive.ticker row) NaT NaT "1d"
            end) df
  /\ DeepDive.analyze_trade_momentum o [] n w = (Ok [], printed w "No trades to analyze.").
Proof.
  intros Hp Hb Hr. split; [|reflexivity].
  destruct (analyze_days o df n w cells Hp Hb Hr) as (w' & E & W & _).
  rewrite E. cbn [snd]. rewrite W. f_equal.
  unfold DeepDive.with_transactionDate.
  change (map ?f ?l) with (f <$> l). rewrite fmap_imap. apply imap_ext.
  intros i row _. unfold Expected.request_days. simpl. by destruct (cells i).
Qed.

Lemma day_analysis_requests_witness :
  wire (DeepDive.analyze_trade_momentum Stub.online
          [Stub.trade "ABC" "2024-01-02"; Stub.undated "XYZ"] 30 Stub.ready).2
  = [ HISTORY (JStr "ABC") (OnDay (ymd 2024 1 2)) (OnDay (ymd 2024 2 1)) "1d";
      HISTORY (JStr "XYZ") NaT NaT "1d" ].
Proof.
  refine (proj1 (day_analysis_requests Stub.online
                   [Stub.trade "ABC" "2024-01-02"; Stub.undated "XYZ"] 30 Stub.ready
                   (fun i => default None ([Some (midnight (ymd 2024 1 2)); None] !! i))
                   _ _ _)).
  - vm_compute. reflexivity.
  - vm_compute. reflexivity.
  - repeat constructor; vm_compute; (discriminate || reflexivity).
Defined.

(** X6. On a batch it gets through (the column of transaction dates
    parses, the window is one a [Timedelta] holds and leads from each
    transaction timestamp to a timestamp), the hour-window analysis sends
    one price-history request per record, in the order of the records and
    nothing else: for the ticker of the record, from its transaction
    instant (zone dropped) to that instant plus [hours_after] hours, at the
    hourly interval; for a record without a date, with NaT at both ends. *)
Theorem hour_analysis_requests
    (o : oracle) (df : list (DeepDive.row json)) (n : Z) (w : world)
    (cells : nat -> option Timestamp) :
  to_datetime o (map DeepDive.transactionDate df) = inr cells ->
  in_bounds (n * 3600 * ns_per_second) = true ->
  Forall (Expected.ready_hours n) (DeepDive.with_transactionDate cells df) ->
  wire (ReturnPost.analyze_trade_momentum o df n w).2
  = wire w ++
    imap (fun i row =>
            match cells i with
            | Some t => HISTORY (DeepDive.ticker row)
                          (At (mkTimestamp (value t) None))
                          (At (mkTimestamp (value t + n * 3600 * ns_per_second) None)) "1h"
            | None => HISTORY (DeepDive.ticker row) NaT NaT "1h"
            end) df
  /\ ReturnPost.analyze_trade_momentum o [] n w = (Ok [], printed w "No trades to analyze.").
Proof.
  intros Hp Hb Hr. split; [|reflexivity].
  destruct (analyze_hours o df n w cells Hp Hb Hr) as (w' & E & W & _).
  rewrite E. cbn [snd]. rewrite W. f_equal.
  unfold DeepDive.with_transactionDate.
  change (map ?f ?l) with (f <$> l). rewrite fmap_imap. apply imap_ext.
  intros i row _. unfold Expected.request_hours. simpl. by destruct (cells i).
Qed.

Lemma hour_analysis_requests_witness :
  wire (ReturnPost.analyze_trade_momentum Stub.online
          [Stub.trade "ABC" "2024-01-02T09:30:00-05:00"; Stub.undated "XYZ"] 48 Stub.ready).2
  = [ HISTORY (JStr "ABC")
        (At (mkTimestamp (ymd 2024 1 2 * ns_per_day + 52200 * ns_per_second) None))
        (At (mkTimestamp (ymd 2024 1 4 * ns_per_day + 52200 * ns_per_second) None)) "1h";
      HISTORY (JStr "XYZ") NaT NaT "1h" ].
Proof.
  refine (proj1 (hour_analysis_requests Stub.online
                   [Stub.trade "ABC" "2024-01-02T09:30:00-05:00"; Stub.undated "XYZ"] 48
                   Stub.ready
                   (fun i => default None
                               ([Some (Stub.opening_new_york (ymd 2024 1 2)); None] !! i))
                   _ _ _)).
  - vm_compute. reflexivity.
  - vm_compute. reflexivity.
  - repeat constructor; vm_compute; reflexivity.
Defined.

(** ** HTTP errors *)

(** X7. When the filing API answers with a 4xx or 5xx status, every fetch
    function returns the empty table without raising, after printing the
    failure: [fetch_insider_trades] prints one line with the status line of
    the error and the body; [fetch_insider_trades_enhanced] of
    [Api_test.py] prints the status code with the error and then the body;
    the functions of [api_test_expanded_list.py] print the status code and
    the body. *)
Theorem http_error_is_absorbed_and_logged
    (o : oracle) (r : response) (query : string) (size : Z) (use_header : bool) (w : world) :
  (forall to authorization p, requests_post o to authorization p = Some r) ->
  400 <= status_code r < 600 ->
  (exists e,
     raise_for_status r = Raise (HTTPError e)
     /\ (DeepDive.fetch_insider_trades o query size w).1 = Ok []
     /\ stdout (DeepDive.fetch_insider_trades o query size w).2
        = stdout w ++ ["Error fetching insider trades for '" +:+ query +:+ "': "
                         +:+ e +:+ nl +:+ text r]
     /\ (ApiTest.fetch_insider_trades_enhanced o query size use_header w).1 = Ok []
     /\ stdout (ApiTest.fetch_insider_trades_enhanced o query size use_header w).2
        = stdout w ++ ["HTTP " +:+ pretty (status_code r) +:+ " error: " +:+ e;
                       "Response body: " +:+ text r])
  /\ (ExpandedList.fetch_insider_trades_enhanced o query size w).1 = Ok []
  /\ stdout (ExpandedList.fetch_insider_trades_enhanced o query size w).2
     = stdout w ++ ["Error fetching insider trades: " +:+ pretty (status_code r)
                      +:+ nl +:+ text r]
  /\ (ExpandedList.fetch_form13f_holdings o query size w).1 = Ok []
  /\ stdout (ExpandedList.fetch_form13f_holdings o query size w).2
     = stdout w ++ ["Error fetching 13F holdings: " +:+ pretty (status_code r)
                      +:+ nl +:+ text r].
Proof.
  intros Hp Hs.
  assert (He : exists e, raise_for_status r = Raise (HTTPError e)).
  { unfold raise_for_status. destruct Hs as [Hlo Hhi].
    destruct (status_code r <? 500) eqn:E.
    - replace (400 <=? status_code r) with true by (symmetry; apply Z.leb_le; lia).
      simpl. eauto.
    - rewrite andb_false_r.
      replace (500 <=? status_code r) with true
        by (symmetry; apply Z.leb_le; apply Z.ltb_ge in E; lia).
      replace (status_code r <? 600) with true by (symmetry; apply Z.ltb_lt; lia).
      simpl. eauto. }
  destruct He as [e He]. split; [exists e; split; [done|]|].
  - rewrite fetch_insider_trades_run. cbv zeta. rewrite Hp, He. cbn.
    split; [done|]. split; [done|].
    unfold ApiTest.fetch_insider_trades_enhanced. io_run.
    destruct use_header; io_run; rewrite Hp; io_run; rewrite He; io_run; cbn;
      (split; [done|]); by rewrite <- app_assoc.
  - unfold ExpandedList.fetch_insider_trades_enhanced, ExpandedList.fetch_form13f_holdings.
    io_run. rewrite !Hp. io_run. rewrite He. io_run. cbn. done.
Qed.

Lemma http_error_is_absorbed_and_logged_witness :
  (DeepDive.fetch_insider_trades Stub.rejected "issuer.tradingSymbol:TSLA" 50 Stub.ready).1
  = Ok []
  /\ stdout (ExpandedList.fetch_form13f_holdings Stub.rejected "holdings.ticker:TSLA" 1
               Stub.ready).2
     = ["Error fetching 13F holdings: 403" +:+ nl +:+ "{'message': 'invalid key'}"].
Proof.
  destruct (http_error_is_absorbed_and_logged Stub.rejected Stub.forbidden
              "issuer.tradingSymbol:TSLA" 50 true Stub.ready (fun _ _ _ => eq_refl))
    as [(e & _ & Hd & _) _]; [split; [discriminate|reflexivity]|].
  destruct (http_error_is_absorbed_and_logged Stub.rejected Stub.forbidden
              "holdings.ticker:TSLA" 1 true Stub.ready (fun _ _ _ => eq_refl))
    as (_ & _ & _ & _ & Hh); [split; [discriminate|reflexivity]|].
  split; [exact Hd|exact Hh].
Defined.

(** ** The fallback of the ticker *)

(** No colon in the string. *)
Fixpoint colon_free (s : string) : bool :=
  match s with
  | EmptyString => true
  | String a s' => negb (Ascii.eqb a ":"%char) && colon_free s'
  end.

Lemma split_colon_free (s : string) : colon_free s = true -> split ":"%char s = [s].
Proof.
  induction s as [|a s IH]; simpl; [done|].
  intros [Ha Hs]%andb_prop. apply negb_true_iff in Ha. rewrite Ha, (IH Hs). done.
Qed.

Lemma split_append (c : ascii) (p t : string) :
  split c (p +:+ String c t) = split c p ++ split c t.
Proof.
  induction p as [|a p IH]; simpl.
  - by rewrite Ascii.eqb_refl.
  - destruct (Ascii.eqb a c); [by rewrite IH|].
    rewrite IH. destruct (split_cons c p) as (h & tl & ->). done.
Qed.

Lemma getitem_last_app {A} (l : list A) (x : A) : getitem (l ++ [x]) (-1) = Ok x.
Proof.
  destruct l as [|y l]; [done|].
  change ((y :: l) ++ [x]) with (y :: (l ++ [x])).
  rewrite (getitem_last y x). f_equal.
  change (y :: l ++ [x]) with ((y :: l) ++ [x]). apply last_last.
Qed.

(** X8. When a filing group carries no issuer symbol, the ticker of its
    rows is the text after the last colon of the query: for the query
    [prefix:T] with a colon-free [T], as the main blocks build it, the
    ticker is [T], and for a query without any colon it is the whole query.
    A group with a non-empty issuer symbol keeps that symbol. *)
Theorem ticker_falls_back_to_query_tail (items : list (string * json)) (prefix t : string) :
  colon_free t = true ->
  (assoc "issuer" items = None ->
   DeepDive.resolve_symbol (prefix +:+ ":" +:+ t) (JObj items) = Ok (JStr t)
   /\ DeepDive.resolve_symbol t (JObj items) = Ok (JStr t))
  /\ (forall issuer symbol,
        assoc "issuer" items = Some (JObj issuer) ->
        assoc "tradingSymbol" issuer = Some symbol ->
        truthy symbol = true ->
        DeepDive.resolve_symbol (prefix +:+ ":" +:+ t) (JObj items) = Ok symbol).
Proof.
  intros Ht. split.
  - intros Hi. unfold DeepDive.resolve_symbol, get_, get. rewrite Hi. simpl.
    change (":" +:+ t) with (String ":"%char t).
    rewrite split_append, !(split_colon_free t Ht).
    rewrite getitem_last_app. split; reflexivity.
  - intros issuer symbol Hi Hs Htr.
    unfold DeepDive.resolve_symbol, get_, get. rewrite Hi. simpl. rewrite Hs. simpl.
    by rewrite Htr.
Qed.

Lemma ticker_falls_back_to_query_tail_witness :
  DeepDive.resolve_symbol ("issuer.tradingSymbol" +:+ ":" +:+ "BRK.B") Stub.group_empty
  = Ok (JStr "BRK.B").
Proof.
  exact (proj1 (proj1 (ticker_falls_back_to_query_tail [("documentType", JStr "4")]
                         "issuer.tradingSymbol" "BRK.B" eq_refl) eq_refl)).
Defined.

(** ** Missing key against explicit null *)



(** ** The main blocks *)

(** X11. The hour-window script cannot get past its import: it reads the
    environment variable whose name is the empty string, which no
    environment defines, so the key is empty and the guard raises
    ValueError.  Nothing is printed, nothing is requested, and the module
    globals stay unbound, whatever API_KEY holds. *)
Theorem hour_window_script_never_starts (o : oracle) (w : world) :
  environ w !! "" = None ->
  ReturnPost.import_module w
  = (Raise (ValueError
              "Please set your SEC_API_KEY environment variable to your real API key."), w)
  /\ ReturnPost.main o w
     = (Raise (ValueError
                 "Please set your SEC_API_KEY environment variable to your real API key."), w).
Proof.
  intros H. split.
  - unfold ReturnPost.import_module. io_run. by rewrite H.
  - by apply hour_window_script_always_halts.
Qed.

Lemma hour_window_script_never_starts_witness :
  ReturnPost.main Stub.online Stub.ready
  = (Raise (ValueError
              "Please set your SEC_API_KEY environment variable to your real API key."),
     Stub.ready).
Proof.
  exact (proj2 (hour_window_script_never_starts Stub.online Stub.ready eq_refl)).
Defined.

Lemma io_bind_ok {A B} (m : io A) (f : A -> io B) (w w' : world) (a : A) :
  m w = (Ok a, w') -> (m ≫= f) w = f a w'.
Proof. intros H. unfold mbind, io_bind. by rewrite H. Qed.

Lemma io_bind_raise {A B} (m : io A) (f : A -> io B) (w w' : world) (e : exn) :
  m w = (Raise e, w') -> (m ≫= f) w = (Raise e, w').
Proof. intros H. unfold mbind, io_bind. by rewrite H. Qed.

Lemma print_run (line : string) (w : world) : print line w = (Ok tt, printed w line).
Proof. reflexivity. Qed.

(** The two ways [get_random_mega_caps] can go. *)
Lemma get_random_mega_caps_run (o : oracle) (sample_size : Z) (w : world) :
  let listed := List.filter (has_price o) DeepDive.default_universe in
  let w1 := fold_left (fun w t => sent w (INFO (JStr t))) DeepDive.default_universe w in
  DeepDive.get_random_mega_caps o sample_size w
  = if Z.of_nat (length listed) <? sample_size
    then (Ok listed,
          printed w1 ("Only " +:+ pretty (Z.of_nat (length listed))
                        +:+ " listed mega-cap tickers available; sampling all."))
    else random_sample o listed sample_size w1.
Proof.
  intros listed w1. unfold DeepDive.get_random_mega_caps.
  assert (Hu : DeepDive.fromkeys DeepDive.default_universe = DeepDive.default_universe)
    by (vm_compute; reflexivity).
  rewrite Hu. cbv zeta. unfold mbind at 1, io_bind. rewrite listed_of_world.
  fold listed w1. by destruct (_ <? sample_size).
Qed.

(** What one turn of the loop of the main block leaves in the world when
    the filing API refuses the request. *)
Definition refused_turn (r : response) (e : string) (t : string) (w : world) : world :=
  printed
    (printed
       (sent w (POST DeepDive.BASE_URL (Some (API_KEY (module w)))
                  (mkPayload ("issuer.tradingSymbol:" +:+ t) 0 50 ("filedAt", "desc"))))
       ("Error fetching insider trades for '" +:+ ("issuer.tradingSymbol:" +:+ t) +:+ "': "
          +:+ e +:+ nl +:+ text r))
    ("No trades for " +:+ t +:+ ", skipping.").

Lemma refused_turns_world (r : response) (e : string) (l : list string) (w : world) :
  wire (fold_left (fun w t => refused_turn r e t w) l w)
  = wire w ++
    map (fun t => POST DeepDive.BASE_URL (Some (API_KEY (module w)))
                    (mkPayload ("issuer.tradingSymbol:" +:+ t) 0 50 ("filedAt", "desc"))) l
  /\ module (fold_left (fun w t => refused_turn r e t w) l w) = module w.
Proof.
  revert w. induction l as [|t l IH]; intros w; simpl.
  - by rewrite app_nil_r.
  - destruct (IH (refused_turn r e t w)) as [-> ->]. simpl. by rewrite <- app_assoc.
Qed.

(** X12. When the filing API refuses every request with a 4xx or 5xx
    status (a wrong key, for instance), the day-window script still asks
    the price of the forty tickers of its pool, sends one filing request
    per candidate, then reports that no insider trades were found and
    exits with status 1; it writes no file. *)
Theorem day_window_script_exits_when_refused (o : oracle) (r : response) (w : world) :
  environ w !! "API_KEY" <> Some "" ->
  (forall to authorization p, requests_post o to authorization p = Some r) ->
  400 <= status_code r < 600 ->
  exists candidates,
    (DeepDive.main o w).1 = Raise (SystemExit 1)
    /\ wire (DeepDive.main o w).2
       = wire w
         ++ map (fun t => INFO (JStr t)) DeepDive.default_universe
         ++ map (fun t => POST DeepDive.BASE_URL
                            (Some (default "API_KEY" (environ w !! "API_KEY")))
                            (mkPayload ("issuer.tradingSymbol:" +:+ t) 0 50
                               ("filedAt", "desc")))
                candidates
    /\ List.last (stdout (DeepDive.main o w).2) ""
       = "No insider trades found; adjust candidates or try again.".
Proof.
  intros Hkey Hp Hs.
  assert (He : exists e, raise_for_status r = Raise (HTTPError e)).
  { unfold raise_for_status. destruct Hs as [Hlo Hhi].
    destruct (status_code r <? 500) eqn:E.
    - replace (400 <=? status_code r) with true by (symmetry; apply Z.leb_le; lia).
      simpl. eauto.
    - rewrite andb_false_r.
      replace (500 <=? status_code r) with true
        by (symmetry; apply Z.leb_le; apply Z.ltb_ge in E; lia).
      replace (status_code r <? 600) with true by (symmetry; apply Z.ltb_lt; lia).
      simpl. eauto. }
  destruct He as [e He].
  set (key := default "API_KEY" (environ w !! "API_KEY")).
  set (w0 := mkWorld (environ w) (stdout w) (wire w) (mkGlobals key DeepDive.meanings)).
  assert (Hi : DeepDive.import_module w = (Ok tt, w0)).
  { unfold DeepDive.import_module. io_run. fold key.
    destruct (String.eqb key "") eqn:E; [|done].
    apply String.eqb_eq in E. exfalso. apply Hkey. subst key.
    destruct (environ w !! "API_KEY"); simpl in E; [by rewrite E|discriminate]. }
  assert (Hc : exists candidates w1,
             DeepDive.get_random_mega_caps o 20 w0 = (Ok candidates, w1)
             /\ wire w1 = wire w ++ map (fun t => INFO (JStr t)) DeepDive.default_universe
             /\ module w1 = module w0).
  { rewrite get_random_mega_caps_run. cbv zeta.
    destruct (wire_fold_sent (fun t => INFO (JStr t)) DeepDive.default_universe w0)
      as (Hw & _ & Hm).
    destruct (_ <? 20) eqn:C.
    - eexists _, _. split; [reflexivity|]. by split.
    - apply Z.ltb_ge in C. unfold random_sample.
      replace (_ <? 20) with false by (symmetry; apply Z.ltb_ge; lia).
      io_run. cbn [orb]. eexists _, _. split; [reflexivity|]. by split. }
  destruct Hc as (candidates & w1 & Hc & Hw1 & Hm1).
  exists candidates.
  set (w2 := printed w1 ("Mega-cap candidates (listed): " +:+ repr_strs candidates)).
  assert (Hl : for_io candidates
                 (fun t frames =>
                    df_t ← DeepDive.fetch_insider_trades o ("issuer.tradingSymbol:" +:+ t) 50;
                    match df_t with
                    | [] => _ ← print ("No trades for " +:+ t +:+ ", skipping."); mret frames
                    | _ => mret (frames ++ [df_t])
                    end) [] w2
               = (Ok [], fold_left (fun w t => refused_turn r e t w) candidates w2)).
  { rewrite (for_io_run _ (fun _ frames => frames) (fun t w => refused_turn r e t w)).
    - f_equal. f_equal. clear. generalize (@nil (list (DeepDive.row json))).
      induction candidates as [|t l IH]; intros s; [done|]. simpl. apply IH.
    - intros t frames w'. unfold mbind at 1, io_bind.
      rewrite fetch_insider_trades_run. cbv zeta. rewrite Hp, He. reflexivity. }
  destruct (refused_turns_world r e candidates w2) as [Hw3 _].
  assert (Hmain : DeepDive.main o w
                   = (Raise (SystemExit 1),
                      printed (fold_left (fun w t => refused_turn r e t w) candidates w2)
                        "No insider trades found; adjust candidates or try again.")).
  { unfold DeepDive.main.
    rewrite (io_bind_ok _ _ _ _ _ Hi), (io_bind_ok _ _ _ _ _ Hc).
    rewrite (io_bind_ok _ _ _ _ _ (print_run _ _)). fold w2.
    rewrite (io_bind_ok _ _ _ _ _ Hl).
    by rewrite (io_bind_ok _ _ _ _ _ (print_run _ _)). }
  rewrite Hmain. cbn [fst snd printed wire stdout].
  split; [done|]. split.
  - rewrite Hw3. subst w2. cbn [wire printed module]. rewrite Hw1, Hm1.
    by rewrite <- app_assoc.
  - apply last_last.
Qed.

Lemma day_window_script_exits_when_refused_witness :
  (DeepDive.main Stub.rejected Stub.fresh).1 = Raise (SystemExit 1).
Proof.
  destruct (day_window_script_exits_when_refused Stub.rejected Stub.forbidden Stub.fresh)
    as (candidates & H & _).
  - discriminate.
  - reflexivity.
  - split; [discriminate|reflexivity].
  - exact H.
Defined.

(** X13. The main block of [Api_test.py] sends one filing request and then
    either writes the table, which then has at least one row, or writes
    nothing: with an empty table it prints "No enhanced records to display."
    and leaves the file alone. *)
Theorem api_test_writes_no_empty_file (o : oracle) (w : world) :
  exists written,
    wire (ApiTest.main o w).2
    = wire w ++ POST ApiTest.BASE_URL
                  (Some (default "API_KEY" (environ w !! "API_KEY")))
                  (mkPayload "issuer.tradingSymbol:TSLA" 0 5 ("filedAt", "desc")) :: written
    /\ ((written = []
         /\ ((ApiTest.main o w).1 = Ok tt ->
             List.last (stdout (ApiTest.main o w).2) "" = "No enhanced records to display."))
        \/ (exists n, written = [TO_CSV ApiTest.out_path (S n)]
                      /\ (ApiTest.main o w).1 = Ok tt)).
Proof.
  unfold ApiTest.main, ApiTest.import_module, ApiTest.fetch_insider_trades_enhanced.
  io_run. cbn [module API_KEY wire].
  destruct (requests_post o _ _ _) as [r|]; io_run; cbn [wire snd fst stdout].
  2:{ exists []. split; [done|]. left. split; [done|discriminate]. }
  destruct (raise_for_status r) as [[]|[]]; io_run; cbn [wire snd fst stdout];
    try (exists []; split; [done|]; left; split; [done|discriminate]).
  - destruct (json_of r) as [j|]; io_run; cbn [wire snd fst stdout].
    2:{ exists []. split; [done|]. left. split; [done|discriminate]. }
    destruct (ApiTest.flatten j) as [[|x l]|]; io_run; cbn [wire snd fst stdout].
    + exists []. split; [done|]. left. split; [done|]. intros _. apply last_last.
    + exists [TO_CSV ApiTest.out_path (S (length l))]. split.
      * by rewrite <- app_assoc.
      * right. by exists (length l).
    + exists []. split; [done|]. left. split; [done|discriminate].
  - exists []. split; [done|]. left. split; [done|]. intros _. apply last_last.
Qed.

(** ** The flattening, group by group *)

Section LoopLaws.
Context {A B : Type}.

Lemma for_append_law (f : A -> result B) (xs : list A) (acc : list B) :
  for_ xs (fun x acc => r ← f x; mret (acc ++ [r])) acc
  = (rs ← comprehension f xs; mret (acc ++ rs)).
Proof.
  revert acc. induction xs as [|x xs IH]; intros acc; simpl.
  - by rewrite app_nil_r.
  - destruct (f x) as [r|e]; simpl; [|done]. rewrite IH.
    destruct (comprehension f xs); simpl; [|done]. by rewrite <- app_assoc.
Qed.

Lemma for_concat_law (body : A -> list B -> result (list B)) (g : A -> result (list B))
    (xs : list A) :
  (forall x acc, body x acc = (rs ← g x; mret (acc ++ rs))) ->
  forall acc, for_ xs body acc = (rss ← comprehension g xs; mret (acc ++ concat rss)).
Proof.
  intros Hb. induction xs as [|x xs IH]; intros acc; simpl.
  - by rewrite app_nil_r.
  - rewrite Hb. destruct (g x) as [rs|e]; simpl; [|done]. rewrite IH.
    destruct (comprehension g xs); simpl; [|done]. by rewrite <- app_assoc.
Qed.

Lemma comprehension_raises (f : A -> result B) (xs : list A) (x : A) (e : exn) :
  x ∈ xs -> f x = Raise e -> exists e', comprehension f xs = Raise e'.
Proof.
  intros Hx Hf. induction xs as [|y xs IH]; [by apply elem_of_nil in Hx|].
  simpl. apply elem_of_cons in Hx as [<-|Hx].
  - rewrite Hf. simpl. eauto.
  - destruct (f y); simpl; [|eauto].
    destruct (IH Hx) as [e' ->]. simpl. eauto.
Qed.
End LoopLaws.

Lemma enhanced_table_loop_law (m : ApiTest.meta) (g : json) (table category : string)
    (acc : list ApiTest.record) :
  ApiTest.table_loop m g table category acc
  = (rs ← ApiTest.table_loop m g table category []; mret (acc ++ rs)).
Proof.
  unfold ApiTest.table_loop.
  destruct (get g table (JObj [])) as [t|]; simpl; [|done].
  destruct (get t "transactions" (JArr [])) as [txs0|]; simpl; [|done].
  destruct (iter _) as [txs|]; simpl; [|done].
  rewrite !for_append_law. by destruct (comprehension _ txs).
Qed.

Lemma enhanced_group_loop_law (g : json) (acc : list ApiTest.record) :
  ApiTest.group_loop g acc = (rs ← ApiTest.group_loop g []; mret (acc ++ rs)).
Proof.
  unfold ApiTest.group_loop.
  destruct (ApiTest.group_meta g) as [m|]; simpl; [|done].
  rewrite (enhanced_table_loop_law m g "nonDerivativeTable" "nonDerivative" acc).
  destruct (ApiTest.table_loop m g "nonDerivativeTable" "nonDerivative" [])
    as [r1|]; simpl; [|done].
  rewrite (enhanced_table_loop_law m g "derivativeTable" "derivative" (acc ++ r1)).
  rewrite (enhanced_table_loop_law m g "derivativeTable" "derivative" r1).
  destruct (ApiTest.table_loop m g "derivativeTable" "derivative" []) as [r2|]; simpl; [|done].
  by rewrite app_assoc.
Qed.

Section PlainLaws.
Variable vocabulary : gmap string string.
Variable query : string.

Lemma plain_table_loop_law (symbol g : json) (table : string)
    (acc : list (DeepDive.row json)) :
  DeepDive.table_loop vocabulary symbol g table acc
  = (rs ← DeepDive.table_loop vocabulary symbol g table []; mret (acc ++ rs)).
Proof.
  unfold DeepDive.table_loop.
  destruct (get g table (JObj [])) as [t|]; simpl; [|done].
  destruct (get t "transactions" (JArr [])) as [txs0|]; simpl; [|done].
  destruct (iter _) as [txs|]; simpl; [|done].
  assert (L : forall acc,
            for_ txs (DeepDive.tx_loop vocabulary symbol g) acc
            = (rs ← comprehension
                      (fun tx => rows ← DeepDive.tx_loop vocabulary symbol g tx [];
                                 match rows with
                                 | [r] => Ok r
                                 | _ => Raise IndexError
                                 end) txs;
               mret (acc ++ rs))).
  { intros a. rewrite <- for_append_law. revert a.
    induction txs as [|tx txs IH]; intros a; [done|]. simpl.
    assert (T : forall rows, DeepDive.tx_loop vocabulary symbol g tx rows
                = (r ← (rows' ← DeepDive.tx_loop vocabulary symbol g tx [];
                        match rows' with [r] => Ok r | _ => Raise IndexError end);
                   mret (rows ++ [r]))).
    { intros rows. unfold DeepDive.tx_loop.
      repeat match goal with
             | |- context [mbind _ ?m] =>
                 lazymatch m with
                 | mbind _ _ => fail
                 | _ => destruct m; cbn [mbind result_bind mret result_ret]; [|done]
                 end
             end.
      done. }
    rewrite (T a). destruct (_ ≫= _) as [r|]; simpl; [|done]. apply IH. }
  rewrite (L acc), (L []). by destruct (comprehension _ txs).
Qed.

Lemma plain_group_loop_law (g : json) (acc : list (DeepDive.row json)) :
  DeepDive.group_loop vocabulary query g acc
  = (rs ← DeepDive.group_loop vocabulary query g []; mret (acc ++ rs)).
Proof.
  unfold DeepDive.group_loop.
  destruct (DeepDive.resolve_symbol query g) as [symbol|]; simpl; [|done].
  rewrite (plain_table_loop_law symbol g "nonDerivativeTable" acc).
  destruct (DeepDive.table_loop vocabulary symbol g "nonDerivativeTable" [])
    as [r1|]; simpl; [|done].
  rewrite (plain_table_loop_law symbol g "derivativeTable" (acc ++ r1)).
  rewrite (plain_table_loop_law symbol g "derivativeTable" r1).
  destruct (DeepDive.table_loop vocabulary symbol g "derivativeTable" []) as [r2|];
    simpl; [|done].
  by rewrite app_assoc.
Qed.
End PlainLaws.

(** X14. Both flattenings work group by group and are all-or-nothing.  For a
    response whose "transactions" is a list of groups, whatever the groups
    hold, the result is the concatenation, in order, of what the loop body
    yields for each group alone; and as soon as the body raises on one
    group the whole flattening raises: no partial table is returned. *)
Theorem flattening_is_group_wise
    (vocabulary : gmap string string) (query : string)
    (items : list (string * json)) (groups : list json) :
  assoc "transactions" items = Some (JArr groups) ->
  ApiTest.flatten (JObj items)
  = (rss ← comprehension (fun g => ApiTest.group_loop g []) groups; mret (concat rss))
  /\ DeepDive.flatten vocabulary query (JObj items)
     = (rss ← comprehension (fun g => DeepDive.group_loop vocabulary query g []) groups;
        mret (concat rss))
  /\ (forall g e, g ∈ groups -> ApiTest.group_loop g [] = Raise e ->
                  exists e', ApiTest.flatten (JObj items) = Raise e')
  /\ (forall g e, g ∈ groups -> DeepDive.group_loop vocabulary query g [] = Raise e ->
                  exists e', DeepDive.flatten vocabulary query (JObj items) = Raise e').
Proof.
  intros H.
  assert (Ha : ApiTest.flatten (JObj items)
               = (rss ← comprehension (fun g => ApiTest.group_loop g []) groups;
                  mret (concat rss))).
  { unfold ApiTest.flatten, get. rewrite H. simpl.
    rewrite (for_concat_law _ (fun g => ApiTest.group_loop g [])).
    - done.
    - intros g acc. apply enhanced_group_loop_law. }
  assert (Hd : DeepDive.flatten vocabulary query (JObj items)
               = (rss ← comprehension (fun g => DeepDive.group_loop vocabulary query g [])
                          groups;
                  mret (concat rss))).
  { unfold DeepDive.flatten, get. rewrite H. simpl.
    rewrite (for_concat_law _ (fun g => DeepDive.group_loop vocabulary query g [])).
    - done.
    - intros g acc. apply plain_group_loop_law. }
  split; [exact Ha|]. split; [exact Hd|]. split.
  - intros g e Hg He. rewrite Ha.
    destruct (comprehension_raises (fun g => ApiTest.group_loop g []) groups g e Hg He)
      as [e' ->].
    simpl. eauto.
  - intros g e Hg He. rewrite Hd.
    destruct (comprehension_raises (fun g => DeepDive.group_loop vocabulary query g [])
                groups g e Hg He) as [e' ->].
    simpl. eauto.
Qed.

(** A good group followed by a group that is not a dict: nothing is kept. *)
Lemma flattening_is_group_wise_witness :
  exists e', DeepDive.flatten DeepDive.meanings "issuer.tradingSymbol:ABC"
               (JObj [("transactions", JArr [Stub.group_full; JStr "oops"])])
             = Raise e'.
Proof.
  destruct (flattening_is_group_wise DeepDive.meanings "issuer.tradingSymbol:ABC"
              [("transactions", JArr [Stub.group_full; JStr "oops"])]
              [Stub.group_full; JStr "oops"] eq_refl) as (_ & _ & _ & H).
  apply (H (JStr "oops") AttributeError); [|reflexivity].
  apply elem_of_cons. right. apply elem_of_cons. by left.
Defined.

(** ** The rows of the 13F holdings *)

Section DictFacts.

Lemma assoc_setitem (d : list (string * json)) (k k' : string) (v : json) :
  assoc k (setitem d k' v) = if String.eqb k k' then Some v else assoc k d.
Proof.
  induction d as [|[k0 v0] d IH]; simpl; [done|].
  destruct (String.eqb_spec k' k0) as [->|Hne]; simpl.
  - by destruct (String.eqb k k0).
  - rewrite IH. destruct (String.eqb_spec k k0) as [->|]; [|done].
    destruct (String.eqb_spec k0 k') as [->|]; [done|done].
Qed.

Lemma setitem_keys (d : list (string * json)) (k : string) (v : json) :
  exists extra, map fst (setitem d k v) = map fst d ++ extra.
Proof.
  induction d as [|[k0 v0] d [extra IH]]; simpl; [by exists [k]|].
  destruct (String.eqb_spec k k0) as [->|]; simpl.
  - exists []. by rewrite app_nil_r.
  - exists extra. by rewrite IH.
Qed.

Lemma assoc_filter_other (l : list (string * json)) (k k0 : string) :
  assoc k (List.filter (fun kv => negb (String.eqb (fst kv) k0)) l)
  = if String.eqb k k0 then None else assoc k l.
Proof.
  induction l as [|[k1 v1] l IH]; simpl; [by destruct (String.eqb k k0)|].
  destruct (String.eqb_spec k1 k0) as [->|Hne]; simpl.
  - rewrite IH. destruct (String.eqb_spec k k0) as [->|]; [done|done].
  - rewrite IH. destruct (String.eqb_spec k k1) as [->|]; [|done].
    destruct (String.eqb_spec k1 k0); [done|done].
Qed.

Lemma assoc_dict_items (l : list (string * json)) (k : string) :
  assoc k (dict_items l) = assoc k l.
Proof.
  induction l as [|[k0 v0] l IH]; simpl; [done|].
  rewrite assoc_filter_other, IH. by destruct (String.eqb_spec k k0).
Qed.

Lemma assoc_filter_self (l : list (string * json)) (k : string) :
  assoc k (List.filter (fun kv => negb (String.eqb (fst kv) k)) l) = None.
Proof. rewrite assoc_filter_other. by rewrite String.eqb_refl. Qed.

(** Updating with the walked items of a dict: its values win. *)
Lemma assoc_update (h d : list (string * json)) (k : string) :
  assoc k (fold_left (fun d kv => setitem d (fst kv) (snd kv)) (dict_items h) d)
  = match assoc k h with Some v => Some v | None => assoc k d end.
Proof.
  rewrite <- (assoc_dict_items h k).
  assert (G : forall l : list (string * json),
            (forall l1 k0 v0 l2, l = l1 ++ (k0, v0) :: l2 -> assoc k0 l2 = None) ->
            forall d,
              assoc k (fold_left (fun d kv => setitem d (fst kv) (snd kv)) l d)
              = match assoc k l with Some v => Some v | None => assoc k d end).
  { induction l as [|[k0 v0] l IH]; intros Hu d0; simpl; [done|].
    rewrite IH.
    - rewrite assoc_setitem.
      destruct (String.eqb_spec k k0) as [->|]; [|done].
      by rewrite (Hu [] k0 v0 l eq_refl).
    - intros l1 k1 v1 l2 ->. apply (Hu ((k0, v0) :: l1) k1 v1 l2). done. }
  apply G. clear.
  induction h as [|[k0 v0] h IH]; intros l1 k1 v1 l2 E; simpl in E.
  - by destruct l1.
  - destruct l1 as [|x l1]; simpl in E.
    + injection E as <- <- <-. apply assoc_filter_self.
    + injection E as _ E.
      assert (F : exists m1 m2, dict_items h = m1 ++ (k1, v1) :: m2
                  /\ l2 = List.filter (fun kv => negb (String.eqb (fst kv) k0)) m2).
      { clear IH. revert l1 E. induction (dict_items h) as [|[a b] m IHm]; intros l1 E.
        - by destruct l1.
        - simpl in E. destruct (negb (String.eqb a k0)) eqn:C.
          + destruct l1 as [|y l1]; simpl in E.
            * injection E as -> -> <-. by exists [], m.
            * injection E as _ E. destruct (IHm l1 E) as (m1 & m2 & -> & ->).
              by exists ((a, b) :: m1), m2.
          + destruct (IHm l1 E) as (m1 & m2 & -> & ->).
            by exists ((a, b) :: m1), m2. }
      destruct F as (m1 & m2 & Hm & ->).
      rewrite assoc_filter_other, (IH m1 k1 v1 m2 Hm). by destruct (String.eqb k1 k0).
Qed.

Lemma update_keys (l d : list (string * json)) :
  exists extra,
    map fst (fold_left (fun d kv => setitem d (fst kv) (snd kv)) l d) = map fst d ++ extra.
Proof.
  revert d. induction l as [|[k v] l IH]; intros d; simpl.
  - exists []. by rewrite app_nil_r.
  - destruct (IH (setitem d k v)) as [e1 ->].
    destruct (setitem_keys d k v) as [e2 ->]. exists (e2 ++ e1). by rewrite app_assoc.
Qed.
End DictFacts.

Lemma item_loop_law (item : json) (acc : list (list (string * json))) :
  ExpandedList.item_loop item acc
  = (cik ← get_ item "cik";
     period ← get_ item "periodOfReport";
     holdings0 ← get item "holdings" (JArr []);
     holdings ← iter holdings0;
     rows ← comprehension (merge [("cik", cik); ("periodOfReport", period)]) holdings;
     mret (acc ++ rows)).
Proof.
  unfold ExpandedList.item_loop.
  destruct (get_ item "cik"); simpl; [|done].
  destruct (get_ item "periodOfReport"); simpl; [|done].
  destruct (get item "holdings" (JArr [])); simpl; [|done].
  destruct (iter _); simpl; [|done].
  apply for_append_law.
Qed.

(** X15. Each holding of a 13F item becomes one row, in order, that is the
    holding itself completed with the item's "cik" and "periodOfReport":
    every key of the holding keeps the holding's value (also "cik" and
    "periodOfReport", should the holding have them), the two item fields
    are taken from the item otherwise (null when the item lacks them), the
    row has no other key, and its first two columns are "cik" and
    "periodOfReport". *)
Theorem holdings_rows_complete_the_holding
    (items : list (string * json)) (holdings : list json)
    (acc : list (list (string * json))) :
  assoc "holdings" items = Some (JArr holdings) ->
  Forall (fun h => is_obj h = true) holdings ->
  exists rows,
    ExpandedList.item_loop (JObj items) acc = Ok (acc ++ rows)
    /\ length rows = length holdings
    /\ forall i h row,
         holdings !! i = Some (JObj h) ->
         rows !! i = Some row ->
         (forall k,
            assoc k row
            = match assoc k h with
              | Some v => Some v
              | None =>
                  if String.eqb k "cik" then Some (scalar_at (JObj items) ["cik"])
                  else if String.eqb k "periodOfReport"
                       then Some (scalar_at (JObj items) ["periodOfReport"])
                       else None
              end)
         /\ exists rest, map fst row = "cik" :: "periodOfReport" :: rest.
Proof.
  intros Hh Hobj.
  set (meta := [("cik", scalar_at (JObj items) ["cik"]);
                ("periodOfReport", scalar_at (JObj items) ["periodOfReport"])]).
  set (row_of := fun h : json =>
         match h with
         | JObj hitems =>
             fold_left (fun d kv => setitem d (fst kv) (snd kv)) (dict_items hitems) meta
         | _ => []
         end).
  assert (Hc : comprehension (merge meta) holdings = Ok (map row_of holdings)).
  { apply comprehension_map. eapply Forall_impl; [exact Hobj|].
    intros h Hi. by destruct h. }
  exists (map row_of holdings). split; [|split].
  - rewrite item_loop_law, !get_scalar. simpl. unfold get. rewrite Hh. simpl.
    fold meta. by rewrite Hc.
  - by rewrite length_map.
  - intros i h row Hi Hr. rewrite list_lookup_fmap, Hi in Hr. simpl in Hr.
    injection Hr as <-. split.
    + intros k. rewrite assoc_update. destruct (assoc k h); [done|].
      subst meta. simpl. done.
    + destruct (update_keys (dict_items h) meta) as [extra ->]. by exists extra.
Qed.

Lemma holdings_rows_complete_the_holding_witness :
  exists rows,
    ExpandedList.item_loop
      (JObj [ ("cik", JStr "1067983");
              ("holdings", JArr [ JObj [("ticker", JStr "TSLA"); ("cik", JStr "own")] ]) ]) []
    = Ok ([] ++ rows)
    /\ length rows = 1%nat.
Proof.
  destruct (holdings_rows_complete_the_holding
              [ ("cik", JStr "1067983");
                ("holdings", JArr [ JObj [("ticker", JStr "TSLA"); ("cik", JStr "own")] ]) ]
              [ JObj [("ticker", JStr "TSLA"); ("cik", JStr "own")] ] [] eq_refl)
    as (rows & Hrun & Hlen & _).
  - repeat constructor.
  - exists rows. split; [exact Hrun|exact Hlen].
Defined.

Example holding_overrides_cik :
  ExpandedList.item_loop
    (JObj [ ("cik", JStr "1067983");
            ("holdings", JArr [ JObj [("ticker", JStr "TSLA"); ("cik", JStr "own")] ]) ]) []
  = Ok [ [("cik", JStr "own"); ("periodOfReport", JNull); ("ticker", JStr "TSLA")] ].
Proof. reflexivity. Qed.

(** X16. The 13F flattening is stricter than the insider one about its
    nested list: an item without "holdings" gives no row, but an explicit
    null, or any holding that is not a dict, makes the whole call raise
    TypeError; a response without "data" gives the empty table. *)
Theorem holdings_edge_cases (items : list (string * json)) (acc : list (list (string * json))) :
  (assoc "holdings" items = None -> ExpandedList.item_loop (JObj items) acc = Ok acc)
  /\ (assoc "holdings" items = Some JNull ->
      ExpandedList.item_loop (JObj items) acc = Raise TypeError)
  /\ (forall holdings h,
        assoc "holdings" items = Some (JArr holdings) ->
        h ∈ holdings -> is_obj h = false ->
        ExpandedList.item_loop (JObj items) acc = Raise TypeError)
  /\ (assoc "data" items = None -> ExpandedList.holdings_rows (JObj items) = Ok []).
Proof.
  split; [|split; [|split]].
  - intros H. rewrite item_loop_law, !get_scalar. simpl. unfold get. rewrite H. simpl.
    by rewrite app_nil_r.
  - intros H. rewrite item_loop_law, !get_scalar. simpl. unfold get. by rewrite H.
  - intros holdings h H Hin Hno. rewrite item_loop_law, !get_scalar. simpl.
    unfold get. rewrite H. simpl.
    assert (E : comprehension
                  (merge [("cik", scalar_at (JObj items) ["cik"]);
                          ("periodOfReport", scalar_at (JObj items) ["periodOfReport"])])
                  holdings = Raise TypeError).
    { clear H. induction holdings as [|x l IH]; [by apply elem_of_nil in Hin|].
      simpl. apply elem_of_cons in Hin as [<-|Hin].
      - by destruct h.
      - destruct x; simpl; try done. by rewrite (IH Hin). }
    by rewrite E.
  - intros H. unfold ExpandedList.holdings_rows, get. by rewrite H.
Qed.

Lemma holdings_edge_cases_witness :
  ExpandedList.item_loop (JObj [("cik", JStr "1")]) [] = Ok []
  /\ ExpandedList.item_loop (JObj [("holdings", JNull)]) [] = Raise TypeError.
Proof.
  split.
  - exact (proj1 (holdings_edge_cases [("cik", JStr "1")] []) eq_refl).
  - exact (proj1 (proj2 (holdings_edge_cases [("holdings", JNull)] [])) eq_refl).
Defined.

(** ** Import, then fetch *)

(** X17. Once the day-window script is imported with a non-empty API_KEY in
    the environment, a fetch authenticates with exactly that key, and the
    rows it returns are described with the twelve-entry vocabulary the
    import bound. *)
Theorem import_then_fetch (o : oracle) (key query : string) (size : Z) (w : world) :
  environ w !! "API_KEY" = Some key ->
  key <> "" ->
  exists w1,
    DeepDive.import_module w = (Ok tt, w1)
    /\ wire (DeepDive.fetch_insider_trades o query size w1).2
       = wire w ++ [POST DeepDive.BASE_URL (Some key)
                      (mkPayload query 0 (Z.min size 50) ("filedAt", "desc"))]
    /\ forall rows,
         (DeepDive.fetch_insider_trades o query size w1).1 = Ok rows ->
         Forall (fun r => DeepDive.transactionDesc r
                          = Plain.entry DeepDive.meanings (DeepDive.transactionCode r)) rows.
Proof.
  intros He Hk.
  exists (mkWorld (environ w) (stdout w) (wire w) (mkGlobals key DeepDive.meanings)).
  split; [|split].
  - unfold DeepDive.import_module. io_run. rewrite He. cbn [default id].
    destruct (String.eqb_spec key ""); [done|done].
  - rewrite fetch_insider_trades_run. cbv zeta. cbn [module API_KEY].
    destruct (requests_post o _ _ _) as [r|]; [|done].
    by destruct (raise_for_status r).
  - intros rows. rewrite fetch_insider_trades_run. cbv zeta.
    cbn [module API_KEY TRANSACTION_CODE_MEANINGS].
    destruct (requests_post o _ _ _) as [r|]; [|discriminate].
    destruct (raise_for_status r); cbn [fst].
    + destruct (json_of r); [|discriminate]. apply flatten_described.
    + intros [= <-]. constructor.
Qed.

Lemma import_then_fetch_witness :
  exists w1,
    DeepDive.import_module (mkWorld {["API_KEY" := "k3y"]} [] [] (mkGlobals "" ∅))
    = (Ok tt, w1)
    /\ wire (DeepDive.fetch_insider_trades Stub.online "issuer.tradingSymbol:ABC" 80 w1).2
       = [POST DeepDive.BASE_URL (Some "k3y")
            (mkPayload "issuer.tradingSymbol:ABC" 0 (Z.min 80 50) ("filedAt", "desc"))].
Proof.
  destruct (import_then_fetch Stub.online "k3y" "issuer.tradingSymbol:ABC" 80
              (mkWorld {["API_KEY" := "k3y"]} [] [] (mkGlobals "" ∅)))
    as (w1 & Hi & Hw & _); [vm_compute; reflexivity|discriminate|].
  exists w1. split; [exact Hi|exact Hw].
Defined.

(** X18. The two functions modelled from [api_test_expanded_list.py] send
    exactly one request each, authenticated by header and with the size as
    requested: the insider flattening asks the insider-trading endpoint for
    the newest filings first, the 13F one asks the holdings endpoint for the
    latest report period first. *)
Theorem expanded_list_requests (o : oracle) (query : string) (size : Z) (w : world) :
  wire (ExpandedList.fetch_insider_trades_enhanced o query size w).2
  = wire w ++ [POST "https://api.sec-api.io/insider-trading" (Some (API_KEY (module w)))
                 (mkPayload query 0 size ("filedAt", "desc"))]
  /\ wire (ExpandedList.fetch_form13f_holdings o query size w).2
     = wire w ++ [POST "https://api.sec-api.io/form-13f/holdings" (Some (API_KEY (module w)))
                    (mkPayload query 0 size ("periodOfReport", "desc"))].
Proof.
  split.
  - unfold ExpandedList.fetch_insider_trades_enhanced. io_run.
    change ExpandedList.BASE_URL_INSIDER with "https://api.sec-api.io/insider-trading".
    destruct (requests_post o _ _ _) as [r|]; io_run; [|done].
    destruct (raise_for_status r) as [[]|[]]; io_run; try done.
    destruct (json_of r) as [j|]; io_run; [|done].
    by destruct (ApiTest.flatten j) as [[|x l]|]; io_run.
  - unfold ExpandedList.fetch_form13f_holdings. io_run.
    change ExpandedList.BASE_URL_13F_HOLDINGS with "https://api.sec-api.io/form-13f/holdings".
    destruct (requests_post o _ _ _) as [r|]; io_run; [|done].
    destruct (raise_for_status r) as [[]|[]]; io_run; try done.
    destruct (json_of r) as [j|]; io_run; [|done].
    by destruct (ExpandedList.holdings_rows j).
Qed.

(** ** What the analysis prints *)

(** X19. On a batch it gets through (the column of transaction dates
    parses, the window is one a [Timedelta] holds and leads from each
    transaction date to a day of the calendar, every record without a
    transaction date has no price data), the day-window analysis prints
    one line for each record whose price history could not be fetched
    because the collaborator threw, in the order of the records, and
    nothing for the others; a record with an empty history is silent.  The
    line names the ticker and ends with the text of the exception. *)
Theorem day_analysis_reports_failed_lookups
    (o : oracle) (r : DeepDive.row json) (df : list (DeepDive.row json)) (n : Z) (w : world)
    (cells : nat -> option Timestamp) :
  to_datetime o (map DeepDive.transactionDate (r :: df)) = inr cells ->
  in_bounds (n * ns_per_day) = true ->
  Forall (Expected.ready_days o n)
    (DeepDive.with_transactionDate (fun i => date_of <$> cells i) (r :: df)) ->
  stdout (DeepDive.analyze_trade_momentum o (r :: df) n w).2
  = stdout w ++
    concat
      (imap (fun i row =>
               let d := date_of <$> cells i in
               match yf_history o (DeepDive.ticker row)
                       (on_day d) (on_day ((fun d => d + n) <$> d)) "1d" with
               | inr _ => []
               | inl msg => ["Error fetching history for "
                               +:+ str_json o (DeepDive.ticker row) +:+ ": " +:+ msg]
               end) (r :: df)).
Proof.
  intros Hp Hb Hr.
  destruct (analyze_days o (r :: df) n w cells Hp Hb Hr) as (w' & E & _ & S).
  rewrite E. cbn [snd]. rewrite S. do 2 f_equal.
  unfold DeepDive.with_transactionDate.
  change (map ?f ?l) with (f <$> l). rewrite fmap_imap. apply imap_ext.
  intros i row _. unfold Expected.report, Expected.answer_days. reflexivity.
Qed.

Lemma day_analysis_reports_failed_lookups_witness :
  stdout (DeepDive.analyze_trade_momentum Stub.online
            [Stub.trade "ABC" "2024-01-02"; Stub.trade "GONE" "2024-01-02";
             Stub.trade "XYZ" "2024-01-02"] 30 Stub.ready).2
  = ["Error fetching history for GONE: No timezone found, symbol may be delisted"].
Proof.
  refine (day_analysis_reports_failed_lookups Stub.online
            (Stub.trade "ABC" "2024-01-02")
            [Stub.trade "GONE" "2024-01-02"; Stub.trade "XYZ" "2024-01-02"] 30 Stub.ready
            (fun i => default None ([Some (midnight (ymd 2024 1 2));
                                     Some (midnight (ymd 2024 1 2));
                                     Some (midnight (ymd 2024 1 2))] !! i))
            _ _ _).
  - vm_compute. reflexivity.
  - vm_compute. reflexivity.
  - repeat constructor; vm_compute; discriminate.
Defined.

(** ** The file the day-window script writes *)

(** Anything but the writing of the CSV file. *)
Definition not_csv (c : call) : Prop :=
  match c with TO_CSV _ _ => False | _ => True end.

(** From [w] to [w'] requests may have been sent, but no file was written. *)
Definition quiet (w w' : world) : Prop :=
  exists cs, wire w' = wire w ++ cs /\ Forall not_csv cs.

Lemma quiet_refl (w : world) : quiet w w.
Proof. exists []. by rewrite app_nil_r. Qed.

Lemma quiet_trans (w1 w2 w3 : world) : quiet w1 w2 -> quiet w2 w3 -> quiet w1 w3.
Proof.
  intros (c1 & E1 & F1) (c2 & E2 & F2). exists (c1 ++ c2). split.
  - by rewrite E2, E1, app_assoc.
  - by apply Forall_app.
Qed.

Lemma quiet_same_wire (w w' : world) : wire w' = wire w -> quiet w w'.
Proof. intros E. exists []. by rewrite E, app_nil_r. Qed.

Section Quiet.
Variable o : oracle.

Lemma quiet_fetch (query : string) (size : Z) (w : world) :
  quiet w (DeepDive.fetch_insider_trades o query size w).2.
Proof.
  exists [POST DeepDive.BASE_URL (Some (API_KEY (module w)))
            (mkPayload query 0 (Z.min size 50) ("filedAt", "desc"))].
  split; [|by repeat constructor].
  rewrite fetch_insider_trades_run. cbv zeta.
  destruct (requests_post o _ _ _) as [r|]; [|done].
  by destruct (raise_for_status r).
Qed.

Lemma mega_caps_returns (w : world) :
  exists candidates w',
    DeepDive.get_random_mega_caps o 20 w = (Ok candidates, w') /\ quiet w w'.
Proof.
  rewrite get_random_mega_caps_run. cbv zeta.
  destruct (wire_fold_sent (fun t => INFO (JStr t)) DeepDive.default_universe w)
    as (Hw & _ & _).
  assert (Q : quiet w (fold_left (fun w t => sent w (INFO (JStr t)))
                         DeepDive.default_universe w)).
  { eexists. split; [exact Hw|]. apply Forall_forall. intros c Hc.
    apply list_elem_of_In, in_map_iff in Hc. by destruct Hc as (t & <- & _). }
  destruct (_ <? 20) eqn:C.
  - eexists _, _. split; [reflexivity|]. eapply quiet_trans; [exact Q|].
    by apply quiet_same_wire.
  - apply Z.ltb_ge in C. unfold random_sample.
    replace (_ <? 20) with false by (symmetry; apply Z.ltb_ge; lia).
    io_run. cbn [orb]. eexists _, _. split; [reflexivity|exact Q].
Qed.

Lemma quiet_analysis (df : list (DeepDive.row json)) (n : Z) (w : world) :
  quiet w (DeepDive.analyze_trade_momentum o df n w).2
  /\ forall results, (DeepDive.analyze_trade_momentum o df n w).1 = Ok results
                     -> length results = length df.
Proof.
  destruct (analyze_days_requests o df n w) as (cs & W & F & L).
  split; [|exact L]. exists cs. split; [exact W|].
  eapply Forall_impl; [exact F|]. by intros [].
Qed.

(** The loop of the main block over the candidates. *)
Definition fetch_loop (t : string) (frames : list (list (DeepDive.row json)))
  : io (list (list (DeepDive.row json))) :=
  df_t ← DeepDive.fetch_insider_trades o ("issuer.tradingSymbol:" +:+ t) 50;
  match df_t with
  | [] => _ ← print ("No trades for " +:+ t +:+ ", skipping."); mret frames
  | _ => mret (frames ++ [df_t])
  end.

Lemma fetch_loop_turn (t : string) (frames : list (list (DeepDive.row json))) (w : world) :
  Forall (fun f => f <> []) frames ->
  quiet w (fetch_loop t frames w).2
  /\ forall frames',
       (fetch_loop t frames w).1 = Ok frames' -> Forall (fun f => f <> []) frames'.
Proof.
  intros Hf. unfold fetch_loop.
  pose proof (quiet_fetch ("issuer.tradingSymbol:" +:+ t) 50 w) as Q.
  destruct (DeepDive.fetch_insider_trades o _ 50 w) as [[[|x df]|e] w1] eqn:E;
    cbn [snd] in Q.
  - rewrite (io_bind_ok _ _ _ _ _ E), (io_bind_ok _ _ _ _ _ (print_run _ _)).
    split; [|by intros ? [= <-]].
    eapply quiet_trans; [exact Q|]. by apply quiet_same_wire.
  - rewrite (io_bind_ok _ _ _ _ _ E). split; [exact Q|].
    intros ? [= <-]. apply Forall_app. split; [done|]. by repeat constructor.
  - rewrite (io_bind_raise _ _ _ _ _ E). split; [exact Q|discriminate].
Qed.

Lemma fetch_loop_keeps_frames_non_empty (candidates : list string)
    (frames : list (list (DeepDive.row json))) (w : world) :
  Forall (fun f => f <> []) frames ->
  quiet w (for_io candidates fetch_loop frames w).2
  /\ forall frames',
       (for_io candidates fetch_loop frames w).1 = Ok frames' ->
       Forall (fun f => f <> []) frames'.
Proof.
  revert frames w. induction candidates as [|t l IH]; intros frames w Hf.
  - split; [apply quiet_refl|]. by intros ? [= <-].
  - cbn [for_io]. destruct (fetch_loop_turn t frames w Hf) as [Q F].
    destruct (fetch_loop t frames w) as [[fr|e] w1] eqn:E; cbn [fst snd] in *.
    + rewrite (io_bind_ok _ _ _ _ _ E).
      destruct (IH fr w1 (F fr eq_refl)) as [Q2 F2].
      split; [|exact F2]. eapply quiet_trans; [exact Q|exact Q2].
    + rewrite (io_bind_raise _ _ _ _ _ E). split; [exact Q|discriminate].
Qed.
End Quiet.

(** X20. Whatever the collaborators answer, the day-window script writes
    its CSV file at most once, as the last thing it sends, and only a file
    with at least one row; a run that raises (no credential, a failed
    fetch, no trades at all) writes no file. *)
Theorem day_window_script_writes_no_empty_file (o : oracle) (w : world) :
  exists cs,
    Forall not_csv cs
    /\ ((exists e, (DeepDive.main o w).1 = Raise e
                   /\ wire (DeepDive.main o w).2 = wire w ++ cs)
        \/ (exists n, (DeepDive.main o w).1 = Ok tt
                      /\ wire (DeepDive.main o w).2
                         = wire w ++ cs ++ [TO_CSV DeepDive.out_path (S n)])).
Proof.
  unfold DeepDive.main.
  destruct (DeepDive.import_module w) as [[[]|e] w0] eqn:Hi.
  2:{ rewrite (io_bind_raise _ _ _ _ _ Hi). exists []. split; [constructor|]. left.
      exists e. split; [done|]. cbn [snd]. rewrite app_nil_r.
      revert Hi. unfold DeepDive.import_module. io_run.
      destruct (String.eqb _ ""); by intros [= _ <-]. }
  assert (Q0 : quiet w w0).
  { apply quiet_same_wire. revert Hi. unfold DeepDive.import_module. io_run.
    destruct (String.eqb _ ""); by intros [= <-]. }
  rewrite (io_bind_ok _ _ _ _ _ Hi).
  destruct (mega_caps_returns o w0) as (candidates & w1 & Hc & Q1).
  rewrite (io_bind_ok _ _ _ _ _ Hc), (io_bind_ok _ _ _ _ _ (print_run _ _)).
  set (w2 := printed w1 _).
  assert (Q2 : quiet w w2).
  { eapply quiet_trans; [exact Q0|]. eapply quiet_trans; [exact Q1|].
    by apply quiet_same_wire. }
  destruct (fetch_loop_keeps_frames_non_empty o candidates [] w2) as [Q3 F3];
    [constructor|].
  change (fun (t : string) (frames : list (list (DeepDive.row json))) =>
            DeepDive.fetch_insider_trades o ("issuer.tradingSymbol:" +:+ t) 50
            ≫= (fun df_t => match df_t with
                           | [] => print ("No trades for " +:+ t +:+ ", skipping.")
                                   ≫= (fun _ => mret frames)
                           | _ :: _ => mret (frames ++ [df_t])
                           end)) with (fetch_loop o).
  destruct (for_io candidates (fetch_loop o) [] w2) as [[frames|e] w3] eqn:Hl;
    cbn [fst snd] in *.
  2:{ rewrite (io_bind_raise _ _ _ _ _ Hl).
      destruct (quiet_trans _ _ _ Q2 Q3) as (cs & E & F).
      exists cs. split; [done|]. left. by exists e. }
  rewrite (io_bind_ok _ _ _ _ _ Hl). specialize (F3 frames eq_refl).
  destruct frames as [|f frames].
  { rewrite (io_bind_ok _ _ _ _ _ (print_run _ _)).
    destruct (quiet_trans _ _ _ Q2 Q3) as (cs & E & F).
    exists cs. split; [done|]. left. eexists. split; [reflexivity|]. exact E. }
  destruct (quiet_analysis o (concat (f :: frames)) 30 w3) as [Q4 Hn].
  destruct (DeepDive.analyze_trade_momentum o (concat (f :: frames)) 30 w3)
    as [[results|e] w4] eqn:Ha; cbn [fst snd] in *.
  2:{ rewrite (io_bind_raise _ _ _ _ _ Ha).
      destruct (quiet_trans _ _ _ (quiet_trans _ _ _ Q2 Q3) Q4) as (cs & E & F).
      exists cs. split; [done|]. left. by exists e. }
  specialize (Hn results eq_refl).
  rewrite (io_bind_ok _ _ _ _ _ Ha), (io_bind_ok _ _ _ _ _ (print_run _ _)).
  io_run. cbn [fst snd wire stdout printed].
  destruct (quiet_trans _ _ _ (quiet_trans _ _ _ Q2 Q3) Q4) as (cs & E & F).
  exists cs. split; [done|]. right.
  apply Forall_cons in F3 as [Hf _].
  destruct f as [|x f]; [done|].
  assert (Hlen : exists m, length results = S m).
  { rewrite Hn. simpl. eauto. }
  destruct Hlen as [m Hm]. exists m. split; [done|].
  rewrite E, Hm. by rewrite app_assoc.
Qed.
